(** * download_nvidia.py: manifest resolution and archive ingestion

    A shallow embedding of the command-line core of [download_nvidia.py]
    ([fetch_file], [fix_permissions], [flatten_tree], [parse_artifact],
    [fetch_action], [post_action], [main]), of its tables and of the
    part of the window that builds the command line of the worker, and
    the properties of them that the specification states or the code
    shows.

    Python strings are modelled as [string] (byte sequences, UTF-8), the
    manifest as a JSON value, dictionaries as association lists in
    insertion order, exceptions as a result type, and the process state
    (file system, [ARCHIVES], standard output and error, the URLs that
    were opened) as an explicit world threaded through a state-and-error
    monad. *)

From Stdlib Require Import List String Ascii ZArith Bool Lia Arith.
From Stdlib Require Import Permutation Sorted DecimalString.
Import ListNotations.
Open Scope string_scope.
Open Scope list_scope.

Set Implicit Arguments.
Set Warnings "-register-all".

(** ** Python string operations *)

Module Py.

(** [s.split(sep)] for a one-character separator: every occurrence of
    [sep] ends a piece, so a string with [n] separators has [n+1] pieces. *)
Fixpoint split (sep : ascii) (s : string) : list string :=
  match s with
  | EmptyString => [EmptyString]
  | String c s' =>
      if Ascii.eqb c sep then EmptyString :: split sep s'
      else match split sep s' with
           | h :: t => String c h :: t
           | [] => [String c EmptyString]
           end
  end.

(** [s.startswith(p)] *)
Definition startswith (s p : string) : bool := String.prefix p s.

(** [s.endswith(suf)] *)
Fixpoint endswith (s suf : string) : bool :=
  String.eqb s suf ||
  match s with
  | EmptyString => false
  | String _ s' => endswith s' suf
  end.

(** [s.count(c)] for a character [c]. *)
Fixpoint count (c : ascii) (s : string) : nat :=
  match s with
  | EmptyString => 0
  | String a s' => (if Ascii.eqb a c then 1 else 0) + count c s'
  end.

(** [re.search(p, s)] for a pattern [p] that matches one literal string
    (the two patterns of the script, [\.tar\.] and [\.zip], are such):
    is there an occurrence of the literal anywhere in [s]? *)
Fixpoint search (lit s : string) : bool :=
  String.prefix lit s ||
  match s with
  | EmptyString => false
  | String _ s' => search lit s'
  end.

(** [p in s] on two strings is the same substring test. *)
Definition str_in (p s : string) : bool := search p s.

(** The literal [lit] occurs in [s]. *)
Definition occurs (lit s : string) : Prop :=
  exists a b : string, s = (a ++ lit ++ b)%string.

(** Truthiness of an optional string: [None] and [""] are false. *)
Definition truthy (o : option string) : bool :=
  match o with
  | None => false
  | Some EmptyString => false
  | Some _ => true
  end.

(** What an f-string prints for an optional argument. *)
Definition fmt (o : option string) : string :=
  match o with
  | Some s => s
  | None => "None"
  end.

Definition nl : string := String (ascii_of_nat 10) EmptyString.

End Py.

(** ** posixpath *)

Module Path.

Definition sep : ascii := "/"%char.

(** [os.path.basename(p)]: what follows the last slash. *)
Definition basename (p : string) : string :=
  last (Py.split sep p) EmptyString.

(** [os.path.join(a, b)] *)
Definition join (a b : string) : string :=
  if Py.startswith b "/" then b
  else if (String.eqb a EmptyString || Py.endswith a "/")%bool then a ++ b
  else a ++ "/" ++ b.

(** [os.path.join(a, b, c)] *)
Definition join3 (a b c : string) : string := join (join a b) c.

(** The longest common prefix of two strings. *)
Fixpoint common2 (s1 s2 : string) : string :=
  match s1, s2 with
  | String a s1', String b s2' =>
      if Ascii.eqb a b then String a (common2 s1' s2') else EmptyString
  | _, _ => EmptyString
  end.

Definition str_min (a b : string) : string := if String.leb a b then a else b.
Definition str_max (a b : string) : string := if String.leb a b then b else a.

(** [os.path.commonprefix(m)]: the common prefix of the least and the
    greatest name, character by character; the empty string for no names. *)
Definition commonprefix (m : list string) : string :=
  match m with
  | [] => EmptyString
  | x :: xs => common2 (fold_left str_min xs x) (fold_left str_max xs x)
  end.

End Path.

(** ** Exceptions and results *)

Inductive exn_class : Type :=
| KeyError | TypeError | IndexError | AttributeError
| FileNotFoundError | FileExistsError | NotADirectoryError | IsADirectoryError
| OSError | ShutilError | ReadError | BadZipFile
| URLError | HTTPError | JSONDecodeError.

Record exn : Type := Exn { exn_cls : exn_class; exn_str : string }.

Definition exn_class_eqb (a b : exn_class) : bool :=
  match a, b with
  | KeyError, KeyError | TypeError, TypeError | IndexError, IndexError
  | AttributeError, AttributeError | FileNotFoundError, FileNotFoundError
  | FileExistsError, FileExistsError | NotADirectoryError, NotADirectoryError
  | IsADirectoryError, IsADirectoryError | OSError, OSError
  | ShutilError, ShutilError | ReadError, ReadError | BadZipFile, BadZipFile
  | URLError, URLError | HTTPError, HTTPError
  | JSONDecodeError, JSONDecodeError => true
  | _, _ => false
  end.

(** The outcome of a computation on a state [S]: a value or a raised
    exception, each with the state reached. *)
Inductive res (S A : Type) : Type :=
| Ok (a : A) (s : S)
| Raise (e : exn) (s : S).

Arguments Ok {S A} a s.
Arguments Raise {S A} e s.

(** A pure computation that can raise. *)
Definition pure_res (A : Type) : Type := (exn + A)%type.

(** ** Sequence indexing and the BinTag parse *)

(** [l[i]]: raises [IndexError] past the end. *)
Definition py_index (l : list string) (i : nat) : pure_res string :=
  match nth_error l i with
  | Some x => inr x
  | None => inl (Exn IndexError "list index out of range")
  end.

(** [try: binTag = archive.split("-")[3].split("_")[1]
     except: binTag = None] *)
Definition binTag (archive : string) : option string :=
  match py_index (Py.split "-" archive) 3 with
  | inl _ => None
  | inr seg =>
      match py_index (Py.split "_" seg) 1 with
      | inl _ => None
      | inr t => Some t
      end
  end.

(** ** Dictionaries

    A Python [dict] keeps its keys in insertion order, and the script
    iterates over its dictionaries; they are association lists here, with
    the first binding of a key the one that counts. *)

Module Dict.

Section Ops.
Variable V : Type.

Definition t : Type := list (string * V).

Fixpoint get (k : string) (d : t) : option V :=
  match d with
  | [] => None
  | (k', v) :: d' => if String.eqb k k' then Some v else get k d'
  end.

(** [k in d] *)
Definition mem (k : string) (d : t) : bool :=
  match get k d with Some _ => true | None => false end.

(** [d.keys()] *)
Definition keys (d : t) : list string := map fst d.

(** [d[k] = v]: replaces the value in place, or adds the key at the end. *)
Fixpoint set (k : string) (v : V) (d : t) : t :=
  match d with
  | [] => [(k, v)]
  | (k', v') :: d' =>
      if String.eqb k k' then (k', v) :: d' else (k', v') :: set k v d'
  end.

End Ops.

End Dict.

(** ** JSON values and the operations the script applies to them *)

Inductive json : Type :=
| JNull
| JBool (b : bool)
| JNum (n : Z)
| JStr (s : string)
| JArr (items : list json)
| JObj (members : list (string * json)).

Definition is_JStr_named (k : string) (j : json) : bool :=
  match j with
  | JStr s => String.eqb s k
  | _ => false
  end.

(** [k in x] for a string [k]: key membership on a dict, substring on a
    string, element membership on a list, [TypeError] on the rest. *)
Definition py_in (k : string) (x : json) : pure_res bool :=
  match x with
  | JObj d => inr (Dict.mem k d)
  | JStr s => inr (Py.str_in k s)
  | JArr l => inr (existsb (is_JStr_named k) l)
  | _ => inl (Exn TypeError "argument is not iterable")
  end.

(** [x[k]] for a string [k]: [KeyError] on a dict without the key,
    [TypeError] on anything that is not a dict. *)
Definition py_getitem (x : json) (k : string) : pure_res json :=
  match x with
  | JObj d =>
      match Dict.get k d with
      | Some v => inr v
      | None => inl (Exn KeyError ("'" ++ k ++ "'")%string)
      end
  | JStr _ => inl (Exn TypeError "string indices must be integers")
  | JArr _ => inl (Exn TypeError "list indices must be integers or slices, not str")
  | _ => inl (Exn TypeError "object is not subscriptable")
  end.

(** [x.keys()] *)
Definition py_keys (x : json) : pure_res (list string) :=
  match x with
  | JObj d => inr (Dict.keys d)
  | _ => inl (Exn AttributeError "object has no attribute 'keys'")
  end.

(** [isinstance(x, str)] *)
Definition isinstance_str (x : json) : bool :=
  match x with JStr _ => true | _ => false end.

(** [a + x] where [a] is a string: [TypeError] unless [x] is one too. *)
Definition py_concat (a : string) (x : json) : pure_res string :=
  match x with
  | JStr s => inr (a ++ s)%string
  | _ => inl (Exn TypeError "can only concatenate str to str")
  end.

(** ** The operating system, the libraries and the network

    What the script calls and does not implement: the file system
    ([os], [os.path], [shutil], [open]), the archive readers ([tarfile],
    [zipfile]), the JSON decoder and [urlopen].  A file-system operation
    takes the file system and returns the one it leaves, also when it
    raises. *)

Class OS : Type := {
  FS : Type;
  bytes : Type;
  (** [os.getcwd()] *)
  getcwd : FS -> string;
  (** [os.path.exists], [os.path.isdir], [os.path.isfile] *)
  path_exists : FS -> string -> bool;
  path_isdir : FS -> string -> bool;
  path_isfile : FS -> string -> bool;
  (** [with open(filename, "wb") as file: file.write(data)] *)
  open_wb_write : string -> bytes -> FS -> res FS unit;
  (** [os.makedirs(path)] *)
  makedirs : string -> FS -> res FS unit;
  (** [os.listdir(path)] *)
  listdir : string -> FS -> res FS (list string);
  (** [os.walk(directory)]: the [(root, dirs, files)] triples, top down *)
  walk : string -> FS -> list (string * list string * list string);
  (** [os.stat(filename).st_mode] *)
  stat_mode : string -> FS -> res FS Z;
  (** [os.chmod(filename, mode)] *)
  chmod : string -> Z -> FS -> res FS unit;
  (** [shutil.copytree(src, dest, symlinks=1, dirs_exist_ok=1,
      ignore_dangling_symlinks=1)] *)
  copytree : string -> string -> FS -> res FS unit;
  (** [shutil.rmtree(src)] *)
  rmtree : string -> FS -> res FS unit;
  (** [tarfile.open(archive)] followed by [getnames()] *)
  tar_open : string -> FS -> res FS (list string);
  (** [tarball.extractall()] then [tarball.close()], in the working directory *)
  tar_extractall : string -> FS -> res FS unit;
  (** [zipfile.ZipFile(archive)] followed by [namelist()] *)
  zip_open : string -> FS -> res FS (list string);
  (** [zippy.extractall()] and the end of the [with] block *)
  zip_extractall : string -> FS -> res FS unit;
  (** [urlopen(url)]: the status and the body of the response *)
  urlopen : string -> pure_res (Z * bytes);
  (** [json.loads(body)] *)
  json_loads : bytes -> pure_res json
}.

(** ** The state-and-error monad *)

Definition M (W A : Type) : Type := W -> res W A.

Definition ret {W A : Type} (a : A) : M W A := fun w => Ok a w.

Definition bind {W A B : Type} (c : M W A) (k : A -> M W B) : M W B :=
  fun w =>
    match c w with
    | Ok a w' => k a w'
    | Raise e w' => Raise e w'
    end.

Declare Scope monad_scope.
Delimit Scope monad_scope with monad.
Notation "x <- c ;; k" := (bind c (fun x => k))
  (at level 61, c at next level, right associativity) : monad_scope.
Notation "c ;; k" := (bind c (fun _ => k))
  (at level 61, right associativity) : monad_scope.
Open Scope monad_scope.

(** A pure computation that can raise, run in the monad. *)
Definition lift_pure {W A : Type} (r : pure_res A) : M W A :=
  fun w => match r with inr a => Ok a w | inl e => Raise e w end.

(** [for x in l: body(x)]: stops at the first exception. *)
Fixpoint for_each {W A : Type} (l : list A) (body : A -> M W unit) : M W unit :=
  match l with
  | [] => ret tt
  | x :: l' => body x ;; for_each l' body
  end.

(** The states in which the body of [for x in l] is entered, in order. *)
Fixpoint entered {W A : Type} (l : list A) (body : A -> M W unit) (w : W)
    : list (A * W) :=
  match l with
  | [] => []
  | x :: l' =>
      (x, w) :: match body x w with
                | Ok _ w' => entered l' body w'
                | Raise _ _ => []
                end
  end.

(** [try: c  except cls: pass] *)
Definition try_except_pass {W : Type} (cls : exn_class) (c : M W unit) : M W unit :=
  fun w =>
    match c w with
    | Ok a w' => Ok a w'
    | Raise e w' =>
        if exn_class_eqb (exn_cls e) cls then Ok tt w' else Raise e w'
    end.

(** [sorted(l)] on strings, by insertion. *)
Fixpoint insert_sorted (x : string) (l : list string) : list string :=
  match l with
  | [] => [x]
  | y :: l' => if String.leb x y then x :: l else y :: insert_sorted x l'
  end.

Definition sorted (l : list string) : list string :=
  fold_right insert_sorted [] l.

(** [stat.S_IWRITE], the owner-write bit [0o200]. *)
Definition S_IWRITE : Z := 128.

Definition DOMAIN : string := "https://developer.download.nvidia.com".

(** The command-line arguments of the script. *)
Record Args : Type := {
  arg_download_only : bool;
  arg_product : option string;
  arg_label : option string;
  arg_os : option string;
  arg_arch : option string;
  arg_component : option string;
  arg_variant : option string;
  arg_output : option string
}.

(** The process state on a file system of type [F]: the file system, the
    global [ARCHIVES], what was printed on standard output and on standard
    error, and the URLs given to [urlopen], each in order. *)
Record state (F : Type) : Type := World {
  fs : F;
  ARCHIVES : Dict.t (list string);
  stdout : list string;
  stderr : list string;
  requests : list string
}.

(** ** The script *)

Section Script.

Context {sys : OS}.

(** The process state on the file system of [sys]. *)
Definition world : Type := state FS.

Definition set_fs (w : world) (f : FS) : world :=
  World f (ARCHIVES w) (stdout w) (stderr w) (requests w).

Definition set_ARCHIVES (w : world) (a : Dict.t (list string)) : world :=
  World (fs w) a (stdout w) (stderr w) (requests w).

Definition Run (A : Type) : Type := M world A.

(** The world an outcome leaves. *)
Definition final {A : Type} (r : res world A) : world :=
  match r with
  | Ok _ w => w
  | Raise _ w => w
  end.

(** [c] keeps [P]: from a world with [P] it leaves a world with [P],
    whether it returns or raises. *)
Definition preserves {A : Type} (P : world -> Prop) (c : Run A) : Prop :=
  forall w : world, P w -> P (final (c w)).

(** A file-system operation, run on the world's file system. *)
Definition lift_fs {A : Type} (op : FS -> res FS A) : Run A :=
  fun w =>
    match op (fs w) with
    | Ok a f => Ok a (set_fs w f)
    | Raise e f => Raise e (set_fs w f)
    end.

(** [print(s)] *)
Definition print (s : string) : Run unit :=
  fun w => Ok tt (World (fs w) (ARCHIVES w) (stdout w ++ [s]) (stderr w) (requests w)).

(** [print(s, file=sys.stderr)] *)
Definition eprint (s : string) : Run unit :=
  fun w => Ok tt (World (fs w) (ARCHIVES w) (stdout w) (stderr w ++ [s]) (requests w)).

(** Reads the world and changes nothing. *)
Definition gets {A : Type} (f : world -> A) : Run A :=
  fun w => Ok (f w) w.

(** [os.path.exists(p)] *)
Definition exists_ (p : string) : Run bool :=
  gets (fun w => path_exists (fs w) p).

(** [urlopen(url)], with the URL recorded. *)
Definition open_url (url : string) : Run (Z * bytes) :=
  fun w =>
    let w' := World (fs w) (ARCHIVES w) (stdout w) (stderr w) (requests w ++ [url]) in
    match urlopen url with
    | inr r => Ok r w'
    | inl e => Raise e w'
    end.

(** [ARCHIVES[platform].append(x)] *)
Definition archives_append (platform x : string) : Run unit :=
  fun w =>
    match Dict.get platform (ARCHIVES w) with
    | Some l => Ok tt (set_ARCHIVES w (Dict.set platform (l ++ [x]) (ARCHIVES w)))
    | None => Raise (Exn KeyError ("'" ++ platform ++ "'")%string) w
    end.

(** [ARCHIVES[platform]] *)
Definition archives_get (platform : string) : Run (list string) :=
  fun w =>
    match Dict.get platform (ARCHIVES w) with
    | Some l => Ok l w
    | None => Raise (Exn KeyError ("'" ++ platform ++ "'")%string) w
    end.

(** Predicates on the world that read [ARCHIVES] alone. *)
Definition on (Q : Dict.t (list string) -> Prop) : world -> Prop :=
  fun w => Q (ARCHIVES w).

(** [if not platform in ARCHIVES: ARCHIVES[platform] = []] *)
Definition archives_ensure (platform : string) : Run unit :=
  fun w =>
    if Dict.mem platform (ARCHIVES w) then Ok tt w
    else Ok tt (set_ARCHIVES w (Dict.set platform [] (ARCHIVES w))).

Definition fetch_file (full_path filename : string) : Run unit :=
  download <- open_url full_path ;;
  if negb (fst download =? 200)%Z then
    print ("  -> Failed: " ++ filename)
  else
    print (":: Fetching: " ++ full_path) ;;
    lift_fs (open_wb_write filename (snd download)) ;;
    print ("  -> Wrote: " ++ filename).

(** The walk is listed before the loop: [os.chmod] on a file changes no
    directory, so the lazy generator yields the same triples. *)
Definition fix_permissions (directory : string) : Run unit :=
  triples <- gets (fun w => walk directory (fs w)) ;;
  for_each triples (fun '(root, _, files) =>
    for_each files (fun file =>
      let filename := Path.join root file in
      st_mode <- lift_fs (stat_mode filename) ;;
      lift_fs (chmod filename (Z.lor st_mode S_IWRITE)))).


(** [if tag: dest = os.path.join(dest, tag)] *)
Definition flatten_dest (dest : string) (tag : option string) : string :=
  if Py.truthy tag then Path.join dest (Py.fmt tag) else dest.

Definition flatten_tree (src dest : string) (tag : option string) : Run unit :=
  let dest := flatten_dest dest tag in
  try_except_pass FileExistsError (lift_fs (copytree src dest)) ;;
  lift_fs (rmtree src).

(** [manifest[component][platform][variant]["relative_path"]] when the
    variant is given and not empty, else
    [manifest[component][platform]["relative_path"]]. *)
Definition relative_path_of (manifest : json) (component platform : string)
    (variant : option string) : pure_res json :=
  match py_getitem manifest component with
  | inl e => inl e
  | inr c =>
      match py_getitem c platform with
      | inl e => inl e
      | inr p =>
          if Py.truthy variant then
            match py_getitem p (Py.fmt variant) with
            | inl e => inl e
            | inr v => py_getitem v "relative_path"
            end
          else py_getitem p "relative_path"
      end
  end.

Definition parse_artifact (parent : string) (manifest : json)
    (component platform : string) (retrieve : bool) (variant : option string)
    : Run unit :=
  rel <- lift_pure (relative_path_of manifest component platform variant) ;;
  full_path <- lift_pure (py_concat parent rel) ;;
  let filename := Path.basename full_path in
  cwd <- gets (fun w => getcwd (fs w)) ;;
  let pwd := Path.join3 cwd component platform in
  e_filename <- exists_ filename ;;
  e_full_path <- exists_ full_path ;;
  e_parent_plus <- exists_ (parent ++ filename) ;;
  e_pwd_plus <- exists_ (pwd ++ filename) ;;
  e_parent_join <- exists_ (Path.join parent filename) ;;
  e_pwd_join <- exists_ (Path.join pwd filename) ;;
  if (retrieve && negb e_filename && negb e_full_path
      && negb e_parent_plus && negb e_pwd_plus)%bool then
    fetch_file full_path filename ;;
    archives_append platform filename
  else if e_filename then
    print ("  -> Found: " ++ filename) ;;
    archives_append platform filename
  else if e_full_path then
    print ("  -> Found: " ++ full_path) ;;
    archives_append platform full_path
  else if e_parent_join then
    print ("  -> Found: " ++ Path.join parent filename) ;;
    archives_append platform (Path.join parent filename)
  else if e_pwd_join then
    print ("  -> Found: " ++ Path.join pwd filename) ;;
    archives_append platform (Path.join pwd filename)
  else
    print ("Parent: " ++ Path.join pwd filename) ;;
    print ("  -> Artifact: " ++ filename).

(** Is the artifact in one of the places other than the working
    directory that [parse_artifact] looks at: [parent + relative_path],
    the two concatenated paths of the guard ([parent + filename],
    [pwd + filename]) and the two joined paths of the branches? *)
Definition elsewhere (parent : string) (manifest : json)
    (component platform : string) (variant : option string) (w : world) : bool :=
  match relative_path_of manifest component platform variant with
  | inr (JStr rel) =>
      let full_path := (parent ++ rel)%string in
      let filename := Path.basename full_path in
      let pwd := Path.join3 (getcwd (fs w)) component platform in
      (path_exists (fs w) full_path
       || path_exists (fs w) (parent ++ filename)
       || path_exists (fs w) (pwd ++ filename)
       || path_exists (fs w) (Path.join parent filename)
       || path_exists (fs w) (Path.join pwd filename))%bool
  | _ => false
  end.

(** The names under which [parse_artifact] can record the artifact of a
    relative path: its file name, and the three paths of the other
    places. *)
Definition record_names (parent component platform rel : string) (w : world)
    : list string :=
  let full_path := (parent ++ rel)%string in
  let filename := Path.basename full_path in
  let pwd := Path.join3 (getcwd (fs w)) component platform in
  [filename; full_path; Path.join parent filename; Path.join pwd filename].


(** Is a filter set and different from the key? *)
Definition filtered_out (filter : option string) (key : string) : bool :=
  match filter with
  | Some f => negb (String.eqb key f)
  | None => false
  end.

(** The body of the loop over the variant keys (lines 224-235). *)
Definition variant_step (parent : string) (manifest : json)
    (component platform : string) (cuda_filter : option string)
    (retrieve : bool) (variant : string) : Run unit :=
  if filtered_out cuda_filter variant then
    print ("  -> Skipping variant: " ++ variant)
  else
    parse_artifact parent manifest component platform retrieve (Some variant).

(** A platform that passed the filter (lines 222-239): one resolution for
    a flat entry, one per variant key for a nested one. *)
Definition resolve_platform (parent : string) (manifest : json)
    (component platform : string) (value : json)
    (cuda_filter : option string) (retrieve : bool) : Run unit :=
  flat <- lift_pure (py_in "relative_path" value) ;;
  if negb flat then
    variants <- lift_pure (py_keys value) ;;
    for_each variants
      (variant_step parent manifest component platform cuda_filter retrieve)
  else
    parse_artifact parent manifest component platform retrieve None.

(** The body of the loop over the keys of a component (lines 207-239). *)
Definition platform_step (parent : string) (manifest entry : json)
    (component : string) (platform_filter cuda_filter : option string)
    (retrieve : bool) (platform : string) : Run unit :=
  if Py.str_in "variant" platform then ret tt
  else
    archives_ensure platform ;;
    value <- lift_pure (py_getitem entry platform) ;;
    if isinstance_str value then ret tt
    else if (filtered_out platform_filter platform
             && negb (String.eqb platform "source"))%bool then
      print ("  -> Skipping platform: " ++ platform)
    else
      resolve_platform parent manifest component platform value
        cuda_filter retrieve.

(** The body of the loop over the components (lines 198-239). *)
Definition component_step (parent : string) (manifest : json)
    (component_filter platform_filter cuda_filter : option string)
    (retrieve : bool) (component : string) : Run unit :=
  entry <- lift_pure (py_getitem manifest component) ;;
  named <- lift_pure (py_in "name" entry) ;;
  if negb named then ret tt
  else if filtered_out component_filter component then ret tt
  else
    name <- lift_pure (py_getitem entry "name") ;;
    line <- lift_pure (py_concat Py.nl name) ;;
    version <- lift_pure (py_getitem entry "version") ;;
    line <- lift_pure (py_concat (line ++ ": ") version) ;;
    print line ;;
    platforms <- lift_pure (py_keys entry) ;;
    for_each platforms
      (platform_step parent manifest entry component platform_filter
         cuda_filter retrieve).

Definition fetch_action (parent : string) (manifest : json)
    (component_filter platform_filter cuda_filter : option string)
    (retrieve : bool) : Run unit :=
  components <- lift_pure (py_keys manifest) ;;
  for_each components
    (component_step parent manifest component_filter platform_filter
       cuda_filter retrieve).

(** [os.fspath] of an argument that may be [None]. *)
Definition fspath (p : option string) : Run string :=
  match p with
  | Some s => ret s
  | None =>
      lift_pure (inl (Exn TypeError
        "expected str, bytes or os.PathLike object, not NoneType"))
  end.

(** [if collapse: ...] (lines 267-270 and 282-285) *)
Definition collapse_step (output_dir platform topdir : string)
    (tag : option string) (collapse : bool) : Run unit :=
  if collapse then
    let flatdir := Path.join output_dir platform in
    flatten_tree topdir flatdir tag ;;
    print ("  -> Flattened: " ++ flatdir ++ "/")
  else ret tt.

(** The tar branch (lines 258-270). *)
Definition ingest_tar (output_dir platform archive : string)
    (tag : option string) (collapse : bool) : Run unit :=
  print (":: tar: " ++ archive) ;;
  names <- lift_fs (tar_open archive) ;;
  let topdir := Path.commonprefix names in
  lift_fs (tar_extractall archive) ;;
  print ("  -> Extracted: " ++ topdir ++ "/") ;;
  fix_permissions topdir ;;
  collapse_step output_dir platform topdir tag collapse.

(** The zip branch (lines 273-285). *)
Definition ingest_zip (output_dir platform archive : string)
    (tag : option string) (collapse : bool) : Run unit :=
  print (":: zip: " ++ archive) ;;
  names <- lift_fs (zip_open archive) ;;
  let topdir := Path.commonprefix names in
  lift_fs (zip_extractall archive) ;;
  print ("  -> Extracted: " ++ topdir) ;;
  fix_permissions topdir ;;
  collapse_step output_dir platform topdir tag collapse.

(** The body of the loop over the archives of a platform (lines 251-285). *)
Definition ingest (output_dir : string) (collapse : bool)
    (platform archive : string) : Run unit :=
  let tag := binTag archive in
  if Py.search ".tar." archive then
    ingest_tar output_dir platform archive tag collapse
  else if Py.search ".zip" archive then
    ingest_zip output_dir platform archive tag collapse
  else ret tt.

(** The listing that ends [post_action] (lines 287-292). *)
Definition report (output_dir : string) : Run unit :=
  print (Py.nl ++ "Output: " ++ output_dir ++ "/") ;;
  items <- lift_fs (listdir output_dir) ;;
  for_each (sorted items) (fun item =>
    is_dir <- gets (fun w => path_isdir (fs w) (Path.join output_dir item)) ;;
    is_file <- gets (fun w => path_isfile (fs w) (Path.join output_dir item)) ;;
    if is_dir then print (" - " ++ item ++ "/")
    else if is_file then print (" - " ++ item)
    else ret tt).

(** [if not os.path.exists(output_dir): os.makedirs(output_dir)]
    (lines 246-247) *)
Definition ensure_dir (output_dir : string) : Run unit :=
  present <- exists_ output_dir ;;
  if negb present then lift_fs (makedirs output_dir) else ret tt.

(** The two loops over [ARCHIVES] (lines 249-285). *)
Definition ingest_all (output_dir : string) (collapse : bool)
    (platforms : list string) : Run unit :=
  for_each platforms (fun platform =>
    archives <- archives_get platform ;;
    for_each archives (ingest output_dir collapse platform)).

Definition post_action (output_dir : option string) (collapse : bool) : Run unit :=
  platforms <- gets (fun w => Dict.keys (ARCHIVES w)) ;;
  if (List.length platforms =? 0)%nat then ret tt
  else
    print (Py.nl ++ "Archives:") ;;
    out <- fspath output_dir ;;
    ensure_dir out ;;
    ingest_all out collapse platforms ;;
    report out.

(** [parent = f"{DOMAIN}/compute/{args.product}/redist/"] *)
Definition redist_parent (args : Args) : string :=
  DOMAIN ++ "/compute/" ++ Py.fmt (arg_product args) ++ "/redist/".

(** [manifest_uri = f"{parent}redistrib_{args.label}.json"] *)
Definition manifest_uri (args : Args) : string :=
  redist_parent args ++ "redistrib_" ++ Py.fmt (arg_label args) ++ ".json".

(** [platform = f"{args.os}-{args.arch}"] *)
Definition platform_of (args : Args) : string :=
  Py.fmt (arg_os args) ++ "-" ++ Py.fmt (arg_arch args).

(** The [try] block of the [--download-only] branch of [main]
    (lines 566-583). *)
Definition download_only_body (args : Args) : Run unit :=
  manifest_response <- open_url (manifest_uri args) ;;
  manifest <- lift_pure (json_loads (snd manifest_response)) ;;
  fetch_action (redist_parent args) manifest (arg_component args)
    (Some (platform_of args)) (arg_variant args) true ;;
  post_action (arg_output args) true.

(** The [--download-only] branch of [main] (lines 564-588): the exit
    status and the world the process leaves. *)
Definition download_only (args : Args) : world -> Z * world :=
  fun w =>
    match download_only_body args w with
    | Ok _ w' => (0%Z, w')
    | Raise e w' =>
        match eprint ("Error during download: " ++ exn_str e) w' with
        | Ok _ w'' => (1%Z, w'')
        | Raise _ w'' => (1%Z, w'')
        end
    end.

End Script.

(** ** A reference model of the operating system

    A POSIX file tree of regular files, symbolic links and directories,
    and the library calls of the script on it.  Paths are resolved
    lexically: [.] and empty components are dropped, [..] removes the
    component before it, a relative path starts at the working directory.
    A symbolic link is followed when it is the last component of a path
    (at most [max_links] times); a lookup that would pass through a
    symbolic link to a directory fails.  Permissions are recorded, never
    enforced.  The content of a file is kept as what the decoders of the
    script make of it. *)

Module Posix.

(** A member of an archive. *)
Inductive member : Type :=
| MDir
| MFile (st_mode : Z) (data : string)
| MLink (target : string).

Inductive blob : Type :=
| Bytes (s : string)
| JsonDoc (j : json)
| TarOf (members : list (string * member))
| ZipOf (members : list (string * member)).

Inductive node : Type :=
| File (st_mode : Z) (data : blob)
| Link (target : string)
| Dir (entries : list (string * node)).

Record fsys : Type := Fsys { root : list (string * node); cwd : string }.

Definition S_IFREG : Z := 32768.
Definition S_IFDIR : Z := 16384.
Definition max_links : nat := 40.

(** *** Paths *)

Definition is_name (c : string) : bool :=
  (negb (String.eqb c "") && negb (String.eqb c "."))%bool.

Definition comps (p : string) : list string :=
  filter is_name (Py.split Path.sep p).

Definition norm_step (acc : list string) (c : string) : list string :=
  if String.eqb c ".." then tl acc else c :: acc.

Definition norm (l : list string) : list string :=
  rev (fold_left norm_step l []).

(** The canonical components of [p], taken from the directory [dir]. *)
Definition canon_from (dir : list string) (p : string) : option (list string) :=
  if String.eqb p "" then None
  else if Py.startswith p "/" then Some (norm (comps p))
  else Some (norm (dir ++ comps p)).

Definition canon (f : fsys) (p : string) : option (list string) :=
  canon_from (comps (cwd f)) p.

(** *** Trees *)

Fixpoint get (n : node) (p : list string) : option node :=
  match p with
  | [] => Some n
  | c :: p' =>
      match n with
      | Dir es =>
          match Dict.get c es with
          | Some n' => get n' p'
          | None => None
          end
      | _ => None
      end
  end.

(** Replaces or adds the node at [p]; the directory it is in must exist. *)
Fixpoint put (n : node) (p : list string) (x : node) : option node :=
  match p with
  | [] => Some x
  | c :: p' =>
      match n with
      | Dir es =>
          match p' with
          | [] => Some (Dir (Dict.set c x es))
          | _ =>
              match Dict.get c es with
              | Some n' =>
                  match put n' p' x with
                  | Some n'' => Some (Dir (Dict.set c n'' es))
                  | None => None
                  end
              | None => None
              end
          end
      | _ => None
      end
  end.

Fixpoint remove_key (c : string) (es : list (string * node)) : list (string * node) :=
  match es with
  | [] => []
  | (k, v) :: es' =>
      if String.eqb c k then remove_key c es' else (k, v) :: remove_key c es'
  end.

(** Removes the node at [p], with all that is under it. *)
Fixpoint remove (n : node) (p : list string) : option node :=
  match p with
  | [] => None
  | c :: p' =>
      match n with
      | Dir es =>
          match p' with
          | [] => Some (Dir (remove_key c es))
          | _ =>
              match Dict.get c es with
              | Some n' =>
                  match remove n' p' with
                  | Some n'' => Some (Dir (Dict.set c n'' es))
                  | None => None
                  end
              | None => None
              end
          end
      | _ => None
      end
  end.


Definition tree (f : fsys) : node := Dir (root f).

Definition set_tree (f : fsys) (n : node) : fsys :=
  match n with
  | Dir es => Fsys es (cwd f)
  | _ => f
  end.

(** [lstat]: the node at a canonical path, links not followed. *)
Definition lookup (f : fsys) (cp : list string) : option node := get (tree f) cp.

(** [stat]: the canonical path and the node reached after following the
    links at the end of [cp]; the path alone when nothing is there. *)
Fixpoint follow (fuel : nat) (f : fsys) (cp : list string)
    : option (list string * option node) :=
  match lookup f cp with
  | Some (Link t) =>
      match fuel with
      | O => None
      | S fuel' =>
          match canon_from (removelast cp) t with
          | Some cp' => follow fuel' f cp'
          | None => Some (cp, None)
          end
      end
  | Some n => Some (cp, Some n)
  | None => Some (cp, None)
  end.

Definition resolve (f : fsys) (p : string) : option (list string * option node) :=
  match canon f p with
  | Some cp => follow max_links f cp
  | None => None
  end.

Definition stat (f : fsys) (p : string) : option (list string * node) :=
  match resolve f p with
  | Some (cp, Some n) => Some (cp, n)
  | _ => None
  end.

Definition enoent (p : string) : exn :=
  Exn FileNotFoundError ("[Errno 2] No such file or directory: '" ++ p ++ "'").

(** *** The calls of [os], [os.path] and [open] *)

Definition path_exists (f : fsys) (p : string) : bool :=
  match stat f p with Some _ => true | None => false end.

Definition path_isdir (f : fsys) (p : string) : bool :=
  match stat f p with Some (_, Dir _) => true | _ => false end.

Definition path_isfile (f : fsys) (p : string) : bool :=
  match stat f p with Some (_, File _ _) => true | _ => false end.

Definition update (f : fsys) (cp : list string) (x : node) (on_error : exn)
    : res fsys unit :=
  match put (tree f) cp x with
  | Some n => Ok tt (set_tree f n)
  | None => Raise on_error f
  end.

(** A file that [open] creates has mode [0o644]. *)
Definition new_file_mode : Z := Z.lor S_IFREG 420.

Definition open_wb_write (filename : string) (data : blob) (f : fsys)
    : res fsys unit :=
  match resolve f filename with
  | Some (cp, Some (File m _)) => update f cp (File m data) (enoent filename)
  | Some (cp, Some (Dir _)) =>
      Raise (Exn IsADirectoryError ("[Errno 21] Is a directory: '" ++ filename ++ "'")) f
  | Some (cp, Some (Link _)) => Raise (enoent filename) f
  | Some (cp, None) =>
      match lookup f (removelast cp) with
      | Some (Dir _) => update f cp (File new_file_mode data) (enoent filename)
      | _ => Raise (enoent filename) f
      end
  | None => Raise (enoent filename) f
  end.

Fixpoint mkchain (p : list string) : node :=
  match p with
  | [] => Dir []
  | c :: p' => Dir [(c, mkchain p')]
  end.

(** [os.makedirs(p, exist_ok=...)] on canonical components. *)
Fixpoint mkdirs (exist_ok : bool) (n : node) (p : list string) : exn_class + node :=
  match n with
  | Dir es =>
      match p with
      | [] => if exist_ok then inr n else inl FileExistsError
      | c :: p' =>
          match Dict.get c es with
          | Some n' =>
              match mkdirs exist_ok n' p' with
              | inr n'' => inr (Dir (Dict.set c n'' es))
              | inl e => inl e
              end
          | None => inr (Dir (Dict.set c (mkchain p') es))
          end
      end
  | _ =>
      match p with
      | [] => inl FileExistsError
      | _ => inl NotADirectoryError
      end
  end.

Definition makedirs (p : string) (f : fsys) : res fsys unit :=
  match canon f p with
  | None => Raise (enoent p) f
  | Some cp =>
      match mkdirs false (tree f) cp with
      | inr n => Ok tt (set_tree f n)
      | inl c => Raise (Exn c p) f
      end
  end.

Definition listdir (p : string) (f : fsys) : res fsys (list string) :=
  match stat f p with
  | Some (_, Dir es) => Ok (Dict.keys es) f
  | Some _ => Raise (Exn NotADirectoryError p) f
  | None => Raise (enoent p) f
  end.

(** [entry.is_dir()]: a directory, or a link to one. *)
Definition entry_is_dir (f : fsys) (cp : list string) (e : string * node) : bool :=
  match snd e with
  | Dir _ => true
  | File _ _ => false
  | Link _ =>
      match follow max_links f (cp ++ [fst e]) with
      | Some (_, Some (Dir _)) => true
      | _ => false
      end
  end.

(** [os.walk], top down, links to directories listed and not entered. *)
Fixpoint walk_node (f : fsys) (top : string) (cp : list string) (n : node)
    : list (string * list string * list string) :=
  match n with
  | Dir es =>
      (top,
       map fst (filter (entry_is_dir f cp) es),
       map fst (filter (fun e => negb (entry_is_dir f cp e)) es))
      :: (fix sub (l : list (string * node)) :=
            match l with
            | [] => []
            | (name, child) :: l' =>
                match child with
                | Dir _ => walk_node f (Path.join top name) (cp ++ [name]) child
                | _ => []
                end ++ sub l'
            end) es
  | _ => []
  end.

Definition walk (top : string) (f : fsys) : list (string * list string * list string) :=
  match stat f top with
  | Some (cp, Dir es) => walk_node f top cp (Dir es)
  | _ => []
  end.

Definition stat_mode (p : string) (f : fsys) : res fsys Z :=
  match stat f p with
  | Some (_, File m _) => Ok m f
  | Some (_, Dir _) => Ok (Z.lor S_IFDIR 493) f
  | _ => Raise (enoent p) f
  end.

(** [chmod] sets the twelve permission bits and keeps the file type. *)
Definition chmod_mode (old m : Z) : Z :=
  Z.lor (Z.land old (Z.lnot 4095)) (Z.land m 4095).

Definition chmod (p : string) (m : Z) (f : fsys) : res fsys unit :=
  match stat f p with
  | Some (cp, File old d) => update f cp (File (chmod_mode old m) d) (enoent p)
  | Some (_, Dir _) => Ok tt f
  | _ => Raise (enoent p) f
  end.

(** *** [shutil] *)

(** One entry [name] of [copytree(symlinks=1, dirs_exist_ok=1)]: the node
    left at the destination, and whether an error was recorded.  A link is
    created, and fails on anything that is there.  A file replaces a file,
    mode and content ([copy2]); onto a directory it goes into the
    directory, under its own name.  A directory is merged into a
    directory or created.  A link of the destination is not followed
    here: a file or a directory of the source that meets one is recorded
    as an error, where the library writes through the link, or copies
    into the directory it leads to; the properties of the copy are stated
    for destinations with no link in such a place. *)
Fixpoint copy_node (name : string) (s : node) (d : option node) : node * bool :=
  match s with
  | Link t =>
      match d with
      | None => (Link t, false)
      | Some x => (x, true)
      end
  | File m c =>
      match d with
      | None => (File m c, false)
      | Some (File _ _) => (File m c, false)
      | Some (Dir des) =>
          match Dict.get name des with
          | None | Some (File _ _) => (Dir (Dict.set name (File m c) des), false)
          | Some _ => (Dir des, true)
          end
      | Some (Link t) => (Link t, true)
      end
  | Dir es =>
      match d with
      | Some (File m c) => (File m c, true)
      | Some (Link t) => (Link t, true)
      | _ =>
          let r :=
            (fix copy_entries (l : list (string * node))
                 (acc : list (string * node) * bool) :=
               match l with
               | [] => acc
               | (name, child) :: l' =>
                   let xe := copy_node name child (Dict.get name (fst acc)) in
                   copy_entries l'
                     (Dict.set name (fst xe) (fst acc), (snd acc || snd xe)%bool)
               end) es (match d with Some (Dir des) => des | _ => [] end, false) in
          (Dir (fst r), snd r)
      end
  end.

(** [os.makedirs(dst, exist_ok=True)]: the tree it leaves and the
    canonical path of the directory.  [os.path.isdir] follows the links
    at the end of the path, so that a directory and a link that leads to
    one are accepted as they are. *)
Definition makedirs_exist_ok (f : fsys) (cp : list string)
    : exn_class + (node * list string) :=
  match follow max_links f cp with
  | Some (cp', Some (Dir _)) => inr (tree f, cp')
  | _ =>
      match mkdirs true (tree f) cp with
      | inr t1 => inr (t1, cp)
      | inl c => inl c
      end
  end.

Definition copytree (src dst : string) (f : fsys) : res fsys unit :=
  match stat f src with
  | Some (_, Dir es) =>
      match canon f dst with
      | None => Raise (enoent dst) f
      | Some dp =>
          match makedirs_exist_ok f dp with
          | inl c => Raise (Exn c dst) f
          | inr (t1, dp') =>
              let xe := copy_node (Path.basename src) (Dir es) (get t1 dp') in
              match put t1 dp' (fst xe) with
              | Some t2 =>
                  if snd xe then Raise (Exn ShutilError dst) (set_tree f t2)
                  else Ok tt (set_tree f t2)
              | None => Raise (Exn OSError dst) f
              end
          end
      end
  | Some _ => Raise (Exn NotADirectoryError src) f
  | None => Raise (enoent src) f
  end.

Definition rmtree (p : string) (f : fsys) : res fsys unit :=
  match canon f p with
  | None => Raise (enoent p) f
  | Some cp =>
      match lookup f cp with
      | Some (Dir _) =>
          match remove (tree f) cp with
          | Some n => Ok tt (set_tree f n)
          | None => Raise (Exn OSError p) f
          end
      | Some (Link _) => Raise (Exn OSError "Cannot call rmtree on a symbolic link") f
      | Some (File _ _) => Raise (Exn NotADirectoryError p) f
      | None => Raise (enoent p) f
      end
  end.

(** *** [tarfile] and [zipfile] *)

Definition archive_names (tar : bool) (archive : string) (f : fsys)
    : res fsys (list string) :=
  match stat f archive with
  | Some (_, File _ (TarOf ms)) =>
      if tar then Ok (map fst ms) f
      else Raise (Exn BadZipFile "File is not a zip file") f
  | Some (_, File _ (ZipOf ms)) =>
      if tar then Raise (Exn ReadError "file could not be opened successfully") f
      else Ok (map fst ms) f
  | Some (_, File _ _) =>
      Raise (Exn (if tar then ReadError else BadZipFile) archive) f
  | Some _ => Raise (Exn IsADirectoryError archive) f
  | None => Raise (enoent archive) f
  end.

(** One member, unpacked under the working directory. *)
Definition extract_member (m : string * member) (f : fsys) : res fsys unit :=
  match canon f (fst m) with
  | None => Raise (enoent (fst m)) f
  | Some cp =>
      match mkdirs true (tree f)
              (match snd m with MDir => cp | _ => removelast cp end) with
      | inl c => Raise (Exn c (fst m)) f
      | inr t1 =>
          match snd m with
          | MDir => Ok tt (set_tree f t1)
          | MFile mode data =>
              match get t1 cp with
              | Some (Dir _) => Raise (Exn IsADirectoryError (fst m)) f
              | _ =>
                  update (set_tree f t1) cp (File (Z.lor S_IFREG mode) (Bytes data))
                    (enoent (fst m))
              end
          | MLink t =>
              match get t1 cp with
              | Some (Dir _) => Raise (Exn IsADirectoryError (fst m)) f
              | _ => update (set_tree f t1) cp (Link t) (enoent (fst m))
              end
          end
      end
  end.

Definition members_of (archive : string) (f : fsys) : list (string * member) :=
  match stat f archive with
  | Some (_, File _ (TarOf ms)) => ms
  | Some (_, File _ (ZipOf ms)) => ms
  | _ => []
  end.

Definition extractall (archive : string) (f : fsys) : res fsys unit :=
  for_each (members_of archive f) extract_member f.

(** *** The network and the JSON decoder *)

(** [urlopen(url)], [net] giving the status and the body that the server
    answers with for each URL it knows (after redirections).  A response
    is returned for the statuses from 200 to 299; for any other
    [HTTPErrorProcessor] has [HTTPError] raised, whose text is
    [HTTP Error <status>: <reason>], the reason being the server's. *)
Definition fetch (net : list (string * (Z * blob))) (url : string)
    : pure_res (Z * blob) :=
  match Dict.get url net with
  | Some (status, body) =>
      if ((200 <=? status) && (status <? 300))%Z then inr (status, body)
      else inl (Exn HTTPError
                  ("HTTP Error " ++ NilZero.string_of_int (Z.to_int status) ++ ":"))
  | None => inl (Exn URLError "<urlopen error>")
  end.

Definition loads (b : blob) : pure_res json :=
  match b with
  | JsonDoc j => inr j
  | _ => inl (Exn JSONDecodeError "Expecting value: line 1 column 1 (char 0)")
  end.

(** *** Notions for the properties of the model *)





(** [q] is [p] or lies under [p]. *)
Fixpoint under (p q : list string) : bool :=
  match p, q with
  | [], _ => true
  | _ :: _, [] => false
  | a :: p', b :: q' => (String.eqb a b && under p' q')%bool
  end.


(** The entries of a directory after the entries [l] of the source are
    copied into it, and whether an error was recorded: the loop of
    [copy_node] on a directory. *)
Definition copy_entries (l : list (string * node))
    (acc : list (string * node) * bool) : list (string * node) * bool :=
  fold_left
    (fun acc e =>
       let xe := copy_node (fst e) (snd e) (Dict.get (fst e) (fst acc)) in
       (Dict.set (fst e) (fst xe) (fst acc), (snd acc || snd xe)%bool))
    l acc.



(** [flatten_tree] on the file system, for the destination [dst] that
    [flatten_dest] gives: [copytree] with [FileExistsError] passed over,
    then [rmtree]. *)
Definition flatten (src dst : string) (f : fsys) : res fsys unit :=
  match copytree src dst f with
  | Ok _ f1 => rmtree src f1
  | Raise e f1 =>
      if exn_class_eqb (exn_cls e) FileExistsError then rmtree src f1
      else Raise e f1
  end.

End Posix.

(** The reference system, for the responses [net] of the network. *)
Definition posix (net : list (string * (Z * Posix.blob))) : OS :=
  {| FS := Posix.fsys;
     bytes := Posix.blob;
     getcwd := Posix.cwd;
     path_exists := Posix.path_exists;
     path_isdir := Posix.path_isdir;
     path_isfile := Posix.path_isfile;
     open_wb_write := Posix.open_wb_write;
     makedirs := Posix.makedirs;
     listdir := Posix.listdir;
     walk := Posix.walk;
     stat_mode := Posix.stat_mode;
     chmod := Posix.chmod;
     copytree := Posix.copytree;
     rmtree := Posix.rmtree;
     tar_open := Posix.archive_names true;
     tar_extractall := Posix.extractall;
     zip_open := Posix.archive_names false;
     zip_extractall := Posix.extractall;
     urlopen := Posix.fetch net;
     json_loads := Posix.loads |}.

(** ** Concrete runs on the reference system *)

Module Scenario.

Import Posix.

(** A file system whose working directory [/w] holds [entries]. *)
Definition disk (entries : list (string * node)) : fsys :=
  Fsys [("w", Dir entries)] "/w".

(** The world of a process that starts on [f], the network answering [net]. *)
Definition boot (net : list (string * (Z * blob))) (f : fsys) : @world (posix net) :=
  World f [] [] [] [].

(** A zip archive of a directory [pkg] with one read-only file. *)
Definition pkg_zip : blob := ZipOf [("pkg", MDir); ("pkg/f", MFile 292 "x")].

(** A tar archive of the same. *)
Definition pkg_tar : blob := TarOf [("pkg", MDir); ("pkg/f", MFile 292 "x")].

(** [/w] holds a zip archive under a name that has [.zip] in the middle. *)
Definition zip_world : @world (posix []) :=
  boot [] (disk [("a.zip.bak", File 33188 pkg_zip)]).

(** A manifest with one component [c] that has one flat artifact [a.zip]
    for the platform [p]. *)
Definition one_flat : json :=
  JObj [("c", JObj [("name", JStr "n"); ("version", JStr "v");
                    ("p", JObj [("relative_path", JStr "a.zip")])])].






(** The server has [a.zip]. *)
Definition net_ok : list (string * (Z * blob)) :=
  [("http://h/a.zip", (200%Z, pkg_zip))].

(** [a.zip] is already in [/w/c/p], the directory of the component and
    the platform under the working directory, and nowhere else. *)
Definition world_scoped : @world (posix net_ok) :=
  World
    (disk [("c", Dir [("p", Dir [("a.zip", File 33188 pkg_zip)])])])
    [("p", [])] [] [] [].

(** The manifest of the specification's variant fan-out: one component
    whose platform [linux-x86_64] has the variants [cuda11] and [cuda12]. *)
Definition cudnn_manifest : json :=
  JObj [("cudnn_x",
         JObj [("name", JStr "n"); ("version", JStr "v");
               ("linux-x86_64",
                JObj [("cuda11", JObj [("relative_path", JStr "a-b-c-11.tar.gz")]);
                      ("cuda12", JObj [("relative_path", JStr "a-b-c-12.tar.gz")])])])].

Definition net_cudnn : list (string * (Z * blob)) :=
  [("http://h/a-b-c-11.tar.gz", (200%Z, pkg_tar));
   ("http://h/a-b-c-12.tar.gz", (200%Z, pkg_tar))].

(** The platform entry of that manifest. *)
Definition cudnn_platform : json :=
  JObj [("cuda11", JObj [("relative_path", JStr "a-b-c-11.tar.gz")]);
        ("cuda12", JObj [("relative_path", JStr "a-b-c-12.tar.gz")])].

(** A platform whose two variants have archives of the same file name. *)
Definition twins_manifest : json :=
  JObj [("cudnn_x",
         JObj [("name", JStr "n"); ("version", JStr "v");
               ("linux-x86_64",
                JObj [("cuda11", JObj [("relative_path", JStr "cuda11/a.tar.gz")]);
                      ("cuda12", JObj [("relative_path", JStr "cuda12/a.tar.gz")])])])].

Definition net_twins : list (string * (Z * blob)) :=
  [("http://h/cuda11/a.tar.gz", (200%Z, pkg_tar));
   ("http://h/cuda12/a.tar.gz", (200%Z, pkg_tar))].

Definition world_twins : @world (posix net_twins) := boot net_twins (disk []).

(** An empty [/w] with the platform entered in [ARCHIVES]. *)
Definition world_cudnn : @world (posix net_cudnn) :=
  World (disk []) [("linux-x86_64", [])] [] [] [].

(** A component that offers the platforms [p], [source] and [q]. *)
Definition three_platforms_entry : json :=
  JObj [("name", JStr "n"); ("version", JStr "v");
        ("p", JObj [("relative_path", JStr "a.zip")]);
        ("source", JObj [("relative_path", JStr "s.zip")]);
        ("q", JObj [("relative_path", JStr "q.zip")])].

Definition three_platforms : json := JObj [("c", three_platforms_entry)].

Definition net_three : list (string * (Z * blob)) :=
  [("http://h/a.zip", (200%Z, pkg_zip));
   ("http://h/s.zip", (200%Z, pkg_zip));
   ("http://h/q.zip", (200%Z, pkg_zip))].

Definition world_three : @world (posix net_three) := boot net_three (disk []).

(** A run of [--download-only] for [cuda], label [1], on [linux-x]: the
    manifest lists [bad.tar.gz], which the server answers with bytes that
    are no archive, and then [good.tar.gz], a sound archive. *)
Definition run_args : Args :=
  {| arg_download_only := true;
     arg_product := Some "cuda";
     arg_label := Some "1";
     arg_os := Some "linux";
     arg_arch := Some "x";
     arg_component := None;
     arg_variant := None;
     arg_output := Some "out" |}.

Definition run_manifest : json :=
  JObj [("bad", JObj [("name", JStr "b"); ("version", JStr "1");
                      ("linux-x", JObj [("relative_path", JStr "bad.tar.gz")])]);
        ("good", JObj [("name", JStr "g"); ("version", JStr "1");
                       ("linux-x", JObj [("relative_path", JStr "good.tar.gz")])])].

Definition net_run : list (string * (Z * blob)) :=
  [(manifest_uri run_args, (200%Z, JsonDoc run_manifest));
   ((redist_parent run_args ++ "bad.tar.gz")%string, (200%Z, Bytes "no archive"));
   ((redist_parent run_args ++ "good.tar.gz")%string, (200%Z, pkg_tar))].

Definition world_run : @world (posix net_run) := boot net_run (disk []).




(** [a.zip] is in the working directory already, and no server answers. *)
Definition world_cached : @world (posix []) :=
  World (disk [("a.zip", File 33188 pkg_zip)]) [("p", [])] [] [] [].

(** An empty working directory with the platform [p] entered, and no
    server. *)
Definition world_offline : @world (posix []) :=
  World (disk []) [("p", [])] [] [] [].

(** The manifest of one CUDA component, and a local mirror [mirror/] of
    the server that holds its archive: the artifact exists at
    [parent + relative_path], the second place that [parse_artifact]
    looks at. *)
Definition cudart_manifest : json :=
  JObj [("cuda_cudart",
         JObj [("name", JStr "CUDA Runtime"); ("version", JStr "12.4.0");
               ("linux-x86_64",
                JObj [("relative_path",
                       JStr "cuda_cudart/linux-x86_64/libcudart-linux-x86_64-12.4.0-archive.tar.xz")])])].

Definition world_mirror : @world (posix []) :=
  boot []
    (disk [("mirror",
            Dir [("cuda_cudart",
                  Dir [("linux-x86_64",
                        Dir [("libcudart-linux-x86_64-12.4.0-archive.tar.xz",
                              File 33188 pkg_tar)])])])]).




(** The run of [run_args] without [--output]. *)
Definition run_args_no_output : Args :=
  {| arg_download_only := true;
     arg_product := Some "cuda";
     arg_label := Some "1";
     arg_os := Some "linux";
     arg_arch := Some "x";
     arg_component := None;
     arg_variant := None;
     arg_output := None |}.

(** An unpacked archive with a link, beside an output directory into
    which the same archive has been flattened before. *)
Definition world_again : @world (posix []) :=
  boot [] (disk [("pkg", Dir [("f", File 33188 (Bytes "x")); ("l", Link "f")]);
                 ("out", Dir [("t", Dir [("f", File 33188 (Bytes "x"));
                                         ("l", Link "f")])])]).

(** An empty working directory with the platform [p] entered; the server
    has [a.zip]. *)
Definition world_online : @world (posix net_ok) :=
  World (disk []) [("p", [])] [] [] [].

(** An output directory that holds a directory [b], a regular file [a]
    and a link [c] that leads nowhere, in that order. *)
Definition world_listed : @world (posix []) :=
  boot [] (disk [("out", Dir [("b", Dir []);
                              ("a", File 33188 (Bytes "x"));
                              ("c", Link "gone")])]).

End Scenario.
(** ** The tables, the window and the worker

    The part of the script that builds the command line of a
    [--download-only] run from what is selected in the window. *)

(** A dict display [{k1: v1, k2: v2, ...}] stores its pairs from left to
    right: a key written twice keeps its first place and its last value. *)
Definition dict_display {V : Type} (pairs : list (string * V)) : Dict.t V :=
  fold_left (fun d kv => Dict.set (fst kv) (snd kv) d) pairs [].

(** [d[k]] on a dict with string keys. *)
Definition dict_getitem {V : Type} (d : Dict.t V) (k : string) : pure_res V :=
  match Dict.get k d with
  | Some v => inr v
  | None => inl (Exn KeyError ("'" ++ k ++ "'")%string)
  end.

(** [d.get(k, default)] *)
Definition dict_get_default {V : Type} (d : Dict.t V) (k : string) (default : V) : V :=
  match Dict.get k d with
  | Some v => v
  | None => default
  end.

Definition CUDA_RELEASES : Dict.t string :=
  dict_display
    [("CUDA 12.4.0", "12.4.0"); ("CUDA 12.4.1", "12.4.1");
     ("CUDA 12.5.0", "12.5.0"); ("CUDA 12.5.1", "12.5.1");
     ("CUDA 12.6.0", "12.6.0"); ("CUDA 12.6.1", "12.6.1");
     ("CUDA 12.6.2", "12.6.2"); ("CUDA 12.6.3", "12.6.3");
     ("CUDA 12.8.0", "12.8.0"); ("CUDA 12.8.1", "12.8.1")].

Definition CUDNN_RELEASES : list string :=
  ["8.9.7"; "9.0.0"; "9.1.1"; "9.2.0"; "9.2.1"; "9.3.0"; "9.4.0"; "9.5.0";
   "9.5.1"; "9.6.0"; "9.7.0"; "9.7.1"; "9.8.0"].

Definition PRODUCTS : Dict.t string :=
  dict_display [("CUDA Toolkit", "cuda"); ("cuDNN", "cudnn")].

Definition OPERATING_SYSTEMS : Dict.t string :=
  dict_display [("Windows", "windows"); ("Linux", "linux")].

Definition ARCHITECTURES : Dict.t string :=
  dict_display
    [("x86_64", "x86_64"); ("PPC64le (Linux only)", "ppc64le");
     ("SBSA (Linux only)", "sbsa"); ("AARCH64 (Linux only)", "aarch64")].

Definition VARIANTS : Dict.t string :=
  dict_display [("CUDA 11", "cuda11"); ("CUDA 12", "cuda12")].

Definition COMPONENTS : Dict.t (option string) :=
  dict_display
    [("All Components", None);
     ("CUDA Runtime (cudart)", Some "cuda_cudart");
     ("CXX Core Compute Libraries", Some "cuda_cccl");
     ("CUDA Object Dump Tool", Some "cuda_cuobjdump");
     ("CUDA Profiling Tools Interface", Some "cuda_cupti");
     ("CUDA Demangler Tool", Some "cuda_cuxxfilt");
     ("CUDA Demo Suite", Some "cuda_demo_suite");
     ("CUDA Documentation", Some "cuda_documentation");
     ("NVIDIA CUDA Compiler", Some "cuda_nvcc");
     ("CUDA Binary Utility", Some "cuda_nvdisasm");
     ("NVIDIA Management Library Headers", Some "cuda_nvml_dev");
     ("CUDA Profiler", Some "cuda_nvprof");
     ("CUDA Binary Utility", Some "cuda_nvprune");
     ("CUDA Runtime Compilation Library", Some "cuda_nvrtc");
     ("CUDA Tools SDK", Some "cuda_nvtx");
     ("NVIDIA Visual Profiler", Some "cuda_nvvp");
     ("CUDA OpenCL", Some "cuda_opencl");
     ("CUDA Profiler API", Some "cuda_profiler_api");
     ("CUDA Compute Sanitizer API", Some "cuda_sanitizer_api");
     ("CUDA BLAS Library", Some "libcublas");
     ("CUDA FFT Library", Some "libcufft");
     ("CUDA Random Number Generation Library", Some "libcurand");
     ("CUDA Solver Library", Some "libcusolver");
     ("CUDA Sparse Matrix Library", Some "libcusparse");
     ("NVIDIA Performance Primitives Library", Some "libnpp");
     ("NVIDIA Fatbin Utilities", Some "libnvfatbin");
     ("NVIDIA JIT Linker Library", Some "libnvjitlink");
     ("NVIDIA JPEG Library", Some "libnvjpeg");
     ("Nsight Compute", Some "nsight_compute");
     ("Nsight Systems", Some "nsight_systems");
     ("Nsight Visual Studio Edition", Some "nsight_vse");
     ("Visual Studio Integration", Some "visual_studio_integration")].

(** The version test at the head of the script:
    [sys.version_info < tuple(map(int, minimum.split(".")))]. *)
Definition minimum : string := "3.8".

(** [int(s)] for a string of decimal digits; [None] stands for the
    [ValueError] on the empty string and on any other character. *)
Definition py_int (s : string) : option Z :=
  let digit (c : ascii) : option Z :=
    let n := Z.of_nat (nat_of_ascii c) in
    if ((48 <=? n) && (n <=? 57))%Z then Some (n - 48)%Z else None in
  match s with
  | EmptyString => None
  | _ =>
      (fix go (acc : Z) (s : string) : option Z :=
         match s with
         | EmptyString => Some acc
         | String c s' =>
             match digit c with
             | Some d => go (10 * acc + d)%Z s'
             | None => None
             end
         end) 0%Z s
  end.

(** [tuple(map(int, l))] *)
Fixpoint map_int (l : list string) : option (list Z) :=
  match l with
  | [] => Some []
  | s :: l' =>
      match py_int s, map_int l' with
      | Some n, Some ns => Some (n :: ns)
      | _, _ => None
      end
  end.

(** [a < b] on tuples of integers: the first place that differs decides,
    and a tuple is below each of its proper extensions. *)
Fixpoint tuple_lt (a b : list Z) : bool :=
  match a, b with
  | [], [] => false
  | [], _ :: _ => true
  | _ :: _, [] => false
  | x :: a', y :: b' => ((x <? y) || ((x =? y) && tuple_lt a' b'))%Z
  end.

(** Does the script refuse to start on the interpreter whose
    [sys.version_info] begins with [major, minor, micro]?  What follows
    the three numbers is never compared with, the minimum having two
    places. *)
Definition too_old (major minor micro : Z) : option bool :=
  match map_int (Py.split "." minimum) with
  | Some least => Some (tuple_lt [major; minor; micro] least)
  | None => None
  end.

(** The widgets of Qt that the window reads and writes. *)
Module Qt.

(** A [QComboBox] that is not editable: its items, the index of the
    current one if there is one, and whether it is enabled. *)
Record combo : Type := Combo {
  items : list string;
  current : option nat;
  enabled : bool
}.

(** [currentText()]: the text of the current item, the empty string when
    there is none. *)
Definition currentText (c : combo) : string :=
  match current c with
  | Some i => nth i (items c) EmptyString
  | None => EmptyString
  end.

Definition isEnabled (c : combo) : bool := enabled c.

Definition setEnabled (b : bool) (c : combo) : combo :=
  Combo (items c) (current c) b.

(** [setCurrentIndex(-1)] *)
Definition setCurrentIndex_none (c : combo) : combo :=
  Combo (items c) None (enabled c).

Definition clear (c : combo) : combo := Combo [] None (enabled c).

(** [addItems(l)]: the first item becomes the current one when the box
    was empty. *)
Definition addItems (l : list string) (c : combo) : combo :=
  Combo (items c ++ l)
    (match items c, l with
     | [], _ :: _ => Some 0
     | _, _ => current c
     end)
    (enabled c).

Definition addItem (s : string) (c : combo) : combo := addItems [s] c.

Definition new : combo := Combo [] None true.

End Qt.

(** [" ".join(command)]: [TypeError] on an item that is not a string. *)
Fixpoint join_spaces (command : list (option string)) : pure_res string :=
  match command with
  | [] => inr EmptyString
  | None :: _ => inl (Exn TypeError "sequence item: expected str instance, NoneType found")
  | Some s :: rest =>
      match rest with
      | [] => inr s
      | _ =>
          match join_spaces rest with
          | inl e => inl e
          | inr t => inr (s ++ " " ++ t)%string
          end
      end
  end.

(** Python's white space among the first 128 characters. *)
Definition is_space (c : ascii) : bool :=
  let n := nat_of_ascii c in
  (((9 <=? n) && (n <=? 13)) || ((28 <=? n) && (n <=? 32)))%nat%bool.

(** [s.strip() == ""] *)
Fixpoint blank (s : string) : bool :=
  match s with
  | EmptyString => true
  | String c s' => (is_space c && blank s')%bool
  end.

(** [s.replace(a, b)] for two characters. *)
Fixpoint replace_char (a b : ascii) (s : string) : string :=
  match s with
  | EmptyString => EmptyString
  | String c s' => String (if Ascii.eqb c a then b else c) (replace_char a b s')
  end.

Module DownloadWorker.

(** [argparse.Namespace]: the attributes in the order they were set. *)
Definition Namespace : Type := Dict.t (option string).

(** The list [cmd] that [run] gives to [subprocess.run]
    (lines 310-318). *)
Definition cmd (executable argv0 : string) (args : Namespace) : list string :=
  [executable; argv0; "--download-only"]
  ++ flat_map
       (fun av =>
          match snd av with
          | Some value => [("--" ++ replace_char "_" "-" (fst av))%string; value]
          | None => []
          end)
       args.

(** [run]: what the signal [finished] is emitted with, [check_call]
    standing for [subprocess.run(cmd, check=True, capture_output=True,
    text=True)], which gives the text of the [CalledProcessError] and the
    output it carries when the exit status is not 0. *)
Definition run (executable argv0 : string) (args : Namespace)
    (check_call : list string -> option (string * string)) : bool * string :=
  match check_call (cmd executable argv0 args) with
  | None => (true, EmptyString)
  | Some (e, output) => (false, e ++ Py.nl ++ "Output: " ++ output)%string
  end.

End DownloadWorker.

Module DownloaderGUI.

Import Qt.

Record window : Type := Window {
  product_combo : combo;
  version_combo : combo;
  os_combo : combo;
  arch_combo : combo;
  component_combo : combo;
  variant_combo : combo;
  output_entry : string;
  command_text : string;
  download_button : bool;
  download_worker : option DownloadWorker.Namespace
}.

(** The window that [setup_ui] builds.  The slots are connected after
    the boxes are filled, so that none has run yet. *)
Definition setup_ui : window :=
  {| product_combo := addItems (Dict.keys PRODUCTS) new;
     version_combo := addItems (Dict.keys CUDA_RELEASES) new;
     os_combo := addItems (Dict.keys OPERATING_SYSTEMS) new;
     arch_combo := addItems (Dict.keys ARCHITECTURES) new;
     component_combo :=
       addItems (Dict.keys COMPONENTS) (addItem "All Components" new);
     variant_combo := setEnabled false (addItems (Dict.keys VARIANTS) new);
     output_entry := EmptyString;
     command_text := EmptyString;
     download_button := true;
     download_worker := None |}.

Definition set_command_text (g : window) (s : string) : window :=
  Window (product_combo g) (version_combo g) (os_combo g) (arch_combo g)
    (component_combo g) (variant_combo g) (output_entry g) s
    (download_button g) (download_worker g).

Definition nonempty (s : string) : bool := negb (String.eqb s EmptyString).

(** The release label of lines 463-471 and 506-512. *)
Definition release_label (g : window) : pure_res string :=
  match dict_getitem PRODUCTS (currentText (product_combo g)) with
  | inl e => inl e
  | inr product =>
      if String.eqb product "cudnn" then inr (currentText (version_combo g))
      else inr (dict_get_default CUDA_RELEASES (currentText (version_combo g))
                  (currentText (version_combo g)))
  end.

(** The test of lines 481-485 and 522-526. *)
Definition component_chosen (g : window) : bool :=
  (negb (String.eqb (currentText (product_combo g)) "cuDNN")
   && negb (String.eqb (currentText (component_combo g)) "All Components")
   && nonempty (currentText (component_combo g)))%bool.

(** The test of lines 489 and 517. *)
Definition variant_chosen (g : window) : bool :=
  (isEnabled (variant_combo g) && nonempty (currentText (variant_combo g)))%bool.

(** One [if ...: command.extend([flag, value])] of [update_command_preview]. *)
Definition extend_if (test : bool) (flag : string)
    (value : pure_res (option string)) (command : list (option string))
    : pure_res (list (option string)) :=
  if test then
    match value with
    | inl e => inl e
    | inr v => inr (command ++ [Some flag; v])
    end
  else inr command.

Definition some_of (r : pure_res string) : pure_res (option string) :=
  match r with
  | inl e => inl e
  | inr s => inr (Some s)
  end.

(** The list [command] of [update_command_preview] (lines 455-494). *)
Definition preview_command (g : window) : pure_res (list (option string)) :=
  let command := [Some "python"; Some "download_cuda2.py"] in
  match extend_if (nonempty (currentText (product_combo g))) "--product"
          (some_of (dict_getitem PRODUCTS (currentText (product_combo g))))
          command with
  | inl e => inl e
  | inr command =>
  match extend_if (nonempty (currentText (version_combo g))) "--label"
          (some_of (release_label g)) command with
  | inl e => inl e
  | inr command =>
  match extend_if (nonempty (currentText (os_combo g))) "--os"
          (some_of (dict_getitem OPERATING_SYSTEMS (currentText (os_combo g))))
          command with
  | inl e => inl e
  | inr command =>
  match extend_if (nonempty (currentText (arch_combo g))) "--arch"
          (some_of (dict_getitem ARCHITECTURES (currentText (arch_combo g))))
          command with
  | inl e => inl e
  | inr command =>
  match extend_if (component_chosen g) "--component"
          (dict_getitem COMPONENTS (currentText (component_combo g)))
          command with
  | inl e => inl e
  | inr command =>
  match extend_if (variant_chosen g) "--variant"
          (some_of (dict_getitem VARIANTS (currentText (variant_combo g))))
          command with
  | inl e => inl e
  | inr command =>
      extend_if (nonempty (output_entry g)) "--output"
        (inr (Some (output_entry g))) command
  end end end end end end.

Definition update_command_preview (g : window) : pure_res window :=
  match preview_command g with
  | inl e => inl e
  | inr command =>
      match join_spaces command with
      | inl e => inl e
      | inr s => inr (set_command_text g s)
      end
  end.

(** [on_product_change(product_text)].  The two [setCurrentIndex(-1)]
    emit [currentTextChanged], whose slot is [update_command_preview]:
    it writes the command text alone, and the last line writes it again;
    the signals of the version box are blocked. *)
Definition on_product_change (product_text : string) (g : window) : pure_res window :=
  match dict_getitem PRODUCTS product_text with
  | inl e => inl e
  | inr product =>
      let is_cudnn := String.eqb product "cudnn" in
      let variant := setEnabled is_cudnn (variant_combo g) in
      let variant := if negb is_cudnn then setCurrentIndex_none variant else variant in
      let component := setEnabled (negb is_cudnn) (component_combo g) in
      let component := if is_cudnn then setCurrentIndex_none component else component in
      let version := clear (version_combo g) in
      let version :=
        if is_cudnn then addItems CUDNN_RELEASES version
        else addItems (Dict.keys CUDA_RELEASES) version in
      update_command_preview
        (Window (product_combo g) version (os_combo g) (arch_combo g)
           component variant (output_entry g) (command_text g)
           (download_button g) (download_worker g))
  end.

(** The namespace that [execute_download] fills (lines 503-530). *)
Definition namespace_of (g : window) : pure_res DownloadWorker.Namespace :=
  match dict_getitem PRODUCTS (currentText (product_combo g)) with
  | inl e => inl e
  | inr product =>
  let args := Dict.set "product" (Some product) [] in
  match release_label g with
  | inl e => inl e
  | inr label =>
  let args := Dict.set "label" (Some label) args in
  match dict_getitem OPERATING_SYSTEMS (currentText (os_combo g)) with
  | inl e => inl e
  | inr os =>
  let args := Dict.set "os" (Some os) args in
  match dict_getitem ARCHITECTURES (currentText (arch_combo g)) with
  | inl e => inl e
  | inr arch =>
  let args := Dict.set "arch" (Some arch) args in
  match (if variant_chosen g
         then some_of (dict_getitem VARIANTS (currentText (variant_combo g)))
         else inr None) with
  | inl e => inl e
  | inr variant =>
  let args := Dict.set "variant" variant args in
  match (if component_chosen g
         then dict_getitem COMPONENTS (currentText (component_combo g))
         else inr None) with
  | inl e => inl e
  | inr component =>
  let args := Dict.set "component" component args in
  inr (Dict.set "output"
         (Some (if nonempty (output_entry g) then output_entry g else "flat"))
         args)
  end end end end end end.

(** [execute_download]: the window it leaves, with the button disabled
    and the worker started on the namespace, or as it was when the
    command text is blank and the warning is shown; or the exception of
    a table lookup. *)
Definition execute_download (g : window) : pure_res window :=
  if negb (blank (command_text g)) then
    match namespace_of g with
    | inl e => inl e
    | inr args =>
        inr (Window (product_combo g) (version_combo g) (os_combo g)
               (arch_combo g) (component_combo g) (variant_combo g)
               (output_entry g) (command_text g) false (Some args))
    end
  else inr g.

(** The options of a command line: its words two by two, a flag and its
    value. *)
Fixpoint options_of (l : list string) : list (string * string) :=
  match l with
  | flag :: value :: rest => (flag, value) :: options_of rest
  | _ => []
  end.

End DownloaderGUI.

(** * Properties *)

(** ** Strings *)

Lemma prefix_app (p b : string) : String.prefix p (p ++ b) = true.
Proof.
  induction p as [|c p IH]; simpl.
  - now destruct b.
  - destruct (ascii_dec c c) as [_|n]; [exact IH | now elim n].
Qed.

Lemma prefix_split (p s : string) :
  String.prefix p s = true -> exists b : string, s = (p ++ b)%string.
Proof.
  revert s; induction p as [|c p IH]; intros s H.
  - now exists s.
  - destruct s as [|d s]; simpl in H; [discriminate|].
    destruct (ascii_dec c d) as [->|_]; [|discriminate].
    destruct (IH _ H) as [b ->]. now exists b.
Qed.

(** [re.search] of a literal finds exactly its occurrences. *)
Lemma search_occurs (lit s : string) : Py.search lit s = true <-> Py.occurs lit s.
Proof.
  induction s as [|c s IH].
  - cbn [Py.search]. rewrite orb_false_r. split.
    + intros H. destruct (prefix_split _ _ H) as [b ->]. now exists EmptyString, b.
    + intros [[|a0 a] [b H]]; [|discriminate].
      simpl in H. rewrite H. apply prefix_app.
  - change (Py.search lit (String c s))
      with (String.prefix lit (String c s) || Py.search lit s)%bool.
    rewrite orb_true_iff, IH. split.
    + intros [H|[a [b ->]]].
      * destruct (prefix_split _ _ H) as [b Hb]. now exists EmptyString, b.
      * now exists (String c a), b.
    + intros [[|a0 a] [b H]].
      * left. simpl in H. rewrite H. apply prefix_app.
      * right. simpl in H. injection H as _ ->. now exists a, b.
Qed.

Lemma search_not_occurs (lit s : string) :
  Py.search lit s = false <-> ~ Py.occurs lit s.
Proof.
  rewrite <- search_occurs. now destruct (Py.search lit s).
Qed.

Lemma split_not_nil (sep : ascii) (s : string) : Py.split sep s <> [].
Proof.
  destruct s as [|c s]; simpl; [discriminate|].
  destruct (Ascii.eqb c sep); [discriminate|].
  now destruct (Py.split sep s).
Qed.

(** A string with [n] separators splits into [n + 1] pieces. *)
Lemma split_length (sep : ascii) (s : string) :
  List.length (Py.split sep s) = S (Py.count sep s).
Proof.
  induction s as [|c s IH]; simpl; [reflexivity|].
  destruct (Ascii.eqb c sep); simpl.
  - now rewrite IH.
  - pose proof (split_not_nil sep s) as Hn.
    destruct (Py.split sep s); [now elim Hn | exact IH].
Qed.

(** The pieces, joined by the separator, are the string. *)
Lemma split_concat (sep : ascii) (s : string) :
  String.concat (String sep EmptyString) (Py.split sep s) = s.
Proof.
  induction s as [|c s IH]; simpl; [reflexivity|].
  pose proof (split_not_nil sep s) as Hn.
  destruct (Ascii.eqb c sep) eqn:E.
  - apply Ascii.eqb_eq in E. subst c.
    destruct (Py.split sep s) as [|h t] eqn:Es; [now elim Hn|].
    simpl in *. now rewrite IH.
  - destruct (Py.split sep s) as [|h t]; [now elim Hn|].
    destruct t; simpl in *; now rewrite IH.
Qed.

(** No piece holds the separator. *)
Lemma split_pieces (sep : ascii) (s : string) :
  Forall (fun piece => Py.count sep piece = 0) (Py.split sep s).
Proof.
  induction s as [|c s IH]; simpl; [now constructor|].
  pose proof (split_not_nil sep s) as Hn.
  destruct (Ascii.eqb c sep) eqn:E.
  - now constructor.
  - destruct (Py.split sep s) as [|h t]; [now elim Hn|].
    inversion IH; subst. constructor; [|assumption].
    simpl. now rewrite E.
Qed.

(** A string without the separator is one piece. *)
Lemma split_free (sep : ascii) (a : string) :
  Py.count sep a = 0 -> Py.split sep a = [a].
Proof.
  induction a as [|c a IH]; simpl; [reflexivity|].
  destruct (Ascii.eqb c sep); [discriminate|]. intros H.
  now rewrite (IH H).
Qed.

(** The first piece ends at the first separator. *)
Lemma split_cons (sep : ascii) (a b : string) :
  Py.count sep a = 0 ->
  Py.split sep (a ++ String sep b) = a :: Py.split sep b.
Proof.
  induction a as [|c a IH]; simpl.
  - intros _. now rewrite Ascii.eqb_refl.
  - destruct (Ascii.eqb c sep); [discriminate|]. intros H.
    now rewrite (IH H).
Qed.

(** What comes before the string and holds no separator goes to the
    first piece. *)
Lemma split_prefix (sep : ascii) (d s : string) :
  Py.count sep d = 0 ->
  Py.split sep (d ++ s)
  = match Py.split sep s with
    | h :: t => (d ++ h)%string :: t
    | [] => []
    end.
Proof.
  induction d as [|c d IH]; simpl.
  - intros _. now destruct (Py.split sep s).
  - destruct (Ascii.eqb c sep); [discriminate|]. intros H.
    rewrite (IH H). pose proof (split_not_nil sep s) as Hn.
    destruct (Py.split sep s); [now elim Hn|reflexivity].
Qed.

Lemma append_empty (s : string) : (s ++ "")%string = s.
Proof. induction s as [|c s IH]; simpl; [reflexivity|now rewrite IH]. Qed.

Lemma nth_error_short (A : Type) (l : list A) (i : nat) :
  List.length l <= i -> nth_error l i = None.
Proof. apply nth_error_None. Qed.

(** ** The BinTag parse and the routing of archives *)

Section Ingestion.

Context {sys : OS}.

(** C5, as the code has it.  The BinTag is read off the archive record,
    the whole string that [parse_artifact] recorded, which is the bare
    file name of an artifact that was fetched or found in the working
    directory and a path for one found in another place.  A record
    [a0-a1-a2-seg] or [a0-a1-a2-seg-...], with no [-] in the four pieces,
    whose fourth piece is [b0_t] or [b0_t_...] with no [_] in [b0] and [t],
    has the tag [t]; a record with fewer than three [-], and one whose
    fourth piece has no [_], has none; nothing is raised.  The directory
    of a path record is split with the name: it leaves the tag of the file
    name as it is when it holds no [-].  With an absent tag [flatten_tree]
    copies into [output_dir/platform] itself, with no directory for a
    tag. *)
Theorem binTag_parse (archive : string) :
  (forall a0 a1 a2 seg rest b0 t rest' : string,
      archive = (a0 ++ "-" ++ a1 ++ "-" ++ a2 ++ "-" ++ seg ++ rest)%string ->
      Py.count "-" a0 = 0 -> Py.count "-" a1 = 0 -> Py.count "-" a2 = 0 ->
      Py.count "-" seg = 0 ->
      (rest = EmptyString \/ exists u, rest = ("-" ++ u)%string) ->
      seg = (b0 ++ "_" ++ t ++ rest')%string ->
      Py.count "_" b0 = 0 -> Py.count "_" t = 0 ->
      (rest' = EmptyString \/ exists u, rest' = ("_" ++ u)%string) ->
      binTag archive = Some t)
  /\ (Py.count "-" archive < 3 -> binTag archive = None)
  /\ (forall a0 a1 a2 seg rest : string,
        archive = (a0 ++ "-" ++ a1 ++ "-" ++ a2 ++ "-" ++ seg ++ rest)%string ->
        Py.count "-" a0 = 0 -> Py.count "-" a1 = 0 -> Py.count "-" a2 = 0 ->
        Py.count "-" seg = 0 ->
        (rest = EmptyString \/ exists u, rest = ("-" ++ u)%string) ->
        Py.count "_" seg = 0 ->
        binTag archive = None)
  /\ (forall directory name : string,
        archive = (directory ++ name)%string ->
        Py.count "-" directory = 0 ->
        binTag archive = binTag name)
  /\ (forall (src out platform : string) (w : world),
        binTag archive = None ->
        flatten_dest (Path.join out platform) (binTag archive)
          = Path.join out platform
        /\ flatten_tree src (Path.join out platform) (binTag archive) w
          = (try_except_pass FileExistsError
               (lift_fs (copytree src (Path.join out platform))) ;;
             lift_fs (rmtree src)) w).
Proof.
  assert (E : forall s, binTag s =
    match nth_error (Py.split "-" s) 3 with
    | Some seg => nth_error (Py.split "_" seg) 1
    | None => None
    end).
  { intros s. unfold binTag, py_index.
    destruct (nth_error (Py.split "-" s) 3) as [seg|]; [|reflexivity].
    now destruct (nth_error (Py.split "_" seg) 1). }
  assert (S4 : forall a0 a1 a2 seg rest : string,
    Py.count "-" a0 = 0 -> Py.count "-" a1 = 0 -> Py.count "-" a2 = 0 ->
    Py.count "-" seg = 0 ->
    (rest = EmptyString \/ exists u, rest = ("-" ++ u)%string) ->
    nth_error (Py.split "-" (a0 ++ "-" ++ a1 ++ "-" ++ a2 ++ "-" ++ seg ++ rest)) 3
    = Some seg).
  { intros a0 a1 a2 seg rest H0 H1 H2 H3 Hr. cbn [append].
    rewrite (split_cons "-" a0 _ H0), (split_cons "-" a1 _ H1),
      (split_cons "-" a2 _ H2).
    cbn [nth_error]. destruct Hr as [->|[u ->]].
    - rewrite append_empty, (split_free "-" seg H3). reflexivity.
    - cbn [append]. now rewrite (split_cons "-" seg u H3). }
  split; [|split; [|split; [|split]]].
  - intros a0 a1 a2 seg rest b0 t rest' -> H0 H1 H2 H3 Hr Hs Hb Ht Hr'.
    rewrite E, (S4 a0 a1 a2 seg rest H0 H1 H2 H3 Hr). subst seg.
    cbn [append]. rewrite (split_cons "_" b0 _ Hb). cbn [nth_error].
    destruct Hr' as [->|[u ->]].
    + rewrite append_empty, (split_free "_" t Ht). reflexivity.
    + cbn [append]. now rewrite (split_cons "_" t u Ht).
  - intros H. rewrite E, nth_error_short; [reflexivity|].
    rewrite split_length. lia.
  - intros a0 a1 a2 seg rest -> H0 H1 H2 H3 Hr Hs.
    rewrite E, (S4 a0 a1 a2 seg rest H0 H1 H2 H3 Hr).
    now rewrite (split_free "_" seg Hs).
  - intros directory name -> Hd. rewrite !E, (split_prefix "-" directory name Hd).
    pose proof (split_not_nil "-" name) as Hn.
    destruct (Py.split "-" name) as [|h t]; [now elim Hn|]. reflexivity.
  - intros src out platform w H. rewrite H. split; reflexivity.
Qed.

(** C4, as the code has it.  An archive whose name holds [.tar.] anywhere
    goes to the tar extractor; otherwise one whose name holds [.zip]
    anywhere, at the end or not, goes to the zip extractor; any other is
    passed over with nothing printed and nothing extracted. *)
Theorem ingest_routing (output_dir platform archive : string) (collapse : bool)
    (w : world) :
  (Py.occurs ".tar." archive ->
     ingest output_dir collapse platform archive w
       = ingest_tar output_dir platform archive (binTag archive) collapse w)
  /\ (~ Py.occurs ".tar." archive -> Py.occurs ".zip" archive ->
     ingest output_dir collapse platform archive w
       = ingest_zip output_dir platform archive (binTag archive) collapse w)
  /\ (~ Py.occurs ".tar." archive -> ~ Py.occurs ".zip" archive ->
     ingest output_dir collapse platform archive w = Ok tt w).
Proof.
  unfold ingest. repeat split.
  - intros H. apply search_occurs in H. now rewrite H.
  - intros Ht Hz. apply search_not_occurs in Ht. apply search_occurs in Hz.
    now rewrite Ht, Hz.
  - intros Ht Hz. apply search_not_occurs in Ht. apply search_not_occurs in Hz.
    now rewrite Ht, Hz.
Qed.

End Ingestion.

(** The BinTag of the file names of the specification. *)
Example binTag_cudart :
  binTag "libcudart-linux-x86_64-12.4.0-archive.tar.xz" = None.
Proof. reflexivity. Qed.

Example binTag_cudnn :
  binTag "cudnn-linux-x86_64-8.9.7.29_cuda12-archive.tar.xz" = Some "cuda12".
Proof. reflexivity. Qed.

Example binTag_short : binTag "a-b-c.zip" = None.
Proof. reflexivity. Qed.

(** The theorem applied to the cuDNN file name of the specification. *)
Lemma binTag_witness :
  binTag "cudnn-linux-x86_64-8.9.7.29_cuda12-archive.tar.xz" = Some "cuda12".
Proof.
  apply (proj1 (@binTag_parse (posix [])
                  "cudnn-linux-x86_64-8.9.7.29_cuda12-archive.tar.xz")
           "cudnn" "linux" "x86_64" "8.9.7.29_cuda12" "-archive.tar.xz"
           "8.9.7.29" "cuda12" "");
    try reflexivity.
  - right. now exists "archive.tar.xz".
  - now left.
Defined.

(** C5, the claim as stated fails: the archive of the specification's CUDA
    example is in a local mirror, at [parent + relative_path]; nothing is
    fetched and the record is that path.  Its file name has no tag, the
    record has the tag [64], from the [x86_64] of the directory, and the
    archive is flattened into [out/linux-x86_64/64]. *)
Lemma binTag_of_a_path_record :
  exists (w1 w2 : @world (posix [])),
    fetch_action "mirror/" Scenario.cudart_manifest None (Some "linux-x86_64")
      None true Scenario.world_mirror = Ok tt w1
    /\ requests w1 = []
    /\ Dict.get "linux-x86_64" (ARCHIVES w1)
       = Some ["mirror/cuda_cudart/linux-x86_64/libcudart-linux-x86_64-12.4.0-archive.tar.xz"]
    /\ binTag (Path.basename
                 "mirror/cuda_cudart/linux-x86_64/libcudart-linux-x86_64-12.4.0-archive.tar.xz")
       = None
    /\ binTag "mirror/cuda_cudart/linux-x86_64/libcudart-linux-x86_64-12.4.0-archive.tar.xz"
       = Some "64"
    /\ post_action (Some "out") true w1 = Ok tt w2
    /\ path_isfile (fs w2) "out/linux-x86_64/64/f" = true
    /\ path_exists (fs w2) "out/linux-x86_64/f" = false.
Proof.
  exists (final (fetch_action "mirror/" Scenario.cudart_manifest None
                   (Some "linux-x86_64") None true Scenario.world_mirror)).
  exists (final (post_action (Some "out") true
                   (final (fetch_action "mirror/" Scenario.cudart_manifest None
                             (Some "linux-x86_64") None true
                             Scenario.world_mirror)))).
  repeat match goal with |- _ /\ _ => split end; vm_compute; reflexivity.
Qed.

(** C4, the claim as stated fails: [a.zip.bak] has no [.tar.] and does not
    end in [.zip], yet it is given to the zip extractor, which unpacks it;
    and [notes.txt], which is passed over, leaves no line on the output. *)
Lemma ingest_zip_not_suffix :
  Py.search ".tar." "a.zip.bak" = false
  /\ Py.endswith "a.zip.bak" ".zip" = false
  /\ (exists w' : world,
        ingest "out" true "p" "a.zip.bak" Scenario.zip_world = Ok tt w'
        /\ stdout w' = [":: zip: a.zip.bak"; "  -> Extracted: pkg";
                        "  -> Flattened: out/p/"]
        /\ path_isfile (fs w') "out/p/f" = true)
  /\ ingest "out" true "p" "notes.txt" Scenario.zip_world
       = Ok tt Scenario.zip_world.
Proof.
  split; [vm_compute; reflexivity|].
  split; [vm_compute; reflexivity|].
  split; [|vm_compute; reflexivity].
  exists (final (ingest "out" true "p" "a.zip.bak" Scenario.zip_world)).
  split; [vm_compute; reflexivity|].
  split; vm_compute; reflexivity.
Qed.

(** The routing applied: a name with [.tar.] in it, on any world. *)
Lemma ingest_routing_witness :
  Py.occurs ".tar." "a.tar.gz"
  /\ ingest "out" true "p" "a.tar.gz" Scenario.zip_world
       = ingest_tar "out" "p" "a.tar.gz" (binTag "a.tar.gz") true Scenario.zip_world.
Proof.
  assert (H : Py.occurs ".tar." "a.tar.gz") by (now exists "a", "gz").
  exact (conj H
    (proj1 (ingest_routing "out" "p" "a.tar.gz" true Scenario.zip_world) H)).
Defined.

(** ** Resolution of one artifact *)

Section Resolution.
Context {sys : OS}.


End Resolution.



(** C1, where the code departs from it: [a.zip] is in the directory of
    the component and the platform, the fourth place, and nowhere else;
    the guard tests [pwd + filename], which has no separator between the
    directory and the name, finds nothing, and the file is fetched and
    recorded under its bare name. *)
Lemma scoped_copy_is_fetched_again :
  path_exists (fs Scenario.world_scoped)
    (Path.join (Path.join3 (getcwd (fs Scenario.world_scoped)) "c" "p") "a.zip")
    = true
  /\ path_exists (fs Scenario.world_scoped) "a.zip" = false
  /\ path_exists (fs Scenario.world_scoped) "http://h/a.zip" = false
  /\ path_exists (fs Scenario.world_scoped) (Path.join "http://h/" "a.zip") = false
  /\ exists w' : world,
       parse_artifact "http://h/" Scenario.one_flat "c" "p" true None
           Scenario.world_scoped = Ok tt w'
       /\ requests w' = ["http://h/a.zip"]
       /\ Dict.get "p" (ARCHIVES w') = Some ["a.zip"].
Proof.
  repeat (split; [vm_compute; reflexivity|]).
  exists (final (parse_artifact "http://h/" Scenario.one_flat "c" "p" true None
                   Scenario.world_scoped)).
  split; [vm_compute; reflexivity|].
  split; vm_compute; reflexivity.
Qed.

(** ** Dictionaries *)

Section DictFacts.

Variable V : Type.
Implicit Types (d : Dict.t V) (k : string) (v : V).

Lemma get_set_same d k v : Dict.get k (Dict.set k v d) = Some v.
Proof.
  induction d as [|[k' v'] d IH]; simpl.
  - now rewrite String.eqb_refl.
  - destruct (String.eqb k k') eqn:E; simpl; rewrite E; [reflexivity | exact IH].
Qed.

Lemma get_set_other d k k' v :
  k <> k' -> Dict.get k' (Dict.set k v d) = Dict.get k' d.
Proof.
  intros Hne. induction d as [|[k0 v0] d IH]; simpl.
  - apply String.eqb_neq in Hne. rewrite String.eqb_sym in Hne. now rewrite Hne.
  - destruct (String.eqb k k0) eqn:E; simpl.
    + apply String.eqb_eq in E. subst k0.
      apply String.eqb_neq in Hne. rewrite String.eqb_sym in Hne. now rewrite Hne.
    + now rewrite IH.
Qed.

Lemma mem_set d k k' v :
  Dict.mem k' d = true -> Dict.mem k' (Dict.set k v d) = true.
Proof.
  unfold Dict.mem. destruct (String.eqb k k') eqn:E.
  - apply String.eqb_eq in E. subst. now rewrite get_set_same.
  - apply String.eqb_neq in E. now rewrite get_set_other.
Qed.


Lemma keys_get d k : In k (Dict.keys d) -> exists v, Dict.get k d = Some v.
Proof.
  induction d as [|[k' v'] d IH]; simpl; [contradiction|].
  intros [->|H].
  - rewrite String.eqb_refl. now exists v'.
  - destruct (String.eqb k k'); [now exists v' | now apply IH].
Qed.


Lemma keys_set_present d k v v' :
  Dict.get k d = Some v' -> Dict.keys (Dict.set k v d) = Dict.keys d.
Proof.
  unfold Dict.keys.
  induction d as [|[k' v0] d IH]; simpl; [discriminate|].
  destruct (String.eqb k k'); intros H; simpl; [reflexivity|].
  now rewrite IH.
Qed.

End DictFacts.


(** ** The monad *)

Section MonadFacts.

Context {sys : OS}.

Lemma bind_Ok_inv (A B : Type) (c : Run A) (k : A -> Run B) (w w' : world) (b : B) :
  bind c k w = Ok b w' ->
  exists (a : A) (w1 : world), c w = Ok a w1 /\ k a w1 = Ok b w'.
Proof.
  unfold bind. destruct (c w) as [a w1|e w1]; [|discriminate].
  intros H. now exists a, w1.
Qed.

Lemma lift_pure_Ok_inv (A : Type) (r : pure_res A) (w w' : world) (a : A) :
  lift_pure r w = Ok a w' -> r = inr a /\ w' = w.
Proof.
  unfold lift_pure. destruct r; [discriminate|].
  intros H. injection H as -> ->. now split.
Qed.

Lemma for_each_app (A : Type) (l1 l2 : list A) (body : A -> Run unit) (w : world) :
  for_each (l1 ++ l2) body w = (for_each l1 body ;; for_each l2 body) w.
Proof.
  revert w. induction l1 as [|x l1 IH]; intros w; simpl.
  - reflexivity.
  - unfold bind. destruct (body x w) as [[] w1|e w1]; [|reflexivity].
    rewrite IH. reflexivity.
Qed.

(** A loop stops at the first iteration that raises. *)
Lemma for_each_raises (A : Type) (l1 l2 : list A) (x : A) (body : A -> Run unit)
    (w w1 w2 : world) (e : exn) :
  for_each l1 body w = Ok tt w1 ->
  body x w1 = Raise e w2 ->
  for_each (l1 ++ x :: l2) body w = Raise e w2.
Proof.
  intros H1 Hx. rewrite for_each_app. unfold bind. rewrite H1.
  simpl. unfold bind. now rewrite Hx.
Qed.

Lemma preserves_ret (A : Type) (P : world -> Prop) (a : A) : preserves P (ret a).
Proof. now intros w H. Qed.

Lemma preserves_gets (A : Type) (P : world -> Prop) (f : world -> A) :
  preserves P (gets f).
Proof. now intros w H. Qed.

Lemma preserves_lift_pure (A : Type) (P : world -> Prop) (r : pure_res A) :
  preserves P (lift_pure r).
Proof. intros w H. unfold lift_pure. now destruct r. Qed.

Lemma preserves_bind (A B : Type) (P : world -> Prop) (c : Run A) (k : A -> Run B) :
  preserves P c -> (forall a, preserves P (k a)) -> preserves P (bind c k).
Proof.
  intros Hc Hk w H. unfold bind. specialize (Hc w H).
  destruct (c w) as [a w1|e w1]; simpl in *; [now apply Hk | exact Hc].
Qed.

Lemma preserves_for_each (A : Type) (P : world -> Prop) (l : list A)
    (body : A -> Run unit) :
  (forall x, In x l -> preserves P (body x)) -> preserves P (for_each l body).
Proof.
  induction l as [|x l IH]; intros Hb; simpl.
  - apply preserves_ret.
  - apply preserves_bind; [apply Hb; now left|].
    intros _. apply IH. intros y Hy. apply Hb. now right.
Qed.

Lemma preserves_if (A : Type) (P : world -> Prop) (b : bool) (c1 c2 : Run A) :
  preserves P c1 -> preserves P c2 -> preserves P (if b then c1 else c2).
Proof. now destruct b. Qed.


End MonadFacts.

(** ** The walk over the manifest *)

Section Walk.
Context {sys : OS}.

Implicit Types (Q : Dict.t (list string) -> Prop) (w : world).

Lemma on_print Q (s : string) : preserves (on Q) (print s).
Proof. now intros w H. Qed.

Lemma on_lift_fs Q (A : Type) (op : FS -> res FS A) : preserves (on Q) (lift_fs op).
Proof. intros w H. unfold lift_fs. now destruct (op (fs w)). Qed.

Lemma on_open_url Q (url : string) : preserves (on Q) (open_url url).
Proof. intros w H. unfold open_url. now destruct (urlopen url). Qed.



Ltac keep :=
  repeat first
    [ apply preserves_ret | apply preserves_gets | apply preserves_lift_pure
    | apply on_print | apply on_lift_fs | apply on_open_url
    | apply preserves_if
    | apply preserves_bind; [|intros ?] ].

Lemma on_fetch_file Q (full_path filename : string) :
  preserves (on Q) (fetch_file full_path filename).
Proof. unfold fetch_file. keep. Qed.











End Walk.

Section Filters.

Context {sys : OS}.

Implicit Types (w : world).

Lemma for_each_ext (A : Type) (l : list A) (b1 b2 : A -> Run unit) w :
  (forall x w1, b1 x w1 = b2 x w1) -> for_each l b1 w = for_each l b2 w.
Proof.
  intros H. revert w. induction l as [|x l IH]; intros w; [reflexivity|].
  simpl. unfold bind. rewrite H. destruct (b2 x w); [apply IH | reflexivity].
Qed.

(** A step that leaves [ARCHIVES] alone, then one append. *)
Lemma then_append (c : Run unit) (platform x : string) w w' :
  (forall Q, preserves (on Q) c) ->
  (c ;; archives_append platform x) w = Ok tt w' ->
  exists l, Dict.get platform (ARCHIVES w) = Some l
            /\ ARCHIVES w' = Dict.set platform (l ++ [x]) (ARCHIVES w).
Proof.
  intros Hc Hrun. apply bind_Ok_inv in Hrun. destruct Hrun as ([] & w1 & H1 & H2).
  assert (E : ARCHIVES w1 = ARCHIVES w).
  { specialize (Hc (fun a => a = ARCHIVES w) w eq_refl). now rewrite H1 in Hc. }
  unfold archives_append in H2. rewrite E in H2.
  destruct (Dict.get platform (ARCHIVES w)) as [l|]; [|discriminate].
  exists l. split; [reflexivity|]. now injection H2 as <-.
Qed.

(** One resolution that returns leaves [ARCHIVES] as it is or appends one
    record to the list of the platform, one of the four names of the
    artifact. *)
Lemma parse_artifact_at_most_one (parent : string) (manifest : json)
    (component platform : string) (retrieve : bool) (variant : option string)
    w w' :
  parse_artifact parent manifest component platform retrieve variant w = Ok tt w' ->
  exists rel,
    relative_path_of manifest component platform variant = inr (JStr rel)
    /\ (ARCHIVES w' = ARCHIVES w
        \/ exists l r,
             Dict.get platform (ARCHIVES w) = Some l
             /\ ARCHIVES w' = Dict.set platform (l ++ [r]) (ARCHIVES w)
             /\ In r (record_names parent component platform rel w)).
Proof.
  unfold parse_artifact. intros Hrun.
  unfold bind at 1 in Hrun.
  destruct (relative_path_of manifest component platform variant) as [e|[| | |rel| |]];
    try discriminate.
  exists rel. split; [reflexivity|].
  cbn [lift_pure py_concat] in Hrun. unfold bind at 1 in Hrun.
  cbn [lift_pure] in Hrun.
  unfold exists_ in Hrun. unfold bind at 1 2 3 4 5 6 7, gets in Hrun.
  unfold record_names.
  repeat match type of Hrun with
         | (if ?b then _ else _) _ = _ => destruct b
         end;
    try (apply then_append in Hrun;
         [destruct Hrun as (l & Hl & Ha); right; exists l; eexists;
          split; [exact Hl|split; [exact Ha|simpl; tauto]]
         |intros Q; first [apply on_fetch_file | apply on_print]]).
  left. unfold bind, print in Hrun. now injection Hrun as <-.
Qed.

(** With nothing of the artifact outside the working directory, a
    resolution that retrieves and returns appends the file name. *)
Lemma parse_artifact_local (parent : string) (manifest : json)
    (component platform : string) (variant : option string) w w' :
  elsewhere parent manifest component platform variant w = false ->
  parse_artifact parent manifest component platform true variant w = Ok tt w' ->
  exists rel l,
    relative_path_of manifest component platform variant = inr (JStr rel)
    /\ Dict.get platform (ARCHIVES w) = Some l
    /\ ARCHIVES w' = Dict.set platform (l ++ [Path.basename (parent ++ rel)])
                       (ARCHIVES w).
Proof.
  unfold elsewhere, parse_artifact. intros He Hrun.
  unfold bind at 1 in Hrun.
  destruct (relative_path_of manifest component platform variant) as [e|[| | |rel| |]];
    try discriminate.
  exists rel.
  cbn [lift_pure py_concat] in Hrun. unfold bind at 1 in Hrun.
  cbn [lift_pure] in Hrun.
  cbv zeta in He.
  repeat (apply orb_false_iff in He; destruct He as [He ?]).
  unfold exists_ in Hrun. unfold bind at 1 2 3 4 5 6 7, gets in Hrun.
  repeat match goal with
         | H : path_exists _ _ = false |- _ => rewrite H in Hrun; clear H
         end.
  cbn [andb negb] in Hrun. rewrite !andb_true_r in Hrun.
  destruct (path_exists (fs w) (Path.basename (parent ++ rel)));
    cbn [negb] in Hrun;
    (apply then_append in Hrun;
     [destruct Hrun as (l & Hl & Ha); exists l; now repeat split
     |intros Q; first [apply on_fetch_file | apply on_print]]).
Qed.

(** The records of a walk over the variant keys. *)
Lemma fanout_records (parent : string) (manifest : json)
    (component platform : string) (retrieve : bool) (variants : list string) w w' :
  for_each variants
    (fun v => parse_artifact parent manifest component platform retrieve (Some v)) w
    = Ok tt w' ->
  exists new : list string,
    List.length new <= List.length variants
    /\ Dict.get platform (ARCHIVES w')
       = option_map (fun l => l ++ new) (Dict.get platform (ARCHIVES w))
    /\ (forall k, k <> platform ->
          Dict.get k (ARCHIVES w') = Dict.get k (ARCHIVES w))
    /\ Forall (fun r =>
                 exists v rel w1,
                   In v variants
                   /\ relative_path_of manifest component platform (Some v)
                      = inr (JStr rel)
                   /\ In r (record_names parent component platform rel w1)) new.
Proof.
  revert w. induction variants as [|v vs IH]; intros w Hrun.
  - simpl in Hrun. unfold ret in Hrun. injection Hrun as <-. exists []. simpl.
    split; [lia|]. split; [destruct (Dict.get platform (ARCHIVES w)); simpl; now rewrite ?app_nil_r|].
    split; [reflexivity|constructor].
  - simpl in Hrun. apply bind_Ok_inv in Hrun.
    destruct Hrun as ([] & w1 & H1 & H2).
    destruct (IH w1 H2) as (new & Hlen & Hget & Hother & Hall).
    assert (Hall' : Forall (fun r =>
                 exists v0 rel w0,
                   In v0 (v :: vs)
                   /\ relative_path_of manifest component platform (Some v0)
                      = inr (JStr rel)
                   /\ In r (record_names parent component platform rel w0)) new).
    { eapply Forall_impl; [|exact Hall].
      intros r (v0 & rel & w0 & Hin & Hrel & Hr). exists v0, rel, w0.
      split; [now right|now split]. }
    pose proof H1 as H1'. apply parse_artifact_at_most_one in H1'.
    destruct H1' as (rel & Hrel & [Hsame|Hone]).
    + exists new. rewrite Hget, Hsame. split; [simpl; lia|].
      split; [reflexivity|]. split; [|exact Hall'].
      intros k Hk. now rewrite (Hother k Hk), Hsame.
    + destruct Hone as (l & r & Hl & Ha & Hr).
      exists (r :: new). split; [simpl; lia|]. split; [|split].
      * rewrite Hget, Ha, get_set_same, Hl. simpl. now rewrite <- app_assoc.
      * intros k Hk. rewrite (Hother k Hk), Ha. apply get_set_other. congruence.
      * constructor; [|exact Hall']. exists v, rel, w.
        split; [now left|now split].
Qed.

(** The records of a walk over the variant keys that retrieves and meets
    nothing of an artifact outside the working directory: the file names
    of the variants, in the order of the keys. *)
Lemma fanout_names (parent : string) (manifest : json)
    (component platform : string) (variants : list string) w w' :
  forallb (fun vw => negb (elsewhere parent manifest component platform
                             (Some (fst vw)) (snd vw)))
    (entered variants
       (fun v => parse_artifact parent manifest component platform true (Some v))
       w) = true ->
  for_each variants
    (fun v => parse_artifact parent manifest component platform true (Some v)) w
    = Ok tt w' ->
  exists names : list string,
    Forall2 (fun v name =>
               exists rel,
                 relative_path_of manifest component platform (Some v)
                 = inr (JStr rel)
                 /\ name = Path.basename (parent ++ rel)) variants names
    /\ Dict.get platform (ARCHIVES w')
       = option_map (fun l => l ++ names) (Dict.get platform (ARCHIVES w))
    /\ forall k, k <> platform ->
         Dict.get k (ARCHIVES w') = Dict.get k (ARCHIVES w).
Proof.
  revert w. induction variants as [|v vs IH]; intros w Hg Hrun.
  - simpl in Hrun. unfold ret in Hrun. injection Hrun as <-. exists []. simpl.
    split; [constructor|]. split; [destruct (Dict.get platform (ARCHIVES w)); simpl; now rewrite ?app_nil_r|].
    reflexivity.
  - simpl in Hrun. apply bind_Ok_inv in Hrun.
    destruct Hrun as ([] & w1 & H1 & H2).
    simpl in Hg. rewrite H1 in Hg. apply andb_true_iff in Hg.
    destruct Hg as [Hg1 Hg2]. apply negb_true_iff in Hg1.
    pose proof H1 as H1'. apply parse_artifact_local in H1'; [|exact Hg1].
    destruct H1' as (rel & l & Hrel & Hl & Ha).
    destruct (IH w1 Hg2 H2) as (names & Hnames & Hget & Hother).
    exists (Path.basename (parent ++ rel) :: names). split; [|split].
    + constructor; [now exists rel|exact Hnames].
    + rewrite Hget, Ha, get_set_same, Hl. simpl. now rewrite <- app_assoc.
    + intros k Hk. rewrite (Hother k Hk), Ha. apply get_set_other. congruence.
Qed.

(** C8, as the code has it.  For a platform entry with no [relative_path]
    of its own, the walk without a variant filter resolves each variant
    key once, in the order of the keys; with a filter it resolves the keys
    equal to the filter and prints a line for each of the others.  A walk
    of the variants that returns has added at most one record for each
    variant key to the list of the platform, each of them one of the four
    names of the artifact of a variant, and has changed no other list.
    When the walk retrieves and meets nothing of an artifact in the places
    other than the working directory, it has added exactly one record for
    each variant key: the file name of the variant's relative path, fetched
    or found in the working directory.  The records are as distinct as
    these file names are. *)
Theorem variant_fanout (parent : string) (manifest : json)
    (component platform : string) (value : json) (retrieve : bool)
    (variants : list string) (w : world) :
  py_in "relative_path" value = inr false ->
  py_keys value = inr variants ->
  resolve_platform parent manifest component platform value None retrieve w
    = for_each variants
        (fun v => parse_artifact parent manifest component platform retrieve
                    (Some v)) w
  /\ (forall f : string,
        resolve_platform parent manifest component platform value (Some f)
          retrieve w
        = for_each variants
            (fun v =>
               if String.eqb v f then
                 parse_artifact parent manifest component platform retrieve
                   (Some v)
               else print ("  -> Skipping variant: " ++ v)) w)
  /\ (forall w' : world,
        resolve_platform parent manifest component platform value None
          retrieve w = Ok tt w' ->
        exists new : list string,
          List.length new <= List.length variants
          /\ Dict.get platform (ARCHIVES w')
             = option_map (fun l => l ++ new) (Dict.get platform (ARCHIVES w))
          /\ (forall k, k <> platform ->
                Dict.get k (ARCHIVES w') = Dict.get k (ARCHIVES w))
          /\ Forall (fun r =>
                       exists v rel w1,
                         In v variants
                         /\ relative_path_of manifest component platform (Some v)
                            = inr (JStr rel)
                         /\ In r (record_names parent component platform rel w1))
               new)
  /\ (forall w' : world,
        retrieve = true ->
        forallb (fun vw => negb (elsewhere parent manifest component platform
                                   (Some (fst vw)) (snd vw)))
          (entered variants
             (fun v => parse_artifact parent manifest component platform true
                         (Some v)) w) = true ->
        resolve_platform parent manifest component platform value None
          retrieve w = Ok tt w' ->
        exists names : list string,
          Forall2 (fun v name =>
                     exists rel,
                       relative_path_of manifest component platform (Some v)
                       = inr (JStr rel)
                       /\ name = Path.basename (parent ++ rel)) variants names
          /\ Dict.get platform (ARCHIVES w')
             = option_map (fun l => l ++ names) (Dict.get platform (ARCHIVES w))
          /\ forall k, k <> platform ->
               Dict.get k (ARCHIVES w') = Dict.get k (ARCHIVES w)).
Proof.
  intros Hflat Hkeys.
  assert (E : forall cuda_filter,
    resolve_platform parent manifest component platform value cuda_filter
      retrieve w
    = for_each variants
        (variant_step parent manifest component platform cuda_filter retrieve) w).
  { intros cf. unfold resolve_platform. unfold bind at 1. rewrite Hflat.
    cbn [lift_pure negb]. unfold bind at 1. now rewrite Hkeys. }
  split; [|split; [|split]].
  - rewrite E. now apply for_each_ext.
  - intros f. rewrite E. apply for_each_ext. intros v w1.
    unfold variant_step, filtered_out. now destruct (String.eqb v f).
  - intros w' Hrun. rewrite E in Hrun.
    eapply fanout_records. rewrite <- Hrun. now apply for_each_ext.
  - intros w' -> Hg Hrun. rewrite E in Hrun.
    eapply fanout_names; [exact Hg|].
    rewrite <- Hrun. now apply for_each_ext.
Qed.



End Filters.

(** ** Failures and the exit status *)

Section Exit.

Context {sys : OS}.

Implicit Types (w : world).

(** An archive that cannot be opened or unpacked makes [ingest] raise. *)
Lemma ingest_raises (out platform archive : string) (collapse : bool) w
    (e : exn) (f : FS) :
  (Py.search ".tar." archive = true ->
   tar_open archive (fs w) = Raise e f ->
   ingest out collapse platform archive w
     = Raise e (World f (ARCHIVES w)
                  (stdout w ++ [(":: tar: " ++ archive)%string])
                  (stderr w) (requests w)))
  /\ (forall names f0,
        Py.search ".tar." archive = true ->
        tar_open archive (fs w) = Ok names f0 ->
        tar_extractall archive f0 = Raise e f ->
        ingest out collapse platform archive w
          = Raise e (World f (ARCHIVES w)
                       (stdout w ++ [(":: tar: " ++ archive)%string])
                       (stderr w) (requests w)))
  /\ (Py.search ".tar." archive = false ->
      Py.search ".zip" archive = true ->
      zip_open archive (fs w) = Raise e f ->
      ingest out collapse platform archive w
        = Raise e (World f (ARCHIVES w)
                     (stdout w ++ [(":: zip: " ++ archive)%string])
                     (stderr w) (requests w)))
  /\ (forall names f0,
        Py.search ".tar." archive = false ->
        Py.search ".zip" archive = true ->
        zip_open archive (fs w) = Ok names f0 ->
        zip_extractall archive f0 = Raise e f ->
        ingest out collapse platform archive w
          = Raise e (World f (ARCHIVES w)
                       (stdout w ++ [(":: zip: " ++ archive)%string])
                       (stderr w) (requests w))).
Proof.
  unfold ingest, ingest_tar, ingest_zip. repeat split.
  - intros -> H. unfold bind, print, lift_fs. cbn [fs]. now rewrite H.
  - intros names f0 -> H1 H2. unfold bind, print, lift_fs. cbn [fs].
    rewrite H1. cbn [fs set_fs]. now rewrite H2.
  - intros -> -> H. unfold bind, print, lift_fs. cbn [fs]. now rewrite H.
  - intros names f0 -> -> H1 H2. unfold bind, print, lift_fs. cbn [fs].
    rewrite H1. cbn [fs set_fs]. now rewrite H2.
Qed.

(** The first archive whose ingestion raises ends [post_action]. *)
Lemma post_action_raises (out : string) (collapse : bool) w
    (platforms1 platforms2 : list string) (platform : string)
    (l1 l2 : list string) (a : string) (w0 wa wb wc : world) (e : exn) :
  Dict.keys (ARCHIVES w) = platforms1 ++ platform :: platforms2 ->
  (print (Py.nl ++ "Archives:") ;; ensure_dir out) w = Ok tt w0 ->
  ingest_all out collapse platforms1 w0 = Ok tt wa ->
  Dict.get platform (ARCHIVES wa) = Some (l1 ++ a :: l2) ->
  for_each l1 (ingest out collapse platform) wa = Ok tt wb ->
  ingest out collapse platform a wb = Raise e wc ->
  post_action (Some out) collapse w = Raise e wc.
Proof.
  intros Hk Hpre H1 Hget Hl1 Ha.
  assert (Hall : ingest_all out collapse (platforms1 ++ platform :: platforms2) w0
                 = Raise e wc).
  { unfold ingest_all in *. apply for_each_raises with (w1 := wa); [exact H1|].
    unfold bind, archives_get. rewrite Hget.
    now apply for_each_raises with (w1 := wb). }
  apply bind_Ok_inv in Hpre. destruct Hpre as ([] & wp & Hp & He).
  unfold post_action. unfold bind at 1. unfold gets at 1. rewrite Hk.
  replace (List.length (platforms1 ++ platform :: platforms2) =? 0)%nat with false
    by (now destruct platforms1).
  unfold bind at 1. rewrite Hp. unfold fspath, ret. unfold bind at 1.
  unfold bind at 1. rewrite He. unfold bind at 1. now rewrite Hall.
Qed.

(** C3, as the code has it.  The [--download-only] run exits with status 0
    when its [try] block returns and with status 1, after one line on
    standard error, when the block raises, whatever raised.  A failure of
    [post_action] is such a raise, as a failure to load the manifest is;
    and [post_action] raises at the first archive that cannot be opened
    or unpacked, in the state of that raise: the archives after it are
    not ingested. *)
Theorem extraction_failure_ends_run (args : Args) (w : world) :
  (forall w', download_only_body args w = Ok tt w' ->
              download_only args w = (0%Z, w'))
  /\ (forall e w',
        download_only_body args w = Raise e w' ->
        download_only args w
          = (1%Z, World (fs w') (ARCHIVES w') (stdout w')
                    (stderr w' ++ [("Error during download: " ++ exn_str e)%string])
                    (requests w')))
  /\ (forall resp manifest w0 w1 e w2,
        open_url (manifest_uri args) w = Ok resp w0 ->
        json_loads (snd resp) = inr manifest ->
        fetch_action (redist_parent args) manifest (arg_component args)
          (Some (platform_of args)) (arg_variant args) true w0 = Ok tt w1 ->
        post_action (arg_output args) true w1 = Raise e w2 ->
        download_only_body args w = Raise e w2)
  /\ (forall out collapse w1 platforms1 platform platforms2 l1 a l2 w0 wa wb e wc,
        Dict.keys (ARCHIVES w1) = platforms1 ++ platform :: platforms2 ->
        (print (Py.nl ++ "Archives:") ;; ensure_dir out) w1 = Ok tt w0 ->
        ingest_all out collapse platforms1 w0 = Ok tt wa ->
        Dict.get platform (ARCHIVES wa) = Some (l1 ++ a :: l2) ->
        for_each l1 (ingest out collapse platform) wa = Ok tt wb ->
        ingest out collapse platform a wb = Raise e wc ->
        post_action (Some out) collapse w1 = Raise e wc)
  /\ (forall out collapse platform archive w1 e f,
        Py.occurs ".tar." archive ->
        tar_open archive (fs w1) = Raise e f ->
        ingest out collapse platform archive w1
          = Raise e (World f (ARCHIVES w1)
                       (stdout w1 ++ [(":: tar: " ++ archive)%string])
                       (stderr w1) (requests w1)))
  /\ (forall out collapse platform archive w1 e f,
        ~ Py.occurs ".tar." archive -> Py.occurs ".zip" archive ->
        zip_open archive (fs w1) = Raise e f ->
        ingest out collapse platform archive w1
          = Raise e (World f (ARCHIVES w1)
                       (stdout w1 ++ [(":: zip: " ++ archive)%string])
                       (stderr w1) (requests w1))).
Proof.
  repeat split.
  - intros w' H. unfold download_only. now rewrite H.
  - intros e w' H. unfold download_only. now rewrite H.
  - intros resp manifest w0 w1 e w2 H1 H2 H3 H4.
    unfold download_only_body. unfold bind at 1. rewrite H1.
    unfold bind at 1. rewrite H2. cbn [lift_pure].
    unfold bind at 1. now rewrite H3.
  - intros. eapply post_action_raises; eassumption.
  - intros out collapse platform archive w1 e f Ht H.
    apply search_occurs in Ht. now apply ingest_raises.
  - intros out collapse platform archive w1 e f Ht Hz H.
    apply search_not_occurs in Ht. apply search_occurs in Hz.
    now apply ingest_raises.
Qed.

End Exit.

(** ** The theorems at work on the reference system *)

(** Closed goals on the reference system, by evaluation. *)
Ltac evaluate :=
  repeat match goal with |- _ /\ _ => split end; vm_compute; reflexivity.

(** C3, the claim as stated fails: the manifest loads, both archives are
    fetched, the first is no archive; the run exits with status 1 after
    one line on standard error, and the second archive, which is sound,
    is never opened. *)
Lemma corrupt_archive_exit_status :
  fst (download_only Scenario.run_args Scenario.world_run) = 1%Z
  /\ stderr (snd (download_only Scenario.run_args Scenario.world_run))
     = ["Error during download: bad.tar.gz"]
  /\ Dict.get "linux-x"
       (ARCHIVES (snd (download_only Scenario.run_args Scenario.world_run)))
     = Some ["bad.tar.gz"; "good.tar.gz"]
  /\ existsb (String.eqb ":: tar: bad.tar.gz")
       (stdout (snd (download_only Scenario.run_args Scenario.world_run))) = true
  /\ existsb (String.eqb ":: tar: good.tar.gz")
       (stdout (snd (download_only Scenario.run_args Scenario.world_run))) = false
  /\ path_exists (fs (snd (download_only Scenario.run_args Scenario.world_run)))
       "out/linux-x/f" = false.
Proof. evaluate. Qed.

(** The source passthrough of the specification: with the filter [p], the
    platforms [p] and [source] give a record each and [q] gives a line. *)
Example source_passthrough_run :
  exists w' : world,
    fetch_action "http://h/" Scenario.three_platforms None (Some "p") None true
      Scenario.world_three = Ok tt w'
    /\ ARCHIVES w' = [("name", []); ("version", []); ("p", ["a.zip"]);
                      ("source", ["s.zip"]); ("q", [])]
    /\ requests w' = ["http://h/a.zip"; "http://h/s.zip"]
    /\ existsb (String.eqb "  -> Skipping platform: q") (stdout w') = true.
Proof.
  exists (final (fetch_action "http://h/" Scenario.three_platforms None (Some "p")
                   None true Scenario.world_three)).
  evaluate.
Qed.


(** The fan-out theorem applied to the manifest of the specification: two
    variants, two records, the file names of the two, and they differ. *)
Lemma variant_fanout_witness :
  exists names : list string,
    Dict.get "linux-x86_64"
      (ARCHIVES (final (resolve_platform "http://h/" Scenario.cudnn_manifest
                          "cudnn_x" "linux-x86_64" Scenario.cudnn_platform
                          None true Scenario.world_cudnn)))
    = Some names
    /\ names = ["a-b-c-11.tar.gz"; "a-b-c-12.tar.gz"]
    /\ NoDup names.
Proof.
  destruct (proj2 (proj2 (proj2 (@variant_fanout (posix Scenario.net_cudnn)
    "http://h/" Scenario.cudnn_manifest "cudnn_x" "linux-x86_64"
    Scenario.cudnn_platform true ["cuda11"; "cuda12"] Scenario.world_cudnn
    eq_refl eq_refl)))
    (final (resolve_platform "http://h/" Scenario.cudnn_manifest
              "cudnn_x" "linux-x86_64" Scenario.cudnn_platform
              None true Scenario.world_cudnn))
    eq_refl) as (names & _ & Hget & _).
  - vm_compute; reflexivity.
  - vm_compute; reflexivity.
  - exists names. vm_compute in Hget. injection Hget as <-.
    split; [vm_compute; reflexivity|]. split; [reflexivity|].
    repeat constructor; simpl; intuition discriminate.
Defined.

(** C8, the claim as stated fails: the two variants of the platform have
    archives with the same file name in different directories of the
    server; the walk returns, the first is fetched, the second is found in
    the working directory under the name of the first, and the two records
    are equal. *)
Lemma variants_sharing_a_file_name :
  exists w' : @world (posix Scenario.net_twins),
    fetch_action "http://h/" Scenario.twins_manifest None (Some "linux-x86_64")
      None true Scenario.world_twins = Ok tt w'
    /\ Dict.get "linux-x86_64" (ARCHIVES w') = Some ["a.tar.gz"; "a.tar.gz"]
    /\ requests w' = ["http://h/cuda11/a.tar.gz"]
    /\ stdout w'
       = [(Py.nl ++ "n: v")%string; ":: Fetching: http://h/cuda11/a.tar.gz";
          "  -> Wrote: a.tar.gz"; "  -> Found: a.tar.gz"].
Proof.
  exists (final (fetch_action "http://h/" Scenario.twins_manifest None
                   (Some "linux-x86_64") None true Scenario.world_twins)).
  evaluate.
Qed.


(** ** [fix_permissions] as one loop over the file system *)

Section Permissions.

Context {sys : OS}.






End Permissions.

(** ** The reference file system *)

Unset Implicit Arguments.

Module PosixFacts.

Import Posix.

(* The bound on the links followed is not unfolded in the proofs. *)
#[local] Opaque max_links.







Lemma put_cons (es : list (string * node)) (c : string) (p : list string)
    (x n1 : node) :
  Dict.get c es = Some n1 ->
  put (Dir es) (c :: p) x =
    match put n1 p x with
    | Some n'' => Some (Dir (Dict.set c n'' es))
    | None => None
    end.
Proof. intros H. simpl. rewrite H. now destruct p. Qed.

Lemma get_cons_inv (n : node) (c : string) (p : list string) (y : node) :
  get n (c :: p) = Some y ->
  exists es n1, n = Dir es /\ Dict.get c es = Some n1 /\ get n1 p = Some y.
Proof.
  destruct n as [m d|t|es]; simpl; try discriminate.
  destruct (Dict.get c es) as [n1|] eqn:E; [|discriminate].
  intros H. now exists es, n1.
Qed.



















Section Loop.

(** The file system in which the walk is listed. *)
Variable f0 : fsys.








End Loop.







End PosixFacts.




(** ** Merging trees on the reference file system *)

Module MergeFacts.

Import Posix.

Lemma copy_node_Dir (name : string) (es : list (string * node)) (d : option node) :
  copy_node name (Dir es) d =
    match d with
    | Some (File m c) => (File m c, true)
    | Some (Link t) => (Link t, true)
    | _ =>
        let r := copy_entries es
                   (match d with Some (Dir des) => des | _ => [] end, false) in
        (Dir (fst r), snd r)
    end.
Proof.
  assert (H : forall acc,
    (fix copy_entries (l : list (string * node))
         (acc : list (string * node) * bool) :=
       match l with
       | [] => acc
       | (name, child) :: l' =>
           let xe := copy_node name child (Dict.get name (fst acc)) in
           copy_entries l'
             (Dict.set name (fst xe) (fst acc), (snd acc || snd xe)%bool)
       end) es acc = copy_entries es acc).
  { unfold copy_entries. induction es as [|[k v] es IH]; intros acc; [reflexivity|].
    simpl. apply IH. }
  destruct d as [[m c|t|des]|]; simpl; try reflexivity; now rewrite H.
Qed.




Lemma copy_entries_cons (k0 : string) (v0 : node) (l des : list (string * node))
    (err : bool) :
  copy_entries ((k0, v0) :: l) (des, err)
  = copy_entries l
      (Dict.set k0 (fst (copy_node k0 v0 (Dict.get k0 des))) des,
       (err || snd (copy_node k0 v0 (Dict.get k0 des)))%bool).
Proof. reflexivity. Qed.


Lemma surjective_pairing_false (A : Type) (p : A * bool) :
  snd p = false -> p = (fst p, false).
Proof. destruct p as [a b]. simpl. now intros ->. Qed.


(** What is at a path under the destination when the optional node [d]
    is the destination. *)
Lemma get_from_Dir (des : list (string * node)) (k : string) (r : list string) :
  get (Dir des) (k :: r)
  = match Dict.get k des with Some n => get n r | None => None end.
Proof. reflexivity. Qed.





(** *** Paths apart *)


Lemma under_app (p r : list string) : under p (p ++ r) = true.
Proof.
  induction p as [|c p IH]; [reflexivity|]. simpl. now rewrite String.eqb_refl.
Qed.

Lemma under_nil (p : list string) : under p [] = true -> p = [].
Proof. now destruct p. Qed.

(** Below a path that is apart from [p], all is apart from [p]. *)
Lemma apart_app (p q r : list string) :
  under p q = false -> under q p = false ->
  under p (q ++ r) = false /\ under (q ++ r) p = false.
Proof.
  revert q. induction p as [|a p IH]; intros [|b q] H1 H2; try discriminate.
  simpl in *. destruct (String.eqb a b) eqn:E.
  - rewrite String.eqb_sym, E in H2. simpl in *.
    rewrite String.eqb_sym, E. simpl. now apply IH.
  - rewrite String.eqb_sym, E. now split.
Qed.

Lemma put_nonempty (es : list (string * node)) (c : string) (p : list string)
    (x n' : node) :
  put (Dir es) (c :: p) x = Some n' -> exists es', n' = Dir es'.
Proof.
  intros H. destruct p as [|c' p].
  - simpl in H. injection H as <-. eauto.
  - destruct (Dict.get c es) as [n1|] eqn:Ec;
      [|simpl in H; rewrite Ec in H; discriminate H].
    erewrite PosixFacts.put_cons in H by exact Ec.
    destruct (put n1 (c' :: p) x); [|discriminate H].
    injection H as <-. eauto.
Qed.

(** What [put] leaves at and under the path it writes. *)
Lemma put_at (n : node) (p : list string) (x y : node) :
  get n p = Some y ->
  exists n', put n p x = Some n' /\ forall r, get n' (p ++ r) = get x r.
Proof.
  revert n. induction p as [|c p IH]; intros n H.
  - exists x. now split.
  - destruct (@PosixFacts.get_cons_inv _ _ _ _ H) as (es & n1 & -> & Hc & Hp).
    destruct (IH _ Hp) as (n1' & Hput & Hr).
    erewrite PosixFacts.put_cons by exact Hc. rewrite Hput.
    eexists. split; [reflexivity|]. intros r. simpl.
    now rewrite get_set_same.
Qed.

(** What [put] leaves apart from the path it writes. *)
Lemma put_apart (n : node) (p q : list string) (x n' : node) :
  put n p x = Some n' ->
  under p q = false -> under q p = false ->
  get n' q = get n q.
Proof.
  revert n n' q. induction p as [|a p IH]; intros n n' [|b q] Hput H1 H2;
    try discriminate.
  destruct n as [m d|t|es]; try discriminate.
  simpl in H1, H2. destruct (String.eqb a b) eqn:E.
  - apply String.eqb_eq in E. subst b. rewrite String.eqb_refl in H2.
    simpl in H1, H2. destruct p as [|c p]; [simpl in H1; discriminate H1|].
    destruct (Dict.get a es) as [n1|] eqn:Ea;
      [|simpl in Hput; rewrite Ea in Hput; discriminate Hput].
    erewrite PosixFacts.put_cons in Hput by exact Ea.
    destruct (put n1 (c :: p) x) as [n1'|] eqn:E1; [|discriminate Hput].
    injection Hput as <-. rewrite !get_from_Dir, get_set_same, Ea.
    exact (IH n1 n1' q E1 H1 H2).
  - apply String.eqb_neq in E.
    assert (Hs : exists y, n' = Dir (Dict.set a y es)).
    { destruct p as [|c p].
      - simpl in Hput. injection Hput as <-. eauto.
      - destruct (Dict.get a es) as [n1|] eqn:Ea;
          [|simpl in Hput; rewrite Ea in Hput; discriminate Hput].
        erewrite PosixFacts.put_cons in Hput by exact Ea.
        destruct (put n1 (c :: p) x); [|discriminate Hput].
        injection Hput as <-. eauto. }
    destruct Hs as [y ->]. rewrite !get_from_Dir. now rewrite get_set_other by exact E.
Qed.








Lemma get_remove_key_same (c : string) (es : list (string * node)) :
  Dict.get c (remove_key c es) = None.
Proof.
  induction es as [|[k v] es IH]; [reflexivity|].
  simpl. destruct (String.eqb c k) eqn:E; [exact IH|]. simpl. now rewrite E.
Qed.

Lemma get_remove_key_other (c k : string) (es : list (string * node)) :
  c <> k -> Dict.get k (remove_key c es) = Dict.get k es.
Proof.
  intros Hne. induction es as [|[k0 v] es IH]; [reflexivity|].
  simpl. destruct (String.eqb c k0) eqn:E.
  - apply String.eqb_eq in E. subst k0.
    apply String.eqb_neq in Hne. rewrite String.eqb_sym in Hne. now rewrite Hne.
  - simpl. now rewrite IH.
Qed.

Lemma remove_cases (es : list (string * node)) (c c' : string) (p : list string) :
  remove (Dir es) (c :: c' :: p) =
    match Dict.get c es with
    | Some n' =>
        match remove n' (c' :: p) with
        | Some n'' => Some (Dir (Dict.set c n'' es))
        | None => None
        end
    | None => None
    end.
Proof. reflexivity. Qed.

(** [rmtree] leaves nothing at its path. *)
Lemma remove_at (n : node) (p : list string) (y : node) :
  get n p = Some y -> p <> [] ->
  exists es', remove n p = Some (Dir es') /\ get (Dir es') p = None.
Proof.
  revert n. induction p as [|c p IH]; intros n H Hne; [now elim Hne|].
  destruct (@PosixFacts.get_cons_inv _ _ _ _ H) as (es & n1 & -> & Hc & Hp).
  destruct p as [|c' p].
  - eexists. split; [reflexivity|]. rewrite get_from_Dir.
    now rewrite get_remove_key_same.
  - destruct (IH n1 Hp) as (es1 & Hr & Hg); [discriminate|].
    rewrite remove_cases, Hc, Hr. eexists. split; [reflexivity|].
    rewrite get_from_Dir, get_set_same. exact Hg.
Qed.

(** [rmtree] changes nothing apart from its path. *)
Lemma remove_apart (n : node) (p q : list string) (n' : node) :
  remove n p = Some n' ->
  under p q = false -> under q p = false ->
  get n' q = get n q.
Proof.
  revert n n' q. induction p as [|a p IH]; intros n n' [|b q] Hr H1 H2;
    try discriminate.
  destruct n as [m d|t|es]; try discriminate Hr.
  simpl in H1, H2. rewrite (String.eqb_sym b a) in H2.
  destruct (String.eqb a b) eqn:E.
  - apply String.eqb_eq in E. subst b. simpl in H1, H2.
    destruct p as [|c p]; [discriminate H1|].
    rewrite remove_cases in Hr.
    destruct (Dict.get a es) as [n1|] eqn:Ea; [|discriminate Hr].
    destruct (remove n1 (c :: p)) as [n1'|] eqn:E1; [|discriminate Hr].
    injection Hr as <-. rewrite !get_from_Dir, get_set_same, Ea.
    exact (IH n1 n1' q E1 H1 H2).
  - apply String.eqb_neq in E.
    destruct p as [|c p].
    + simpl in Hr. injection Hr as <-. rewrite !get_from_Dir.
      now rewrite get_remove_key_other.
    + rewrite remove_cases in Hr.
      destruct (Dict.get a es) as [n1|] eqn:Ea; [|discriminate Hr].
      destruct (remove n1 (c :: p)) as [n1'|] eqn:E1; [|discriminate Hr].
      injection Hr as <-. rewrite !get_from_Dir.
      now rewrite get_set_other by exact E.
Qed.

Lemma follow_here (fuel : nat) (f : fsys) (cp : list string) (n : node) :
  lookup f cp = Some n -> (forall t, n <> Link t) ->
  follow fuel f cp = Some (cp, Some n).
Proof.
  intros H Hn. destruct fuel; simpl; rewrite H;
    destruct n as [m d|t|es]; try reflexivity; now elim (Hn t).
Qed.

Lemma stat_here (f : fsys) (p : string) (cp : list string) (n : node) :
  canon f p = Some cp -> lookup f cp = Some n -> (forall t, n <> Link t) ->
  stat f p = Some (cp, n).
Proof.
  intros Hc H Hn. unfold stat, resolve. rewrite Hc.
  now rewrite (follow_here max_links f cp n H Hn).
Qed.

Lemma get_empty_dir (k : string) (r : list string) : get (Dir []) (k :: r) = None.
Proof. reflexivity. Qed.

(** [rmtree] on a directory that is apart from [dp]. *)
Lemma rmtree_apart (f : fsys) (src : string) (sp dp : list string)
    (es : list (string * node)) (f' : fsys) :
  canon f src = Some sp -> lookup f sp = Some (Dir es) ->
  under sp dp = false -> under dp sp = false ->
  rmtree src f = Ok tt f' ->
  cwd f' = cwd f
  /\ lookup f' sp = None
  /\ forall r, lookup f' (dp ++ r) = lookup f (dp ++ r).
Proof.
  intros Hc Hl H1 H2. unfold rmtree. rewrite Hc, Hl.
  assert (Hne : sp <> []) by (intros ->; discriminate H1).
  destruct (remove_at (tree f) sp (Dir es) Hl Hne) as (es' & Hr & Hg).
  rewrite Hr. intros H. injection H as <-. split; [reflexivity|].
  split; [exact Hg|]. intros r. unfold lookup. simpl.
  destruct (apart_app sp dp r H1 H2) as [A1 A2].
  exact (remove_apart (tree f) sp (dp ++ r) (Dir es') Hr A1 A2).
Qed.

Lemma canon_set_tree (f : fsys) (n : node) (p : string) :
  canon (set_tree f n) p = canon f p.
Proof. now destruct n. Qed.

Lemma tree_set_tree (f : fsys) (es : list (string * node)) :
  tree (set_tree f (Dir es)) = Dir es.
Proof. reflexivity. Qed.


Section Flatten.

Variables (f : fsys) (src dst : string) (sp dp : list string).
Variable es : list (string * node).
Hypothesis Hsrc : canon f src = Some sp.
Hypothesis Hdir : lookup f sp = Some (Dir es).
Hypothesis Hdst : canon f dst = Some dp.
Hypothesis Hsd : under sp dp = false.
Hypothesis Hds : under dp sp = false.

Lemma flatten_stat : stat f src = Some (sp, Dir es).
Proof. apply stat_here; [exact Hsrc|exact Hdir|discriminate]. Qed.




End Flatten.

End MergeFacts.

(** ** [flatten_tree] *)

Lemma flatten_tree_run (net : list (string * (Z * Posix.blob)))
    (src dest : string) (tag : option string) (w : @world (posix net)) :
  flatten_tree src dest tag w
  = match Posix.flatten src (flatten_dest dest tag) (fs w) with
    | Ok a f => Ok a (set_fs w f)
    | Raise e f => Raise e (set_fs w f)
    end.
Proof.
  unfold flatten_tree, bind, try_except_pass, lift_fs, Posix.flatten.
  cbn [copytree rmtree posix].
  destruct (Posix.copytree src (flatten_dest dest tag) (fs w)) as [[] f1|e f1].
  - destruct w; cbn [set_fs fs].
    now destruct (Posix.rmtree src f1).
  - destruct (exn_class_eqb (exn_cls e) FileExistsError); [|reflexivity].
    destruct w; cbn [set_fs fs].
    now destruct (Posix.rmtree src f1).
Qed.




(** * Further properties of the script *)

(** ** What the steps leave alone *)

Section Kept.

Context {sys : OS}.

Variable P : world -> Prop.

(** [P] does not read the file system, nor the standard output. *)
Hypothesis P_fs : forall (w : world) (f : FS), P w -> P (set_fs w f).
Hypothesis P_out : forall (w : world) (s : string),
  P w -> P (World (fs w) (ARCHIVES w) (stdout w ++ [s]) (stderr w) (requests w)).

Lemma kept_print (s : string) : preserves P (print s).
Proof. intros w H. apply P_out, H. Qed.

Lemma kept_lift_fs (A : Type) (op : FS -> res FS A) : preserves P (lift_fs op).
Proof.
  intros w H. unfold lift_fs. destruct (op (fs w)); simpl; apply P_fs, H.
Qed.

Lemma kept_archives_get (platform : string) : preserves P (archives_get platform).
Proof.
  intros w H. unfold archives_get.
  now destruct (Dict.get platform (ARCHIVES w)).
Qed.

Lemma kept_try (cls : exn_class) (c : Run unit) :
  preserves P c -> preserves P (try_except_pass cls c).
Proof.
  intros Hc w H. specialize (Hc w H). unfold try_except_pass.
  destruct (c w) as [a w1|e w1]; simpl in *; [exact Hc|].
  now destruct (exn_class_eqb (exn_cls e) cls).
Qed.

Ltac kept_with known :=
  repeat first
    [ known
    | apply preserves_ret | apply preserves_gets | apply preserves_lift_pure
    | apply kept_print | apply kept_lift_fs | apply kept_archives_get
    | apply kept_try
    | apply preserves_if
    | apply preserves_for_each; intros ? _
    | apply preserves_bind; [|intros ?] ].

Ltac kept := kept_with fail.

Lemma kept_fix_permissions (directory : string) :
  preserves P (fix_permissions directory).
Proof.
  unfold fix_permissions.
  apply preserves_bind; [kept|]. intros triples.
  apply preserves_for_each. intros [[root dirs] files] _. kept.
Qed.

Lemma kept_flatten_tree (src dest : string) (tag : option string) :
  preserves P (flatten_tree src dest tag).
Proof. unfold flatten_tree. kept. Qed.

Lemma kept_ingest (out : string) (collapse : bool) (platform archive : string) :
  preserves P (ingest out collapse platform archive).
Proof.
  unfold ingest, ingest_tar, ingest_zip, collapse_step. cbv zeta.
  kept_with ltac:(first [apply kept_fix_permissions | apply kept_flatten_tree]).
Qed.

Lemma kept_post_action (out : option string) (collapse : bool) :
  preserves P (post_action out collapse).
Proof.
  unfold post_action, report, ensure_dir, ingest_all, fspath, exists_.
  destruct out as [o|]; kept_with ltac:(apply kept_ingest).
Qed.

(** [P] does not read [ARCHIVES] either, and holds on with a request for
    something below [parent]. *)
Variable parent : string.
Hypothesis P_archives : forall (w : world) (a : Dict.t (list string)),
  P w -> P (set_ARCHIVES w a).
Hypothesis P_request : forall (w : world) (rel : string),
  P w -> P (World (fs w) (ARCHIVES w) (stdout w) (stderr w)
              (requests w ++ [(parent ++ rel)%string])).

Lemma kept_archives_append (platform x : string) :
  preserves P (archives_append platform x).
Proof.
  intros w H. unfold archives_append.
  destruct (Dict.get platform (ARCHIVES w)); simpl; [apply P_archives, H|exact H].
Qed.

Lemma kept_archives_ensure (platform : string) :
  preserves P (archives_ensure platform).
Proof.
  intros w H. unfold archives_ensure.
  destruct (Dict.mem platform (ARCHIVES w)); simpl; [exact H|apply P_archives, H].
Qed.

Lemma kept_fetch_file (rel filename : string) :
  preserves P (fetch_file (parent ++ rel) filename).
Proof.
  unfold fetch_file. apply preserves_bind; [|intros download; kept].
  intros w H. unfold open_url.
  destruct (urlopen (parent ++ rel)%string); simpl; apply P_request, H.
Qed.

Lemma kept_parse_artifact (manifest : json) (component platform : string)
    (retrieve : bool) (variant : option string) :
  preserves P (parse_artifact parent manifest component platform retrieve variant).
Proof.
  intros w H. unfold parse_artifact. unfold bind at 1.
  destruct (relative_path_of manifest component platform variant) as [e|rel];
    [exact H|].
  cbn [lift_pure]. unfold bind at 1.
  destruct rel as [| | |rel| |]; try exact H.
  cbn [lift_pure py_concat]. revert w H.
  change (preserves P
    (cwd <- gets (fun w => getcwd (fs w)) ;;
     let filename := Path.basename (parent ++ rel) in
     let pwd := Path.join3 cwd component platform in
     e_filename <- exists_ filename ;;
     e_full_path <- exists_ (parent ++ rel) ;;
     e_parent_plus <- exists_ (parent ++ filename) ;;
     e_pwd_plus <- exists_ (pwd ++ filename) ;;
     e_parent_join <- exists_ (Path.join parent filename) ;;
     e_pwd_join <- exists_ (Path.join pwd filename) ;;
     if (retrieve && negb e_filename && negb e_full_path
         && negb e_parent_plus && negb e_pwd_plus)%bool then
       fetch_file (parent ++ rel) filename ;;
       archives_append platform filename
     else if e_filename then
       print ("  -> Found: " ++ filename) ;;
       archives_append platform filename
     else if e_full_path then
       print ("  -> Found: " ++ (parent ++ rel)) ;;
       archives_append platform (parent ++ rel)
     else if e_parent_join then
       print ("  -> Found: " ++ Path.join parent filename) ;;
       archives_append platform (Path.join parent filename)
     else if e_pwd_join then
       print ("  -> Found: " ++ Path.join pwd filename) ;;
       archives_append platform (Path.join pwd filename)
     else
       print ("Parent: " ++ Path.join pwd filename) ;;
       print ("  -> Artifact: " ++ filename))).
  unfold exists_. cbv zeta.
  kept_with ltac:(first [apply kept_fetch_file | apply kept_archives_append]).
Qed.

Lemma kept_fetch_action (manifest : json)
    (component_filter platform_filter cuda_filter : option string)
    (retrieve : bool) :
  preserves P
    (fetch_action parent manifest component_filter platform_filter cuda_filter
       retrieve).
Proof.
  unfold fetch_action, component_step, platform_step, resolve_platform,
    variant_step.
  kept_with ltac:(first [apply kept_parse_artifact | apply kept_archives_ensure]).
Qed.

End Kept.

Section Requests.

Context {sys : OS}.

(** [fetch_file] calls [urlopen] once, on the URL it is given, and neither
    touches [ARCHIVES] nor writes on standard error, whether it returns
    or raises. *)
Theorem fetch_file_one_request (full_path filename : string) (w : world) :
  requests (final (fetch_file full_path filename w)) = requests w ++ [full_path]
  /\ ARCHIVES (final (fetch_file full_path filename w)) = ARCHIVES w
  /\ stderr (final (fetch_file full_path filename w)) = stderr w.
Proof.
  unfold fetch_file, bind, open_url.
  destruct (urlopen full_path) as [e|[status body]]; simpl; [auto|].
  destruct (negb (status =? 200)%Z); simpl; [auto|].
  unfold lift_fs. simpl.
  destruct (open_wb_write filename body (fs w)); simpl; auto.
Qed.

(** [post_action] unpacks what is recorded and records nothing: it calls
    [urlopen] for nothing, leaves [ARCHIVES] as it finds it and writes
    nothing on standard error, whether it returns or raises. *)
Theorem post_action_fetches_nothing (output_dir : option string)
    (collapse : bool) (w : world) :
  requests (final (post_action output_dir collapse w)) = requests w
  /\ ARCHIVES (final (post_action output_dir collapse w)) = ARCHIVES w
  /\ stderr (final (post_action output_dir collapse w)) = stderr w.
Proof.
  apply (@kept_post_action sys
           (fun w' => requests w' = requests w /\ ARCHIVES w' = ARCHIVES w
                      /\ stderr w' = stderr w)); auto.
Qed.

(** Every URL that [fetch_action] gives to [urlopen] is [parent] followed
    by something, as many as the walk asks for and whether it returns or
    raises; the file system is written by [fetch_file] alone, and nothing
    goes to standard error. *)
Theorem fetch_action_asks_below_parent (parent : string) (manifest : json)
    (component_filter platform_filter cuda_filter : option string)
    (retrieve : bool) (w : world) :
  exists rels : list string,
    requests (final (fetch_action parent manifest component_filter
                       platform_filter cuda_filter retrieve w))
    = requests w ++ map (String.append parent) rels
    /\ stderr (final (fetch_action parent manifest component_filter
                        platform_filter cuda_filter retrieve w))
       = stderr w.
Proof.
  apply (@kept_fetch_action sys
           (fun w' => exists rels, requests w' = requests w ++ map (String.append parent) rels
                                   /\ stderr w' = stderr w)).
  - intros w1 f H. exact H.
  - intros w1 s H. exact H.
  - intros w1 a H. exact H.
  - intros w1 rel (rels & H1 & H2). exists (rels ++ [rel]). simpl.
    rewrite H1, map_app, <- app_assoc. now split.
  - exists []. simpl. now rewrite app_nil_r.
Qed.

(** A [--download-only] run asks for the manifest first, at
    [DOMAIN/compute/<product>/redist/redistrib_<label>.json], and after it
    only for URLs below [DOMAIN/compute/<product>/redist/]; its exit
    status is 0 or 1, and standard error gets one line when it is 1 and
    none when it is 0. *)
Theorem download_only_asks_below_redist (args : Args) (w : world) :
  exists rels : list string,
    requests (snd (download_only args w))
    = requests w ++ manifest_uri args :: map (String.append (redist_parent args)) rels
    /\ ((fst (download_only args w) = 0%Z
         /\ stderr (snd (download_only args w)) = stderr w)
        \/ (fst (download_only args w) = 1%Z
            /\ exists line, stderr (snd (download_only args w)) = stderr w ++ [line])).
Proof.
  set (Q := fun w' : world =>
              exists rels,
                requests w' = requests w ++ manifest_uri args
                                :: map (String.append (redist_parent args)) rels
                /\ stderr w' = stderr w).
  assert (Hbody : Q (final (download_only_body args w))).
  { unfold download_only_body, bind at 1, open_url.
    set (w0 := World (fs w) (ARCHIVES w) (stdout w) (stderr w)
                 (requests w ++ [manifest_uri args])).
    assert (H0 : Q w0).
    { exists []. simpl. now split. }
    destruct (urlopen (manifest_uri args)) as [e|response]; [exact H0|].
    revert H0. generalize w0. clear w0.
    change (preserves Q
      (manifest <- lift_pure (json_loads (snd response)) ;;
       fetch_action (redist_parent args) manifest (arg_component args)
         (Some (platform_of args)) (arg_variant args) true ;;
       post_action (arg_output args) true)).
    apply preserves_bind; [apply preserves_lift_pure|]. intros manifest.
    apply preserves_bind; [|intros _].
    - apply (@kept_fetch_action sys Q); unfold Q.
      + intros w1 f H. exact H.
      + intros w1 s H. exact H.
      + intros w1 a H. exact H.
      + intros w1 rel (rels & H1 & H2). exists (rels ++ [rel]). simpl.
        rewrite H1, map_app. simpl. rewrite <- app_assoc. now split.
    - apply (@kept_post_action sys Q); unfold Q.
      + intros w1 f H. exact H.
      + intros w1 s H. exact H. }
  unfold download_only.
  destruct (download_only_body args w) as [[] w'|e w']; simpl in Hbody;
    destruct Hbody as (rels & H1 & H2); exists rels; simpl.
  - split; [exact H1|]. left. now split.
  - split; [exact H1|]. right. split; [reflexivity|].
    exists ("Error during download: " ++ exn_str e)%string. now rewrite H2.
Qed.

End Requests.

(** ** Resolution of one artifact *)

Section Artifact.

Context {sys : OS}.

(** An artifact whose file is in the working directory is found there
    before anything else is looked at: nothing is fetched, whatever
    [retrieve] says, one line is printed and the bare file name is
    recorded for the platform. *)
Theorem parse_artifact_found_in_cwd
    (parent : string) (manifest : json) (component platform : string)
    (retrieve : bool) (variant : option string) (w : world)
    (rel : string) (l : list string) :
  let filename := Path.basename (parent ++ rel) in
  relative_path_of manifest component platform variant = inr (JStr rel) ->
  path_exists (fs w) filename = true ->
  Dict.get platform (ARCHIVES w) = Some l ->
  parse_artifact parent manifest component platform retrieve variant w
    = Ok tt (World (fs w)
               (Dict.set platform (l ++ [filename]) (ARCHIVES w))
               (stdout w ++ [("  -> Found: " ++ filename)%string])
               (stderr w) (requests w)).
Proof.
  intros filename Hrel E1 Hl.
  unfold parse_artifact, bind, lift_pure, exists_, gets.
  rewrite Hrel. simpl py_concat. cbv beta iota. fold filename.
  rewrite E1. rewrite !andb_false_r. cbn [andb negb]. cbv beta iota.
  unfold print, archives_append. simpl. rewrite Hl. reflexivity.
Qed.

(** An artifact that is in none of the four places and is not fetched,
    because [retrieve] is false or because one of the two concatenated
    paths of the guard exists, is reported in two lines and left out of
    [ARCHIVES]: the platform need not even be entered. *)
Theorem parse_artifact_reported_only
    (parent : string) (manifest : json) (component platform : string)
    (retrieve : bool) (variant : option string) (w : world) (rel : string) :
  let full_path := (parent ++ rel)%string in
  let filename := Path.basename full_path in
  let pwd := Path.join3 (getcwd (fs w)) component platform in
  relative_path_of manifest component platform variant = inr (JStr rel) ->
  (retrieve && negb (path_exists (fs w) (parent ++ filename))
   && negb (path_exists (fs w) (pwd ++ filename)))%bool = false ->
  path_exists (fs w) filename = false ->
  path_exists (fs w) full_path = false ->
  path_exists (fs w) (Path.join parent filename) = false ->
  path_exists (fs w) (Path.join pwd filename) = false ->
  parse_artifact parent manifest component platform retrieve variant w
    = Ok tt (World (fs w) (ARCHIVES w)
               (stdout w ++ [("Parent: " ++ Path.join pwd filename)%string;
                             ("  -> Artifact: " ++ filename)%string])
               (stderr w) (requests w)).
Proof.
  intros full_path filename pwd Hrel Hg E1 E2 E5 E6.
  unfold parse_artifact, bind, lift_pure, exists_, gets.
  rewrite Hrel. simpl py_concat. cbv beta iota.
  fold full_path. fold filename. fold pwd.
  rewrite E1, E2, E5, E6. cbn [negb]. rewrite !andb_true_r.
  rewrite <- andb_assoc in Hg |- *.
  rewrite Hg. cbv beta iota. unfold print. simpl.
  now rewrite <- app_assoc.
Qed.

End Artifact.

(** The theorem applied to [a.zip] in the working directory, with no
    server to answer. *)
Lemma parse_artifact_found_in_cwd_witness :
  parse_artifact "http://h/" Scenario.one_flat "c" "p" true None
    Scenario.world_cached
  = Ok tt (World (fs Scenario.world_cached) [("p", ["a.zip"])]
             ["  -> Found: a.zip"] [] []).
Proof.
  apply (@parse_artifact_found_in_cwd (posix []) "http://h/" Scenario.one_flat
           "c" "p" true None Scenario.world_cached "a.zip" []);
    vm_compute; reflexivity.
Defined.

(** The theorem applied to a dry run on an empty working directory. *)
Lemma parse_artifact_reported_only_witness :
  parse_artifact "http://h/" Scenario.one_flat "c" "p" false None
    Scenario.world_offline
  = Ok tt (World (fs Scenario.world_offline) [("p", [])]
             ["Parent: /w/c/p/a.zip"; "  -> Artifact: a.zip"] [] []).
Proof.
  apply (@parse_artifact_reported_only (posix []) "http://h/" Scenario.one_flat
           "c" "p" false None Scenario.world_offline "a.zip");
    vm_compute; reflexivity.
Defined.

(** ** Runs that have nothing to unpack, or nowhere to unpack to *)

Section Output.

Context {sys : OS}.

Lemma for_each_passes (A : Type) (l : list A) (body : A -> Run unit) (w : world) :
  (forall x, In x l -> body x w = Ok tt w) -> for_each l body w = Ok tt w.
Proof.
  induction l as [|x l IH]; intros H; [reflexivity|].
  simpl. unfold bind. rewrite (H x (or_introl eq_refl)).
  apply IH. intros y Hy. apply H. now right.
Qed.

Lemma post_action_nowhere (collapse : bool) (w : world) :
  ARCHIVES w <> [] ->
  post_action None collapse w
  = Raise (Exn TypeError "expected str, bytes or os.PathLike object, not NoneType")
      (World (fs w) (ARCHIVES w) (stdout w ++ [(Py.nl ++ "Archives:")%string])
         (stderr w) (requests w)).
Proof.
  intros H. unfold post_action, bind, gets.
  assert (E : (List.length (Dict.keys (ARCHIVES w)) =? 0)%nat = false).
  { destruct (ARCHIVES w); [now elim H|reflexivity]. }
  rewrite E. reflexivity.
Qed.


(** A component that has no [name], or is not the one asked for, is
    passed over. *)
Lemma component_step_passes (parent : string) (d : list (string * json))
    (cf : string) (platform_filter cuda_filter : option string)
    (retrieve : bool) (w : world) (k : string) :
  (forall k v, Dict.get k d = Some v -> exists b, py_in "name" v = inr b) ->
  ~ In cf (Dict.keys d) ->
  In k (Dict.keys d) ->
  component_step parent (JObj d) (Some cf) platform_filter cuda_filter retrieve k w
    = Ok tt w.
Proof.
  intros Hn Hcf Hk.
  destruct (keys_get d k Hk) as [v Hv].
  destruct (Hn k v Hv) as [b Hb].
  unfold component_step, bind at 1. cbn [py_getitem]. rewrite Hv. cbn [lift_pure].
  unfold bind at 1. rewrite Hb. cbn [lift_pure].
  destruct b; [|reflexivity]. cbn [negb filtered_out].
  assert (E : String.eqb k cf = false).
  { apply String.eqb_neq. intros ->. now apply Hcf. }
  now rewrite E.
Qed.

(** A [--download-only] run without [--output]: whenever the walk returns
    with a platform entered, everything has been fetched into the working
    directory and the run then ends with exit status 1, nothing unpacked. *)
Theorem download_only_without_output (args : Args) (w w1 : world)
    (response : Z * bytes) (manifest : json) :
  arg_output args = None ->
  urlopen (manifest_uri args) = inr response ->
  json_loads (snd response) = inr manifest ->
  fetch_action (redist_parent args) manifest (arg_component args)
    (Some (platform_of args)) (arg_variant args) true
    (World (fs w) (ARCHIVES w) (stdout w) (stderr w)
       (requests w ++ [manifest_uri args])) = Ok tt w1 ->
  ARCHIVES w1 <> [] ->
  fst (download_only args w) = 1%Z
  /\ fs (snd (download_only args w)) = fs w1
  /\ ARCHIVES (snd (download_only args w)) = ARCHIVES w1
  /\ stdout (snd (download_only args w)) = stdout w1 ++ [(Py.nl ++ "Archives:")%string].
Proof.
  intros Ho Hnet Hjson Hwalk Ha.
  pose proof (post_action_nowhere true w1 Ha) as Hp.
  unfold download_only, download_only_body, bind, open_url, lift_pure.
  rewrite Hnet, Hjson, Hwalk, Ho, Hp. simpl. auto.
Qed.

(** A component filter that names no key of the manifest: no component
    is walked, nothing is printed, fetched or entered in [ARCHIVES]. *)
Theorem fetch_action_unknown_component (parent : string)
    (d : list (string * json)) (cf : string)
    (platform_filter cuda_filter : option string) (retrieve : bool) (w : world) :
  (forall k v, Dict.get k d = Some v -> exists b, py_in "name" v = inr b) ->
  ~ In cf (Dict.keys d) ->
  fetch_action parent (JObj d) (Some cf) platform_filter cuda_filter retrieve w
    = Ok tt w.
Proof.
  intros Hn Hcf. unfold fetch_action, bind at 1. cbn [py_keys lift_pure].
  apply for_each_passes. intros k Hk.
  now apply component_step_passes.
Qed.


End Output.

(** The theorem applied to the run of [Scenario.run_args] without
    [--output]: both archives are in the working directory, no output
    directory is made, the exit status is 1. *)
Lemma download_only_without_output_witness :
  fst (download_only Scenario.run_args_no_output Scenario.world_run) = 1%Z
  /\ path_isfile
       (fs (snd (download_only Scenario.run_args_no_output Scenario.world_run)))
       "good.tar.gz" = true
  /\ path_exists
       (fs (snd (download_only Scenario.run_args_no_output Scenario.world_run)))
       "out" = false.
Proof.
  destruct (@download_only_without_output (posix Scenario.net_run)
              Scenario.run_args_no_output Scenario.world_run
              (final (fetch_action (redist_parent Scenario.run_args_no_output)
                        Scenario.run_manifest None (Some "linux-x") None true
                        (World (fs Scenario.world_run) [] [] [] 
                           [manifest_uri Scenario.run_args_no_output])))
              (200%Z, Posix.JsonDoc Scenario.run_manifest) Scenario.run_manifest)
    as (H1 & _); try (vm_compute; reflexivity).
  - vm_compute. discriminate.
  - split; [exact H1|]. split; vm_compute; reflexivity.
Defined.

(** The theorem applied to the manifest of [Scenario.run_manifest] and a
    component it does not have. *)
Lemma fetch_action_unknown_component_witness :
  fetch_action "http://h/"
    (JObj [("bad", JObj [("name", JStr "b"); ("version", JStr "1")]);
           ("release_date", JStr "2024-01-01")])
    (Some "nope") (Some "linux-x") None true Scenario.world_three
  = Ok tt Scenario.world_three.
Proof.
  apply (@fetch_action_unknown_component (posix Scenario.net_three)).
  - intros k v. simpl.
    destruct (String.eqb k "bad"); [intros H; injection H as <-; now eexists|].
    destruct (String.eqb k "release_date"); [intros H; injection H as <-; now eexists|].
    discriminate.
  - simpl. intros [H|[H|[]]]; discriminate H.
Defined.


(** ** The file tree after a fetch and after a copy that is refused *)

Module StoreFacts.

Import Posix.

Lemma follow_absent (fuel : nat) (f : fsys) (cp : list string) :
  lookup f cp = None -> follow fuel f cp = Some (cp, None).
Proof. intros H. destruct fuel; simpl; now rewrite H. Qed.

(** A node put where the directory exists is there afterwards. *)
Lemma put_child (x : node) (cp : list string) :
  forall (n : node) (es : list (string * node)),
    cp <> [] -> get n (removelast cp) = Some (Dir es) ->
    exists n', put n cp x = Some n' /\ get n' cp = Some x.
Proof.
  induction cp as [|c p IH]; intros n es Hne Hg; [now elim Hne|].
  destruct p as [|c2 p'].
  - simpl in Hg. injection Hg as ->. simpl. eexists. split; [reflexivity|].
    simpl. now rewrite (@get_set_same node es c x).
  - change (removelast (c :: c2 :: p')) with (c :: removelast (c2 :: p')) in Hg.
    destruct n as [m d|t|es0]; [discriminate Hg|discriminate Hg|].
    rewrite MergeFacts.get_from_Dir in Hg.
    destruct (Dict.get c es0) as [n1|] eqn:E; [|discriminate Hg].
    destruct (IH n1 es (ltac:(discriminate)) Hg) as (n1' & Hp & Hx).
    exists (Dir (Dict.set c n1' es0)). split.
    + cbn [put]. rewrite E. cbn [put] in Hp. now rewrite Hp.
    + rewrite MergeFacts.get_from_Dir.
      now rewrite (@get_set_same node es0 c n1').
Qed.

(** Once an error is recorded it stays recorded. *)
Lemma copy_entries_flag (l : list (string * node)) :
  forall acc, snd acc = true -> snd (copy_entries l acc) = true.
Proof.
  induction l as [|[k v] l IH]; intros [d b] H; [exact H|].
  simpl in H. subst b. rewrite MergeFacts.copy_entries_cons. now apply IH.
Qed.

(** A link of the source whose name is taken at the destination is an
    error of the copy. *)
Lemma copy_entries_link (k t : string) (l : list (string * node)) :
  forall acc,
    In (k, Link t) l -> Dict.mem k (fst acc) = true ->
    snd (copy_entries l acc) = true.
Proof.
  induction l as [|e l IH]; intros acc Hin Hm; [contradiction|].
  change (copy_entries (e :: l) acc)
    with (copy_entries l
            (Dict.set (fst e)
               (fst (copy_node (fst e) (snd e) (Dict.get (fst e) (fst acc))))
               (fst acc),
             (snd acc
              || snd (copy_node (fst e) (snd e) (Dict.get (fst e) (fst acc))))%bool)).
  destruct Hin as [->|Hin].
  - apply copy_entries_flag. cbn [fst snd].
    unfold Dict.mem in Hm. destruct (Dict.get k (fst acc)); [|discriminate Hm].
    simpl. apply orb_true_r.
  - apply IH; [exact Hin|]. cbn [fst]. now apply mem_set.
Qed.

Section Refused.

Variables (f : fsys) (src dst : string) (sp dp : list string).
Variables es esd : list (string * node).
Hypothesis Hsrc : canon f src = Some sp.
Hypothesis Hdir : lookup f sp = Some (Dir es).
Hypothesis Hdst : canon f dst = Some dp.
Hypothesis Hsd : under sp dp = false.
Hypothesis Hds : under dp sp = false.
Hypothesis Hd : lookup f dp = Some (Dir esd).
Hypothesis He : snd (copy_node (Path.basename src) (Dir es) (Some (Dir esd))) = true.

(** A copy with an error raises [shutil.Error] out of [flatten]: the
    source stays where it is. *)
Lemma flatten_refused :
  exists f',
    flatten src dst f = Raise (Exn ShutilError dst) f'
    /\ lookup f' sp = Some (Dir es).
Proof.
  unfold flatten, copytree, makedirs_exist_ok.
  rewrite (MergeFacts.flatten_stat f src sp es Hsrc Hdir), Hdst.
  rewrite (MergeFacts.follow_here max_links f dp (Dir esd) Hd) by discriminate.
  cbv beta iota zeta.
  unfold lookup in Hd. rewrite Hd, He.
  destruct (MergeFacts.put_at (tree f) dp
              (fst (copy_node (Path.basename src) (Dir es) (Some (Dir esd))))
              (Dir esd) Hd)
    as (t2 & Hp & _).
  rewrite Hp. cbn [exn_cls exn_class_eqb].
  eexists. split; [reflexivity|].
  assert (Hdp : dp <> []) by (intros ->; destruct sp; discriminate Hds).
  assert (Ht2 : exists es2, t2 = Dir es2).
  { destruct dp as [|c dp']; [now elim Hdp|].
    exact (MergeFacts.put_nonempty (root f) c dp' _ t2 Hp). }
  destruct Ht2 as [es2 ->].
  unfold lookup. rewrite MergeFacts.tree_set_tree.
  rewrite (MergeFacts.put_apart (tree f) dp sp _ (Dir es2) Hp Hds Hsd).
  exact Hdir.
Qed.

End Refused.

End StoreFacts.

Lemma set_fs_same (net : list (string * (Z * Posix.blob)))
    (w : @world (posix net)) : set_fs w (fs w) = w.
Proof. now destruct w. Qed.

(** [fix_permissions] on a path that is no directory, or is not there:
    [os.walk] yields nothing, so nothing is changed and nothing raised. *)
Theorem fix_permissions_not_a_directory
    (net : list (string * (Z * Posix.blob))) (directory : string)
    (w : @world (posix net)) :
  @path_isdir (posix net) (fs w) directory = false ->
  fix_permissions directory w = Ok tt w.
Proof.
  cbn [path_isdir posix]. unfold Posix.path_isdir. intros H.
  unfold fix_permissions, bind, gets. cbn [walk posix]. unfold Posix.walk.
  destruct (Posix.stat (fs w) directory) as [[cp [m d|t|es]]|];
    try discriminate H; reflexivity.
Qed.

(** The theorem applied to a name that is not there, and to a file. *)
Lemma fix_permissions_not_a_directory_witness :
  fix_permissions "pkg" Scenario.world_cached = Ok tt Scenario.world_cached
  /\ fix_permissions "a.zip" Scenario.world_cached = Ok tt Scenario.world_cached.
Proof.
  split;
    apply (@fix_permissions_not_a_directory [] _ Scenario.world_cached);
    vm_compute; reflexivity.
Defined.

(** [flatten_tree] on a source that is no directory, or is not there:
    [shutil.copytree] raises, the exception is not the one passed over,
    and nothing is changed. *)
Theorem flatten_tree_not_a_directory
    (net : list (string * (Z * Posix.blob))) (src dest : string)
    (tag : option string) (w : @world (posix net)) :
  @path_isdir (posix net) (fs w) src = false ->
  exists e : exn,
    flatten_tree src dest tag w = Raise e w
    /\ (exn_cls e = FileNotFoundError \/ exn_cls e = NotADirectoryError).
Proof.
  cbn [path_isdir posix]. unfold Posix.path_isdir. intros H.
  rewrite flatten_tree_run. unfold Posix.flatten, Posix.copytree.
  destruct (Posix.stat (fs w) src) as [[cp [m d|t|es]]|];
    try discriminate H; cbn [exn_cls exn_class_eqb Posix.enoent];
    rewrite set_fs_same; eexists; (split; [reflexivity|]); simpl; auto.
Qed.

(** The theorem applied to a source that is not there. *)
Lemma flatten_tree_not_a_directory_witness :
  exists e : exn,
    flatten_tree "pkg" "out" None Scenario.world_cached
    = Raise e Scenario.world_cached
    /\ (exn_cls e = FileNotFoundError \/ exn_cls e = NotADirectoryError).
Proof.
  apply (@flatten_tree_not_a_directory [] "pkg" "out" None Scenario.world_cached).
  vm_compute. reflexivity.
Defined.

(** A link of the source whose name is taken in the destination
    directory: [os.symlink] fails, [shutil.copytree] raises
    [shutil.Error], which [flatten_tree] does not pass over, and the
    staging tree is left where it is.  So a tree with a link in it can be
    flattened into a destination once. *)
Theorem flatten_tree_link_in_the_way
    (net : list (string * (Z * Posix.blob))) (src dest : string)
    (tag : option string) (w : @world (posix net))
    (sp dp : list string) (es esd : list (string * Posix.node))
    (k t : string) :
  Posix.canon (fs w) src = Some sp ->
  Posix.lookup (fs w) sp = Some (Posix.Dir es) ->
  Posix.canon (fs w) (flatten_dest dest tag) = Some dp ->
  Posix.under sp dp = false ->
  Posix.under dp sp = false ->
  Posix.lookup (fs w) dp = Some (Posix.Dir esd) ->
  In (k, Posix.Link t) es ->
  Dict.mem k esd = true ->
  exists (e : exn) (w' : @world (posix net)),
    flatten_tree src dest tag w = Raise e w'
    /\ exn_cls e = ShutilError
    /\ Posix.lookup (fs w') sp = Some (Posix.Dir es).
Proof.
  intros Hsrc Hdir Hdst Hsd Hds Hd Hin Hm.
  assert (He : snd (Posix.copy_node (Path.basename src) (Posix.Dir es)
                      (Some (Posix.Dir esd))) = true).
  { rewrite MergeFacts.copy_node_Dir. cbn [snd].
    now apply (StoreFacts.copy_entries_link k t). }
  destruct (StoreFacts.flatten_refused (fs w) src (flatten_dest dest tag) sp dp
              es esd Hsrc Hdir Hdst Hsd Hds Hd He) as (f' & Hf & Hs).
  exists (Exn ShutilError (flatten_dest dest tag)), (set_fs w f').
  rewrite flatten_tree_run, Hf. split; [reflexivity|]. split; [reflexivity|].
  destruct w; exact Hs.
Qed.

(** The theorem applied to a second flattening of the same archive. *)
Lemma flatten_tree_link_in_the_way_witness :
  exists (e : exn) (w' : @world (posix [])),
    flatten_tree "pkg" "out" (Some "t") Scenario.world_again = Raise e w'
    /\ exn_cls e = ShutilError
    /\ Posix.lookup (fs w') ["w"; "pkg"]
       = Some (Posix.Dir [("f", Posix.File 33188 (Posix.Bytes "x"));
                          ("l", Posix.Link "f")]).
Proof.
  apply (@flatten_tree_link_in_the_way [] "pkg" "out" (Some "t")
           Scenario.world_again ["w"; "pkg"] ["w"; "out"; "t"]
           [("f", Posix.File 33188 (Posix.Bytes "x")); ("l", Posix.Link "f")]
           [("f", Posix.File 33188 (Posix.Bytes "x")); ("l", Posix.Link "f")]
           "l" "f"); try (vm_compute; reflexivity).
  right. left. reflexivity.
Defined.

(** What [fetch_file] leaves when the server answers 200 and the file is
    not there yet, its directory being there. *)
Lemma fetch_file_stores
    (net : list (string * (Z * Posix.blob))) (full_path filename : string)
    (w : @world (posix net)) (body : Posix.blob) (cp : list string)
    (es : list (string * Posix.node)) :
  Posix.fetch net full_path = inr (200%Z, body) ->
  Posix.canon (fs w) filename = Some cp ->
  Posix.lookup (fs w) cp = None ->
  Posix.lookup (fs w) (removelast cp) = Some (Posix.Dir es) ->
  exists f' : Posix.fsys,
    fetch_file full_path filename w
    = Ok tt (World f' (ARCHIVES w)
               (stdout w ++ [(":: Fetching: " ++ full_path)%string;
                             ("  -> Wrote: " ++ filename)%string])
               (stderr w) (requests w ++ [full_path]))
    /\ Posix.lookup f' cp = Some (Posix.File Posix.new_file_mode body)
    /\ Posix.path_exists f' filename = true
    /\ Posix.cwd f' = Posix.cwd (fs w).
Proof.
  intros Hnet Hc Hl Hparent.
  assert (Hne : cp <> []) by (intros ->; discriminate Hl).
  destruct (StoreFacts.put_child (Posix.File Posix.new_file_mode body) cp
              (Posix.tree (fs w)) es Hne Hparent) as (n' & Hp & Hx).
  assert (Hn' : exists es', n' = Posix.Dir es').
  { destruct cp as [|c cp']; [now elim Hne|].
    exact (MergeFacts.put_nonempty (Posix.root (fs w)) c cp' _ n' Hp). }
  destruct Hn' as [es' ->].
  exists (Posix.set_tree (fs w) (Posix.Dir es')).
  split; [|split; [|split]].
  - unfold fetch_file, bind, open_url. cbn [urlopen posix]. rewrite Hnet.
    cbn [fst snd Z.eqb Pos.eqb negb]. unfold print, lift_fs. cbn [fs].
    cbn [open_wb_write posix]. unfold Posix.open_wb_write, Posix.resolve.
    rewrite Hc, (StoreFacts.follow_absent Posix.max_links (fs w) cp Hl), Hparent.
    unfold Posix.update. rewrite Hp. cbn [set_fs fs ARCHIVES stdout stderr requests].
    now rewrite <- app_assoc.
  - exact Hx.
  - unfold Posix.path_exists.
    rewrite (MergeFacts.stat_here (Posix.set_tree (fs w) (Posix.Dir es')) filename
               cp (Posix.File Posix.new_file_mode body)); [reflexivity| |exact Hx|discriminate].
    now rewrite MergeFacts.canon_set_tree.
  - reflexivity.
Qed.

(** [fetch_file] on a status of 200, for a file that is not there yet in
    a directory that is: the body is written to a new file with mode
    [0o644], which [os.path.exists] then sees, and two lines are printed. *)
Theorem fetch_file_writes_body
    (net : list (string * (Z * Posix.blob))) (full_path filename : string)
    (w : @world (posix net)) (body : Posix.blob) (cp : list string)
    (es : list (string * Posix.node)) :
  Posix.fetch net full_path = inr (200%Z, body) ->
  Posix.canon (fs w) filename = Some cp ->
  Posix.lookup (fs w) cp = None ->
  Posix.lookup (fs w) (removelast cp) = Some (Posix.Dir es) ->
  exists w' : @world (posix net),
    fetch_file full_path filename w = Ok tt w'
    /\ Posix.lookup (fs w') cp = Some (Posix.File (Z.lor Posix.S_IFREG 420) body)
    /\ @path_exists (posix net) (fs w') filename = true
    /\ stdout w' = stdout w ++ [(":: Fetching: " ++ full_path)%string;
                                ("  -> Wrote: " ++ filename)%string].
Proof.
  intros Hnet Hc Hl Hparent.
  destruct (fetch_file_stores net full_path filename w body cp es
              Hnet Hc Hl Hparent) as (f' & H1 & H2 & H3 & _).
  eexists. split; [exact H1|]. cbn [fs stdout]. auto.
Qed.

(** The theorem applied to [a.zip], fetched into an empty working
    directory. *)
Lemma fetch_file_writes_body_witness :
  exists w' : @world (posix Scenario.net_ok),
    fetch_file "http://h/a.zip" "a.zip" Scenario.world_online = Ok tt w'
    /\ Posix.lookup (fs w') ["w"; "a.zip"]
       = Some (Posix.File (Z.lor Posix.S_IFREG 420) Scenario.pkg_zip)
    /\ @path_exists (posix Scenario.net_ok) (fs w') "a.zip" = true
    /\ stdout w' = [":: Fetching: http://h/a.zip"; "  -> Wrote: a.zip"].
Proof.
  apply (@fetch_file_writes_body Scenario.net_ok "http://h/a.zip" "a.zip"
           Scenario.world_online Scenario.pkg_zip ["w"; "a.zip"] []);
    vm_compute; reflexivity.
Defined.

(** An artifact resolved twice by one process, the first time with
    nothing on the disk and the server answering 200: it is fetched once,
    found in the working directory the second time, and recorded twice. *)
Theorem parse_artifact_twice
    (net : list (string * (Z * Posix.blob)))
    (parent : string) (manifest : json) (component platform : string)
    (variant : option string) (w : @world (posix net))
    (rel : string) (body : Posix.blob) (cp : list string)
    (es : list (string * Posix.node)) (l : list string) :
  let full_path := (parent ++ rel)%string in
  let filename := Path.basename full_path in
  let pwd := Path.join3 (Posix.cwd (fs w)) component platform in
  relative_path_of manifest component platform variant = inr (JStr rel) ->
  Posix.path_exists (fs w) full_path = false ->
  Posix.path_exists (fs w) (parent ++ filename) = false ->
  Posix.path_exists (fs w) (pwd ++ filename) = false ->
  Posix.fetch net full_path = inr (200%Z, body) ->
  Posix.canon (fs w) filename = Some cp ->
  Posix.lookup (fs w) cp = None ->
  Posix.lookup (fs w) (removelast cp) = Some (Posix.Dir es) ->
  Dict.get platform (ARCHIVES w) = Some l ->
  exists w1 w2 : @world (posix net),
    parse_artifact parent manifest component platform true variant w = Ok tt w1
    /\ parse_artifact parent manifest component platform true variant w1 = Ok tt w2
    /\ requests w1 = requests w ++ [full_path]
    /\ requests w2 = requests w1
    /\ fs w2 = fs w1
    /\ Dict.get platform (ARCHIVES w2) = Some (l ++ [filename] ++ [filename]).
Proof.
  intros full_path filename pwd Hrel E2 E3 E4 Hnet Hc Hl Hparent Ha.
  destruct (fetch_file_stores net full_path filename w body cp es
              Hnet Hc Hl Hparent) as (f' & H1 & H2 & H3 & H4).
  assert (E1 : Posix.path_exists (fs w) filename = false).
  { unfold Posix.path_exists, Posix.stat, Posix.resolve.
    now rewrite Hc, (StoreFacts.follow_absent Posix.max_links (fs w) cp Hl). }
  set (w1 := World f' (Dict.set platform (l ++ [filename]) (ARCHIVES w))
               (stdout w ++ [(":: Fetching: " ++ full_path)%string;
                             ("  -> Wrote: " ++ filename)%string])
               (stderr w) (requests w ++ [full_path]) : @world (posix net)).
  assert (R1 : parse_artifact parent manifest component platform true variant w
               = Ok tt w1).
  { unfold parse_artifact, bind, lift_pure, exists_, gets.
    rewrite Hrel. simpl py_concat. cbv beta iota.
    cbn [path_exists getcwd posix].
    fold full_path. fold filename. fold pwd.
    rewrite E1, E2, E3, E4. cbn [andb negb]. cbv beta iota.
    rewrite H1. unfold archives_append. cbn [ARCHIVES]. rewrite Ha. reflexivity. }
  exists w1. eexists. split; [exact R1|]. split.
  - unfold parse_artifact, bind, lift_pure, exists_, gets.
    rewrite Hrel. simpl py_concat. cbv beta iota.
    cbn [path_exists getcwd posix].
    fold full_path. fold filename.
    unfold w1 at 1 2 3 4 5 6. cbn [fs]. rewrite H3.
    rewrite !andb_false_r. cbn [andb negb]. cbv beta iota.
    unfold print, archives_append, w1. cbn [fs ARCHIVES stdout stderr requests].
    rewrite (get_set_same (ARCHIVES w) platform (l ++ [filename])). reflexivity.
  - unfold set_ARCHIVES. cbn [requests fs ARCHIVES].
    split; [reflexivity|]. split; [reflexivity|]. split; [reflexivity|].
    now rewrite get_set_same, <- app_assoc.
Qed.

(** The theorem applied to [a.zip], resolved twice on an empty working
    directory. *)
Lemma parse_artifact_twice_witness :
  exists w1 w2 : @world (posix Scenario.net_ok),
    parse_artifact "http://h/" Scenario.one_flat "c" "p" true None
      Scenario.world_online = Ok tt w1
    /\ parse_artifact "http://h/" Scenario.one_flat "c" "p" true None w1 = Ok tt w2
    /\ requests w1 = ["http://h/a.zip"]
    /\ requests w2 = requests w1
    /\ fs w2 = fs w1
    /\ Dict.get "p" (ARCHIVES w2) = Some ["a.zip"; "a.zip"].
Proof.
  apply (@parse_artifact_twice Scenario.net_ok "http://h/" Scenario.one_flat
           "c" "p" None Scenario.world_online "a.zip" Scenario.pkg_zip
           ["w"; "a.zip"] [] []);
    vm_compute; reflexivity.
Defined.

(** ** The listing that ends [post_action] *)

Section Listing.

Context {sys : OS}.

Lemma insert_sorted_perm (x : string) (l : list string) :
  Permutation (insert_sorted x l) (x :: l).
Proof.
  induction l as [|y l IH]; simpl; [apply Permutation_refl|].
  destruct (String.leb x y); [apply Permutation_refl|].
  apply perm_trans with (y :: x :: l); [now apply perm_skip|apply perm_swap].
Qed.

Lemma insert_sorted_sorted (x : string) (l : list string) :
  Sorted (fun a b => String.leb a b = true) l ->
  Sorted (fun a b => String.leb a b = true) (insert_sorted x l).
Proof.
  induction l as [|y l IH]; intros H; simpl.
  - repeat constructor.
  - destruct (String.leb x y) eqn:E.
    + constructor; [exact H|]. now constructor.
    + apply Sorted_inv in H. destruct H as [Hl Hy].
      constructor; [now apply IH|].
      assert (Hyx : String.leb y x = true).
      { destruct (String.leb_total x y) as [H|H]; [congruence|exact H]. }
      destruct l as [|z l]; simpl; [now constructor|].
      destruct (String.leb x z); constructor; [exact Hyx|].
      now apply HdRel_inv in Hy.
Qed.

(** The line of one item of the listing. *)
Lemma report_lines (out : string) (f : FS) (l : list string) :
  forall (a : Dict.t (list string)) (o e r : list string),
    for_each l (fun item =>
      is_dir <- gets (fun w => path_isdir (fs w) (Path.join out item)) ;;
      is_file <- gets (fun w => path_isfile (fs w) (Path.join out item)) ;;
      if is_dir then print (" - " ++ item ++ "/")
      else if is_file then print (" - " ++ item)
      else ret tt) (World f a o e r)
    = Ok tt (World f a
               (o ++ flat_map (fun item =>
                       if path_isdir f (Path.join out item)
                       then [(" - " ++ item ++ "/")%string]
                       else if path_isfile f (Path.join out item)
                            then [(" - " ++ item)%string]
                            else []) l)
               e r).
Proof.
  induction l as [|item l IH]; intros a o e r.
  - simpl. now rewrite app_nil_r.
  - cbn [for_each flat_map]. unfold bind at 1. unfold bind at 1, gets at 1.
    unfold bind at 1, gets at 1. cbn [fs].
    destruct (path_isdir f (Path.join out item)).
    + unfold print at 1. cbn [fs ARCHIVES stdout stderr requests].
      rewrite IH. now rewrite <- app_assoc.
    + destruct (path_isfile f (Path.join out item)).
      * unfold print at 1. cbn [fs ARCHIVES stdout stderr requests].
        rewrite IH. now rewrite <- app_assoc.
      * unfold ret at 1. apply IH.
Qed.

(** The listing names the entries of the output directory in ascending
    order, each once: a directory with a slash after it, a regular file
    as it is, and anything else (a link that leads nowhere) not at all. *)
Theorem report_lists_in_order (output_dir : string) (w : world)
    (items : list string) :
  listdir output_dir (fs w) = Ok items (fs w) ->
  report output_dir w
  = Ok tt (World (fs w) (ARCHIVES w)
             (stdout w ++ (Py.nl ++ "Output: " ++ output_dir ++ "/")%string
                :: flat_map (fun item =>
                     if path_isdir (fs w) (Path.join output_dir item)
                     then [(" - " ++ item ++ "/")%string]
                     else if path_isfile (fs w) (Path.join output_dir item)
                          then [(" - " ++ item)%string]
                          else []) (sorted items))
             (stderr w) (requests w))
  /\ Permutation (sorted items) items
  /\ Sorted (fun a b => String.leb a b = true) (sorted items).
Proof.
  intros H. split; [|split].
  - unfold report, bind at 1, print at 1. unfold bind at 1, lift_fs. cbn [fs].
    rewrite H. cbn [set_fs fs ARCHIVES stdout stderr requests].
    refine (eq_trans (report_lines output_dir (fs w) (sorted items) _ _ _ _) _).
    cbn [fs ARCHIVES stdout stderr requests].
    rewrite <- (app_assoc (stdout w)). reflexivity.
  - clear H. unfold sorted. induction items as [|x l IH]; simpl; [constructor|].
    apply perm_trans with (x :: fold_right insert_sorted [] l);
      [apply insert_sorted_perm|now apply perm_skip].
  - clear H. unfold sorted. induction items as [|x l IH]; simpl; [constructor|].
    now apply insert_sorted_sorted.
Qed.

End Listing.

(** The theorem applied to an output directory with a directory, a file
    and a dangling link. *)
Lemma report_lists_in_order_witness :
  report "out" Scenario.world_listed
  = Ok tt (World (fs Scenario.world_listed) [] 
             [(Py.nl ++ "Output: out/")%string; " - a"; " - b/"] [] []).
Proof.
  destruct (@report_lists_in_order (posix []) "out" Scenario.world_listed
              ["b"; "a"; "c"]) as [H _]; [vm_compute; reflexivity|].
  rewrite H. vm_compute. reflexivity.
Defined.

(** ** The window and the worker *)

Module GuiFacts.

Import Qt DownloaderGUI.

Lemma join_spaces_cons (w : string) (x : option string)
    (rest : list (option string)) :
  join_spaces (Some w :: x :: rest)
  = match join_spaces (x :: rest) with
    | inl e => inl e
    | inr t => inr (w ++ " " ++ t)%string
    end.
Proof. reflexivity. Qed.

Lemma join_spaces_words (command : list (option string)) (s : string) :
  join_spaces command = inr s -> exists words, command = map Some words.
Proof.
  revert s. induction command as [|[w|] rest IH]; intros s H.
  - now exists [].
  - destruct rest as [|x rest'].
    + now exists [w].
    + rewrite join_spaces_cons in H.
      destruct (join_spaces (x :: rest')) as [e|t]; [discriminate H|].
      destruct (IH t eq_refl) as [words Hw]. exists (w :: words).
      simpl. now rewrite Hw.
  - discriminate H.
Qed.

Lemma namespace_of_set_command_text (g : window) (s : string) :
  namespace_of (set_command_text g s) = namespace_of g.
Proof. reflexivity. Qed.

Lemma key_nonempty (V : Type) (d : Dict.t V) (k : string) (v : V) :
  Dict.get "" d = None -> Dict.get k d = Some v -> nonempty k = true.
Proof.
  intros H0 H. unfold nonempty. destruct (String.eqb_spec k ""); [|reflexivity].
  subst. rewrite H0 in H. discriminate H.
Qed.


Lemma getitem_nonempty (V : Type) (d : Dict.t V) (k : string) (v : V) :
  Dict.get "" d = None -> dict_getitem d k = inr v -> nonempty k = true.
Proof.
  unfold dict_getitem. intros H0 H.
  destruct (Dict.get k d) as [v'|] eqn:E; [|discriminate H].
  exact (key_nonempty V d k v' H0 E).
Qed.

Lemma unwrap_words (words : list string) :
  flat_map (fun o : option string => match o with Some s => [s] | None => [] end)
    (map Some words) = words.
Proof. induction words as [|w l IH]; simpl; [reflexivity|now rewrite IH]. Qed.

Lemma no_None_word (words : list string) : ~ In None (map Some words).
Proof. intros H. apply in_map_iff in H. destruct H as (x & Hx & _). discriminate Hx. Qed.

Ltac by_flag flag Hf :=
  cbn;
  repeat match goal with
         | |- context [String.eqb flag ?c] =>
             destruct (String.eqb_spec flag c);
             [subst flag; try reflexivity; try (now elim Hf)|]
         end;
  try reflexivity.

Ltac read_words Hp words :=
  injection Hp as Hp;
  apply (f_equal (flat_map (fun o : option string =>
                              match o with Some s => [s] | None => [] end))) in Hp;
  rewrite unwrap_words in Hp; cbn in Hp; subst words.

(** What the preview shows and what the worker is started with, for the
    same selections. *)
Lemma selections (g : window) (words : list string)
    (args : DownloadWorker.Namespace) (executable argv0 : string) :
  preview_command g = inr (map Some words) ->
  namespace_of g = inr args ->
  nonempty (currentText (version_combo g)) = true ->
  (forall flag, flag <> "--output" ->
     Dict.get flag (options_of (skipn 2 words))
     = Dict.get flag
         (options_of (skipn 3 (DownloadWorker.cmd executable argv0 args))))
  /\ Dict.get "--output"
       (options_of (skipn 3 (DownloadWorker.cmd executable argv0 args)))
     = Some (if nonempty (output_entry g) then output_entry g else "flat")
  /\ Dict.get "--output" (options_of (skipn 2 words))
     = (if nonempty (output_entry g) then Some (output_entry g) else None).
Proof.
  unfold preview_command, namespace_of. intros Hp Hn Hv. rewrite Hv in Hp.
  destruct (dict_getitem PRODUCTS (currentText (product_combo g)))
    as [e|product] eqn:E1; [discriminate Hn|].
  rewrite (getitem_nonempty string PRODUCTS _ _ eq_refl E1) in Hp.
  destruct (release_label g) as [e|label]; [discriminate Hn|].
  destruct (dict_getitem OPERATING_SYSTEMS (currentText (os_combo g)))
    as [e|os] eqn:E2; [discriminate Hn|].
  rewrite (getitem_nonempty string OPERATING_SYSTEMS _ _ eq_refl E2) in Hp.
  destruct (dict_getitem ARCHITECTURES (currentText (arch_combo g)))
    as [e|arch] eqn:E3; [discriminate Hn|].
  rewrite (getitem_nonempty string ARCHITECTURES _ _ eq_refl E3) in Hp.
  cbn [extend_if some_of app] in Hp.
  destruct (component_chosen g).
  - destruct (dict_getitem COMPONENTS (currentText (component_combo g)))
      as [e|[component|]]; cbn [extend_if app] in Hp.
    + discriminate Hp.
    + destruct (variant_chosen g).
      * destruct (dict_getitem VARIANTS (currentText (variant_combo g)))
          as [e|variant]; cbn [extend_if some_of app] in Hp; [discriminate Hp|].
        destruct (nonempty (output_entry g)); cbn [extend_if app] in Hp;
          injection Hn as <-; read_words Hp words;
          (split; [intros flag Hf; by_flag flag Hf|split; reflexivity]).
      * cbn [extend_if some_of app] in Hp.
        destruct (nonempty (output_entry g)); cbn [extend_if app] in Hp;
          injection Hn as <-; read_words Hp words;
          (split; [intros flag Hf; by_flag flag Hf|split; reflexivity]).
    + exfalso.
      destruct (variant_chosen g);
        [destruct (dict_getitem VARIANTS (currentText (variant_combo g)))
           as [e|variant]; cbn [extend_if some_of app] in Hp; [discriminate Hp|]
        |cbn [extend_if some_of app] in Hp];
        (destruct (nonempty (output_entry g)); cbn [extend_if app] in Hp;
         injection Hp as Hp; apply (no_None_word words); rewrite <- Hp;
         simpl; tauto).
  - cbn [extend_if app] in Hp.
    destruct (variant_chosen g).
    + destruct (dict_getitem VARIANTS (currentText (variant_combo g)))
        as [e|variant]; cbn [extend_if some_of app] in Hp; [discriminate Hp|].
      destruct (nonempty (output_entry g)); cbn [extend_if app] in Hp;
        injection Hn as <-; read_words Hp words;
        (split; [intros flag Hf; by_flag flag Hf|split; reflexivity]).
    + cbn [extend_if some_of app] in Hp.
      destruct (nonempty (output_entry g)); cbn [extend_if app] in Hp;
        injection Hn as <-; read_words Hp words;
        (split; [intros flag Hf; by_flag flag Hf|split; reflexivity]).
Qed.


Lemma extend_if_head (test : bool) (flag : string) (value : pure_res (option string))
    (a b : option string) (l command : list (option string)) :
  extend_if test flag value (a :: b :: l) = inr command ->
  exists l', command = a :: b :: l'.
Proof.
  unfold extend_if. destruct test; [destruct value as [e|v]|]; intros H;
    try discriminate H; injection H as <-; eauto.
Qed.

Lemma preview_head (g : window) (command : list (option string)) :
  preview_command g = inr command ->
  exists rest, command = Some "python" :: Some "download_cuda2.py" :: rest.
Proof.
  unfold preview_command. intros H.
  repeat match type of H with
         | match ?x with inl _ => _ | inr _ => _ end = _ =>
             let E := fresh "E" in
             destruct x eqn:E; [discriminate H|];
             apply extend_if_head in E; destruct E as [? ->]
         end.
  now apply extend_if_head in H.
Qed.

(** The text that [update_command_preview] writes is never blank. *)
Lemma preview_not_blank (g g1 : window) :
  update_command_preview g = inr g1 ->
  blank (command_text g1) = false
  /\ exists s, g1 = set_command_text g s.
Proof.
  unfold update_command_preview. intros H.
  destruct (preview_command g) as [e|command] eqn:Hp; [discriminate H|].
  destruct (preview_head g command Hp) as [rest ->].
  rewrite join_spaces_cons in H.
  destruct (join_spaces (Some "download_cuda2.py" :: rest)) as [e|t];
    [discriminate H|].
  injection H as <-. split; [reflexivity|]. eauto.
Qed.

(** No label of [COMPONENTS] stands for [cuda_nvdisasm]. *)
Lemma components_values (k : string) (v : option string) :
  Dict.get k COMPONENTS = Some v -> v <> Some "cuda_nvdisasm".
Proof.
  cbn.
  repeat match goal with
         | |- context [String.eqb k ?c] =>
             destruct (String.eqb k c); [intros H; injection H as <-; discriminate|]
         end.
  discriminate.
Qed.

End GuiFacts.

(** The preview and the worker agree.  When [update_command_preview] has
    written the command text and [execute_download] then returns, the
    version box having a current item, the worker is started, the button
    is disabled, and the command line that [DownloadWorker.run] builds
    carries the options that the preview shows, each with the same
    value, [--output] apart: the worker is always given one, [flat] when
    the entry is empty, where the preview shows none. *)
Theorem preview_agrees_with_worker
    (g g1 g2 : DownloaderGUI.window) (executable argv0 : string) :
  DownloaderGUI.update_command_preview g = inr g1 ->
  DownloaderGUI.execute_download g1 = inr g2 ->
  Qt.currentText (DownloaderGUI.version_combo g) <> EmptyString ->
  exists (words : list string) (args : DownloadWorker.Namespace),
    DownloaderGUI.preview_command g = inr (map Some words)
    /\ DownloaderGUI.download_worker g2 = Some args
    /\ DownloaderGUI.download_button g2 = false
    /\ (forall flag, flag <> "--output" ->
          Dict.get flag (DownloaderGUI.options_of (skipn 2 words))
          = Dict.get flag
              (DownloaderGUI.options_of
                 (skipn 3 (DownloadWorker.cmd executable argv0 args))))
    /\ Dict.get "--output"
         (DownloaderGUI.options_of
            (skipn 3 (DownloadWorker.cmd executable argv0 args)))
       = Some (if DownloaderGUI.nonempty (DownloaderGUI.output_entry g)
               then DownloaderGUI.output_entry g else "flat")
    /\ Dict.get "--output" (DownloaderGUI.options_of (skipn 2 words))
       = (if DownloaderGUI.nonempty (DownloaderGUI.output_entry g)
          then Some (DownloaderGUI.output_entry g) else None).
Proof.
  intros H1 H2 Hv.
  destruct (GuiFacts.preview_not_blank g g1 H1) as (Hb & s & ->).
  unfold DownloaderGUI.execute_download in H2. rewrite Hb in H2.
  rewrite GuiFacts.namespace_of_set_command_text in H2. cbn [negb] in H2.
  destruct (DownloaderGUI.namespace_of g) as [e|args] eqn:Hn; [discriminate H2|].
  injection H2 as <-.
  unfold DownloaderGUI.update_command_preview in H1.
  destruct (DownloaderGUI.preview_command g) as [e|command] eqn:Hp;
    [discriminate H1|].
  destruct (join_spaces command) as [e|t] eqn:Hj; [discriminate H1|].
  destruct (GuiFacts.join_spaces_words command t Hj) as [words ->].
  exists words, args. split; [reflexivity|]. split; [reflexivity|].
  split; [reflexivity|].
  apply GuiFacts.selections; [exact Hp|exact Hn|].
  unfold DownloaderGUI.nonempty.
  destruct (String.eqb_spec (Qt.currentText (DownloaderGUI.version_combo g)) "");
    [now elim Hv|reflexivity].
Qed.

(** The theorem applied to the window as [setup_ui] builds it. *)
Lemma preview_agrees_with_worker_witness :
  exists (words : list string) (args : DownloadWorker.Namespace),
    DownloaderGUI.preview_command DownloaderGUI.setup_ui = inr (map Some words)
    /\ words = ["python"; "download_cuda2.py"; "--product"; "cuda";
                "--label"; "12.4.0"; "--os"; "windows"; "--arch"; "x86_64"]
    /\ DownloadWorker.cmd "py" "s.py" args
       = ["py"; "s.py"; "--download-only"; "--product"; "cuda";
          "--label"; "12.4.0"; "--os"; "windows"; "--arch"; "x86_64";
          "--output"; "flat"].
Proof.
  destruct (@preview_agrees_with_worker DownloaderGUI.setup_ui
              (DownloaderGUI.set_command_text DownloaderGUI.setup_ui
                 "python download_cuda2.py --product cuda --label 12.4.0 --os windows --arch x86_64")
              (DownloaderGUI.Window
                 (DownloaderGUI.product_combo DownloaderGUI.setup_ui)
                 (DownloaderGUI.version_combo DownloaderGUI.setup_ui)
                 (DownloaderGUI.os_combo DownloaderGUI.setup_ui)
                 (DownloaderGUI.arch_combo DownloaderGUI.setup_ui)
                 (DownloaderGUI.component_combo DownloaderGUI.setup_ui)
                 (DownloaderGUI.variant_combo DownloaderGUI.setup_ui)
                 EmptyString
                 "python download_cuda2.py --product cuda --label 12.4.0 --os windows --arch x86_64"
                 false
                 (Some [("product", Some "cuda"); ("label", Some "12.4.0");
                        ("os", Some "windows"); ("arch", Some "x86_64");
                        ("variant", None); ("component", None);
                        ("output", Some "flat")]))
              "py" "s.py")
    as (words & args & Hw & Ha & _); try (vm_compute; reflexivity).
  - vm_compute. discriminate.
  - exists words, args. split; [exact Hw|].
    vm_compute in Hw. injection Hw as Hw. vm_compute in Ha. injection Ha as <-.
    split; [|vm_compute; reflexivity].
    apply (f_equal (flat_map (fun o : option string =>
                                match o with Some s => [s] | None => [] end))) in Hw.
    rewrite GuiFacts.unwrap_words in Hw. now subst words.
Defined.

(** No selection in the window makes the worker ask for the component
    [cuda_nvdisasm]: its label, [CUDA Binary Utility], is written a second
    time in [COMPONENTS], for [cuda_nvprune], and a dict display keeps the
    last value of a key.  With that label selected the worker is asked
    for [cuda_nvprune]. *)
Theorem nvdisasm_cannot_be_chosen (g : DownloaderGUI.window)
    (args : DownloadWorker.Namespace) :
  DownloaderGUI.namespace_of g = inr args ->
  Dict.get "component" args <> Some (Some "cuda_nvdisasm")
  /\ (Qt.currentText (DownloaderGUI.component_combo g) = "CUDA Binary Utility" ->
      DownloaderGUI.component_chosen g = true ->
      Dict.get "component" args = Some (Some "cuda_nvprune")).
Proof.
  unfold DownloaderGUI.namespace_of. intros Hn.
  destruct (dict_getitem PRODUCTS _) as [e|product]; [discriminate Hn|].
  destruct (DownloaderGUI.release_label g) as [e|label]; [discriminate Hn|].
  destruct (dict_getitem OPERATING_SYSTEMS _) as [e|os]; [discriminate Hn|].
  destruct (dict_getitem ARCHITECTURES _) as [e|arch]; [discriminate Hn|].
  destruct (if DownloaderGUI.variant_chosen g then _ else _) as [e|variant];
    [discriminate Hn|].
  destruct (DownloaderGUI.component_chosen g) eqn:Hc.
  - unfold dict_getitem in Hn.
    destruct (Dict.get (Qt.currentText (DownloaderGUI.component_combo g)) COMPONENTS)
      as [component|] eqn:E; [|discriminate Hn].
    injection Hn as <-. cbn. split.
    + intros H. injection H as H. exact (GuiFacts.components_values _ _ E H).
    + intros Ht _. rewrite Ht in E. vm_compute in E. now injection E as <-.
  - injection Hn as <-. cbn. split; [discriminate|discriminate].
Qed.

(** The theorem applied to the window of [setup_ui] with the label
    [CUDA Binary Utility] selected in the component box. *)
Lemma nvdisasm_cannot_be_chosen_witness :
  exists args : DownloadWorker.Namespace,
    DownloaderGUI.namespace_of
      (DownloaderGUI.Window
         (DownloaderGUI.product_combo DownloaderGUI.setup_ui)
         (DownloaderGUI.version_combo DownloaderGUI.setup_ui)
         (DownloaderGUI.os_combo DownloaderGUI.setup_ui)
         (DownloaderGUI.arch_combo DownloaderGUI.setup_ui)
         (Qt.Combo (Qt.items (DownloaderGUI.component_combo DownloaderGUI.setup_ui))
            (Some 10) true)
         (DownloaderGUI.variant_combo DownloaderGUI.setup_ui)
         "out" EmptyString true None) = inr args
    /\ Dict.get "component" args = Some (Some "cuda_nvprune").
Proof.
  set (args := [("product", Some "cuda"); ("label", Some "12.4.0");
                ("os", Some "windows"); ("arch", Some "x86_64");
                ("variant", None); ("component", Some "cuda_nvprune");
                ("output", Some "out")] : DownloadWorker.Namespace).
  exists args.
  split; [vm_compute; reflexivity|].
  refine (proj2 (@nvdisasm_cannot_be_chosen
                   (DownloaderGUI.Window
                      (DownloaderGUI.product_combo DownloaderGUI.setup_ui)
                      (DownloaderGUI.version_combo DownloaderGUI.setup_ui)
                      (DownloaderGUI.os_combo DownloaderGUI.setup_ui)
                      (DownloaderGUI.arch_combo DownloaderGUI.setup_ui)
                      (Qt.Combo
                         (Qt.items (DownloaderGUI.component_combo DownloaderGUI.setup_ui))
                         (Some 10) true)
                      (DownloaderGUI.variant_combo DownloaderGUI.setup_ui)
                      "out" EmptyString true None)
                   args _) _ _);
    vm_compute; reflexivity.
Defined.

(** After [on_product_change] the release is the first of the product's
    list, and the worker is given no component for cuDNN and no variant
    for the CUDA Toolkit, whatever was selected before: a command line
    never carries both. *)
Theorem on_product_change_resets (product_text : string)
    (g g' : DownloaderGUI.window) (args : DownloadWorker.Namespace) :
  Qt.currentText (DownloaderGUI.product_combo g) = product_text ->
  DownloaderGUI.on_product_change product_text g = inr g' ->
  DownloaderGUI.namespace_of g' = inr args ->
  (product_text = "cuDNN"
   /\ Dict.get "product" args = Some (Some "cudnn")
   /\ Dict.get "label" args = Some (Some "8.9.7")
   /\ Dict.get "component" args = Some None)
  \/ (product_text = "CUDA Toolkit"
      /\ Dict.get "product" args = Some (Some "cuda")
      /\ Dict.get "label" args = Some (Some "12.4.0")
      /\ Dict.get "variant" args = Some None).
Proof.
  intros Ht Hc Hn. unfold DownloaderGUI.on_product_change in Hc.
  unfold dict_getitem in Hc at 1.
  destruct (Dict.get product_text PRODUCTS) as [product|] eqn:E; [|discriminate Hc].
  cbn in E.
  destruct (String.eqb_spec product_text "CUDA Toolkit") as [->|_].
  - injection E as <-. right. cbn in Hc.
    apply GuiFacts.preview_not_blank in Hc. destruct Hc as (_ & s & ->).
    rewrite GuiFacts.namespace_of_set_command_text in Hn.
    unfold DownloaderGUI.namespace_of, DownloaderGUI.release_label in Hn.
    cbn [DownloaderGUI.product_combo DownloaderGUI.version_combo] in Hn.
    rewrite Ht in Hn. cbn in Hn.
    repeat match type of Hn with
           | match ?x with inl _ => _ | inr _ => _ end = _ =>
               destruct x; [discriminate Hn|]
           end.
    injection Hn as <-. cbn. auto.
  - destruct (String.eqb_spec product_text "cuDNN") as [->|_]; [|discriminate E].
    injection E as <-. left. cbn in Hc.
    apply GuiFacts.preview_not_blank in Hc. destruct Hc as (_ & s & ->).
    rewrite GuiFacts.namespace_of_set_command_text in Hn.
    unfold DownloaderGUI.namespace_of, DownloaderGUI.release_label,
      DownloaderGUI.component_chosen in Hn.
    cbn [DownloaderGUI.product_combo DownloaderGUI.version_combo] in Hn.
    rewrite Ht in Hn. cbn in Hn.
    repeat match type of Hn with
           | match ?x with inl _ => _ | inr _ => _ end = _ =>
               destruct x; [discriminate Hn|]
           end.
    injection Hn as <-. cbn. auto.
Qed.

(** The theorem applied to the window of [setup_ui] once cuDNN has been
    selected, a component having been selected before. *)
Lemma on_product_change_resets_witness :
  exists (g' : DownloaderGUI.window) (args : DownloadWorker.Namespace),
    DownloaderGUI.on_product_change "cuDNN"
      (DownloaderGUI.Window
         (Qt.Combo (Dict.keys PRODUCTS) (Some 1) true)
         (DownloaderGUI.version_combo DownloaderGUI.setup_ui)
         (DownloaderGUI.os_combo DownloaderGUI.setup_ui)
         (DownloaderGUI.arch_combo DownloaderGUI.setup_ui)
         (Qt.Combo (Qt.items (DownloaderGUI.component_combo DownloaderGUI.setup_ui))
            (Some 10) true)
         (DownloaderGUI.variant_combo DownloaderGUI.setup_ui)
         "out" EmptyString true None) = inr g'
    /\ DownloaderGUI.namespace_of g' = inr args
    /\ DownloaderGUI.command_text g'
       = "python download_cuda2.py --product cudnn --label 8.9.7 --os windows --arch x86_64 --variant cuda11 --output out"
    /\ Dict.get "label" args = Some (Some "8.9.7")
    /\ Dict.get "component" args = Some None.
Proof.
  eexists. eexists.
  split; [vm_compute; reflexivity|]. split; [vm_compute; reflexivity|].
  split; [vm_compute; reflexivity|].
  destruct (@on_product_change_resets "cuDNN"
              (DownloaderGUI.Window
                 (Qt.Combo (Dict.keys PRODUCTS) (Some 1) true)
                 (DownloaderGUI.version_combo DownloaderGUI.setup_ui)
                 (DownloaderGUI.os_combo DownloaderGUI.setup_ui)
                 (DownloaderGUI.arch_combo DownloaderGUI.setup_ui)
                 (Qt.Combo
                    (Qt.items (DownloaderGUI.component_combo DownloaderGUI.setup_ui))
                    (Some 10) true)
                 (DownloaderGUI.variant_combo DownloaderGUI.setup_ui)
                 "out" EmptyString true None)
              _ _ eq_refl eq_refl eq_refl) as [(_ & _ & H1 & H2)|(H & _)];
    [now split|discriminate H].
Defined.

(** In the window that [setup_ui] builds every box has a selection that
    the tables know, and the command text is empty, no slot having run:
    [execute_download] then starts no worker and leaves the window as it
    is.  Once [update_command_preview] has run, on whatever window, the
    command text is not blank and [execute_download] goes on to the
    tables. *)
Theorem download_needs_a_preview :
  DownloaderGUI.execute_download DownloaderGUI.setup_ui = inr DownloaderGUI.setup_ui
  /\ (exists args, DownloaderGUI.namespace_of DownloaderGUI.setup_ui = inr args)
  /\ forall g g1 : DownloaderGUI.window,
       DownloaderGUI.update_command_preview g = inr g1 ->
       DownloaderGUI.execute_download g1
       = match DownloaderGUI.namespace_of g with
         | inl e => inl e
         | inr args =>
             inr (DownloaderGUI.Window
                    (DownloaderGUI.product_combo g) (DownloaderGUI.version_combo g)
                    (DownloaderGUI.os_combo g) (DownloaderGUI.arch_combo g)
                    (DownloaderGUI.component_combo g)
                    (DownloaderGUI.variant_combo g) (DownloaderGUI.output_entry g)
                    (DownloaderGUI.command_text g1) false (Some args))
         end.
Proof.
  split; [vm_compute; reflexivity|]. split; [eexists; vm_compute; reflexivity|].
  intros g g1 H.
  destruct (GuiFacts.preview_not_blank g g1 H) as (Hb & s & ->).
  unfold DownloaderGUI.execute_download. rewrite Hb.
  rewrite GuiFacts.namespace_of_set_command_text. reflexivity.
Qed.

(** The script refuses to start exactly on the interpreters below 3.8:
    those with a major version below 3, and the 3.x with x below 8. *)
Theorem too_old_below_3_8 (major minor micro : Z) :
  too_old major minor micro
  = Some ((major <? 3) || ((major =? 3) && (minor <? 8)))%Z%bool.
Proof.
  unfold too_old.
  change (map_int (Py.split "." minimum)) with (Some [3; 8]%Z).
  cbn [tuple_lt]. now rewrite andb_false_r, orb_false_r.
Qed.
